(** * ShopIt backend: payment-event reconciliation

    A shallow embedding of [src/controllers/PaymentController.js]:
    the checkout initiator [paymentProcess], the webhook handler
    [checkOutSession] with its per-line-item callbacks, and the status
    query [paymentVerify].

    Conventions of the embedding.
    - Documents of the store are records; the [products] and [users]
      collections are finite maps keyed by [_id], the [orders] collection is
      a list in insertion order.
    - Counts (stock, quantity) are integers.  The price and the discount of
      a cart entry, which the initiator computes with, are JavaScript
      Numbers: IEEE-754 binary64 values with the operations of the standard
      library's [SpecFloat] at precision 53.
    - An [async] function is a state transformer that either returns or
      throws (a rejected promise).  The callbacks that [forEach] starts are
      small state machines, one state per [await]; a schedule says which
      callback is resumed next and whether the awaited operation fulfilled.
    - The payment provider and [JSON.parse]/[JSON.stringify] are outside the
      repository: they are parameters of the development. *)

From stdpp Require Import gmap strings list pretty.
From Stdlib Require Import Ascii QArith Qround Qabs SpecFloat.

Open Scope Z_scope.

(** ** Numbers *)

(** A JavaScript Number: an IEEE-754 binary64 value. *)
Definition Number := spec_float.

(** The Number of a whole-number literal such as [100]. *)
Definition Number_of_Z (n : Z) : Number := binary_normalize 53 1024 n 0 false.

(** [x - y], [x * y] and [x / y] on Numbers: round to nearest, ties to
    even. *)
Definition Number_sub : Number -> Number -> Number := SFsub 53 1024.
Definition Number_mul : Number -> Number -> Number := SFmul 53 1024.
Definition Number_div : Number -> Number -> Number := SFdiv 53 1024.

(** The real number a finite Number stands for, [m * 2^e] with its sign. *)
Definition to_Q (x : Number) : Q :=
  match x with
  | S754_finite s m (Zneg k) => cond_Zopp s (Zpos m) # 2 ^ k
  | S754_finite s m e => inject_Z (cond_Zopp s (Zpos m) * 2 ^ e)
  | _ => 0%Q
  end.

(** The integer closest to [q], the larger one of two. *)
Definition half_up (q : Q) : Z := Qfloor (q + (1 # 2))%Q.

(** [Math.round(x)]: the integral Number closest to [x], the one towards
    plus infinity of two; a result of zero keeps the sign of [x].  A Number
    that is integral already is its own rounding. *)
Definition Math_round (x : Number) : Number :=
  match x with
  | S754_finite s _ _ => binary_normalize 53 1024 (half_up (to_Q x)) 0 s
  | _ => x
  end.

(** [parseFloat(x)] for a Number [x]: the argument is written as a string
    and read back, which gives [x] again, except that minus zero is written
    ["0"]. *)
Definition parseFloat (x : Number) : Number :=
  match x with
  | S754_zero _ => S754_zero false
  | _ => x
  end.

(** The character of a decimal digit. *)
Definition digit (d : Z) : ascii := ascii_of_nat (48 + Z.to_nat d).

(** The Number that the decimal numeral of the whole number [v] reads as is
    [x]. *)
Definition reads_back (x : Number) (v : Z) : bool :=
  match x, binary_normalize 53 1024 v 0 false with
  | S754_finite _ m e, S754_finite _ m' e' => bool_decide (m = m' /\ e = e')
  | _, _ => false
  end.

(** Of the two multiples of [10^q] next to [X], the one that reads back as
    [x], the nearer one first; [None] if neither does. *)
Definition shortest_at (x : Number) (X : Z) (q : Z) : option Z :=
  let t := 10 ^ q in
  let lo := X / t in
  let hi := lo + 1 in
  let near_lo := bool_decide (X - lo * t < hi * t - X
                              \/ (X - lo * t = hi * t - X /\ Z.even lo = true)) in
  let first := if near_lo then lo else hi in
  let second := if near_lo then hi else lo in
  if bool_decide (0 < first) && reads_back x (first * t) then Some first
  else if bool_decide (0 < second) && reads_back x (second * t) then Some second
  else None.

(** The digits [s] and the exponent [q] of the shortest decimal [s * 10^q]
    that reads back as [x]: the largest [q] has the fewest digits, and [q]
    is at most the number of digits of [X]. *)
Fixpoint shortest (x : Number) (X : Z) (fuel : nat) : Z * Z :=
  match fuel with
  | O => (X, 0)
  | S fuel' =>
      match shortest_at x X (Z.of_nat fuel) with
      | Some s => (s, Z.of_nat fuel)
      | None => shortest x X fuel'
      end
  end.

(** [Number::toString] of the absolute value of a Number from 10^21 on,
    which is a whole number: the shortest decimal that reads back as it, in
    exponent notation. *)
Definition exponential (x : Number) : string :=
  let X := Qfloor (Qabs (to_Q x)) in
  let '(s, q) := shortest x X (String.length (pretty X)) in
  let digits := pretty s in
  let n := Z.of_nat (String.length digits) + q in
  match digits with
  | String d EmptyString => String d ("e+" +:+ pretty (n - 1))
  | String d rest => String d ("." +:+ rest +:+ "e+" +:+ pretty (n - 1))
  | EmptyString => EmptyString
  end.

(** [x.toFixed(2)]: the integer [n] closest to [100 * |x|], the larger of
    two, written with a point before its last two digits; exponent notation
    from 10^21 on. *)
Definition toFixed2 (x : Number) : string :=
  match x with
  | S754_nan => "NaN"
  | S754_infinity false => "Infinity"
  | S754_infinity true => "-Infinity"
  | _ =>
      let s := match x with S754_finite true _ _ => "-" | _ => EmptyString end in
      let a := Qabs (to_Q x) in
      if Qle_bool (inject_Z (10 ^ 21)) a then s +:+ exponential x
      else
        let n := half_up (a * 100) in
        s +:+ pretty (n / 100) +:+ "."
          +:+ String (digit (n mod 100 / 10)) (String (digit (n mod 10)) EmptyString)
  end.

(** ** Documents *)

(** An entry of [req.body.cart].  [item_other] stands for whatever further
    properties the buyer put on the object; the controller never reads
    them. *)
Record CartItem := {
  item_id : string;
  item_size : string;
  item_color : string;
  item_quantity : Z;
  item_price : Number;
  item_discount : Number;
  item_title : string;
  item_other : list (string * string)
}.

(** An entry of [orderData], the snapshot serialized into the customer
    metadata and read back as [ctr] by the webhook. *)
Record OrderDatum := {
  ctr_id : string;
  ctr_size : string;
  ctr_color : string;
  ctr_quantity : Z;
  ctr_userId : string
}.

Record User := {
  user_id : string;
  email : string
}.

Record Order := {
  productId : string;
  userId : string;
  order_size : string;
  order_color : string;
  quantities : Z;
  address : string;
  review : bool
}.

(** The fields [ProductModel.create] is given in the product controller. *)
Record Product := {
  title : string;
  price : Z;
  discount : Z;
  stock : Z;
  category : string;
  colors : list string;
  sizes : list string;
  image1 : string;
  image2 : string;
  image3 : string;
  description : string
}.

Record Store := {
  users : gmap string User;
  orders : list Order;
  products : gmap string Product
}.

(** [{ $set: { stock } }] on one document. *)
Definition set_stock (s : Z) (p : Product) : Product :=
  {| title := title p; price := price p; discount := discount p; stock := s;
     category := category p; colors := colors p; sizes := sizes p;
     image1 := image1 p; image2 := image2 p; image3 := image3 p;
     description := description p |}.

(** Everything of a product document but its stock. *)
Definition catalog_fields (p : Product) :=
  (title p, price p, discount p, category p, colors p, sizes p,
   (image1 p, image2 p, image3 p), description p).

(** ** Store operations (Mongoose) *)

(** [User.findOne({ _id: id })] *)
Definition User_findOne (id : string) (db : Store) : option User :=
  users db !! id.

(** The filter [{ productId, userId }] with [.where("review").equals(true)]. *)
Definition order_matches (pid uid : string) (o : Order) : bool :=
  bool_decide (productId o = pid) && bool_decide (userId o = uid) && review o.

(** [OrderModel.findOne(...)]: the first matching document, if any. *)
Definition OrderModel_findOne (pid uid : string) (db : Store) : option Order :=
  List.find (order_matches pid uid) (orders db).

(** [OrderModel.create(doc)] *)
Definition OrderModel_create (o : Order) (db : Store) : Store :=
  {| users := users db; orders := orders db ++ [o]; products := products db |}.

(** [ProductModel.findOne({ _id: id })] *)
Definition ProductModel_findOne (id : string) (db : Store) : option Product :=
  products db !! id.

(** [ProductModel.findByIdAndUpdate(id, { stock }, { new: true })]: no
    upsert, so a missing document is left missing. *)
Definition ProductModel_findByIdAndUpdate (id : string) (s : Z) (db : Store) : Store :=
  {| users := users db; orders := orders db;
     products := alter (set_stock s) id (products db) |}.

(** ** HTTP response (Express) *)

Inductive Body :=
| NoBody
| TextBody (s : string)
| JsonString (s : string)
| JsonObject (fields : list (string * string)).

(** [statusCode] is the property [res.status] sets; [sent] is what went out
    on the wire, at most once. *)
Record Response := {
  statusCode : Z;
  sent : option (Z * Body)
}.

Definition fresh_response : Response := {| statusCode := 200; sent := None |}.

(** ** Completions of JavaScript code *)

Inductive Completion (A : Type) :=
| Returned (a : A)
| Thrown (message : string).
Arguments Returned {A} a.
Arguments Thrown {A} message.

(** ** The payment provider's data *)

Record Customer := {
  customer_id : string;
  customer_email : string;
  (** [customer?.metadata?.cart], [None] when any link is missing *)
  customer_metadata_cart : option string
}.

Record LineItem := {
  currency : string;
  product_data_name : string;
  unit_amount_decimal : string;
  quantity : Z
}.

Record ShippingOption := {
  shipping_type : string;
  fixed_amount : Z;
  fixed_currency : string;
  display_name : string;
  delivery_minimum : string * Z;
  delivery_maximum : string * Z
}.

Record SessionParams := {
  allowed_countries : list string;
  shipping_options : list ShippingOption;
  line_items : list LineItem;
  customer : string;
  mode : string;
  success_url : string;
  cancel_url : string
}.

Record Session := {
  session_id : string;
  url : string;
  payment_status : string
}.

(** [event.data.object] of a checkout session event, as far as it is read. *)
Record SessionData := {
  data_customer : string;
  customer_details_address : string
}.

Record Event := {
  event_type : string;
  data_object : SessionData
}.

Inductive StripeRequest :=
| CustomersCreate (email cart : string)
| SessionsCreate (params : SessionParams)
| CustomersRetrieve (id : string)
| SessionsRetrieve (id : string).

(** The provider as the controller sees it: four remote calls, which answer
    or throw and may change the provider's state [P], and the local
    signature check. *)
Class StripeClient (P : Type) := {
  customers_create : string -> string -> P -> Completion Customer * P;
  checkout_sessions_create : SessionParams -> P -> Completion Session * P;
  customers_retrieve : string -> P -> Completion Customer * P;
  checkout_sessions_retrieve : string -> P -> Completion Session * P;
  webhooks_constructEvent : string -> option string -> string -> Completion Event
}.

(** [process.env] *)
Record Env := {
  ENDPOINTSECRET : string;
  CLIENT : string
}.

(** ** Pricing of a line item *)

(** [item.price - item.price * percentage], the discounted price before it
    is rounded. *)
Definition discounted (item : CartItem) : Number :=
  let percentage := Number_div (item_discount item) (Number_of_Z 100) in
  Number_sub (item_price item) (Number_mul (item_price item) percentage).

(** The Number [actualPrice] holds before [toFixed]:
    [parseFloat(Math.round(item.price - item.price * percentage)) * 100]. *)
Definition actualPrice (item : CartItem) : Number :=
  let actualPrice := Math_round (discounted item) in
  let actualPrice := parseFloat actualPrice in
  Number_mul actualPrice (Number_of_Z 100).

(** The callback of [line_items: cart.map(...)]. *)
Definition line_item (item : CartItem) : LineItem :=
  {| currency := "usd";
     product_data_name := item_title item;
     unit_amount_decimal := toFixed2 (actualPrice item);
     quantity := item_quantity item |}.

(** The callback of [const orderData = cart.map(...)]. *)
Definition orderData (cart : list CartItem) (user : User) : list OrderDatum :=
  map (fun item =>
         {| ctr_id := item_id item;
            ctr_size := item_size item;
            ctr_color := item_color item;
            ctr_quantity := item_quantity item;
            ctr_userId := user_id user |}) cart.

(** ** Handler state and the [async] monad *)

(** What a handler can read and change: the store, the provider (with the
    list of requests made to it, oldest first) and the response object. *)
Record World (P : Type) := {
  db : Store;
  provider : P;
  requests : list StripeRequest;
  res : Response
}.
Arguments db {P} w.
Arguments provider {P} w.
Arguments requests {P} w.
Arguments res {P} w.

(** The world a request arrives in. *)
Definition incoming {P} (d : Store) (p : P) : World P :=
  {| db := d; provider := p; requests := []; res := fresh_response |}.

Definition with_res {P} (r : Response) (w : World P) : World P :=
  {| db := db w; provider := provider w; requests := requests w; res := r |}.

Definition Async (P A : Type) : Type := World P -> Completion A * World P.

Definition ret {P A} (a : A) : Async P A := fun w => (Returned a, w).

Definition bind {P A B} (m : Async P A) (k : A -> Async P B) : Async P B :=
  fun w =>
    match m w with
    | (Returned a, w') => k a w'
    | (Thrown e, w') => (Thrown e, w')
    end.

(** [try { m } catch (error) { h error }] *)
Definition try_catch {P A} (m : Async P A) (h : string -> Async P A) : Async P A :=
  fun w =>
    match m w with
    | (Returned a, w') => (Returned a, w')
    | (Thrown e, w') => h e w'
    end.

Notation "'let!' x ':=' m 'in' k" := (bind m (fun x => k))
  (at level 10, x name, m at level 100, k at level 200).

(** Lifting a completion that needs no state. *)
Definition lift {P A} (c : Completion A) : Async P A := fun w => (c, w).

(** [res.status(code)] *)
Definition set_status (code : Z) (r : Response) : Response :=
  {| statusCode := code; sent := sent r |}.

(** Writing the head and body.  Express sets headers for any body, which
    throws once the response went out; ending an ended response without a
    body does nothing. *)
Definition write_out (body : Body) (r : Response) : Completion unit * Response :=
  match sent r, body with
  | None, _ => (Returned tt, {| statusCode := statusCode r; sent := Some (statusCode r, body) |})
  | Some _, NoBody => (Returned tt, r)
  | Some _, _ => (Thrown "Cannot set headers after they are sent to the client", r)
  end.

Definition res_status {P} (code : Z) : Async P unit :=
  fun w => (Returned tt, with_res (set_status code (res w)) w).

(** [res.json(body)] and [res.send(body)] *)
Definition res_send {P} (body : Body) : Async P unit :=
  fun w => let (c, r) := write_out body (res w) in (c, with_res r w).

(** A remote call to the provider, recorded in [requests]. *)
Definition stripe_call {P A} (rq : StripeRequest) (op : P -> Completion A * P) : Async P A :=
  fun w =>
    let (c, p) := op (provider w) in
    (c, {| db := db w; provider := p; requests := requests w ++ [rq]; res := res w |}).

(** A query that only reads the store. *)
Definition query {P A} (q : Store -> A) : Async P A := fun w => (Returned (q (db w)), w).

(** ** Callbacks of [customer.forEach(async (ctr) => ...)] *)

(** Where a callback is suspended: at one of its four [await]s (with the
    variables it still needs: [data] from the enclosing handler, its
    argument [ctr] and its locals), or settled. *)
Inductive Callback :=
| AwaitFindOrder (data : SessionData) (ctr : OrderDatum)
| AwaitCreate (data : SessionData) (ctr : OrderDatum) (reviewStatus : bool)
| AwaitFindProduct (ctr : OrderDatum)
| AwaitUpdate (ctr : OrderDatum) (stock : Z)
| Fulfilled
| Rejected (message : string).

(** The document given to [OrderModel.create]. *)
Definition new_order (data : SessionData) (ctr : OrderDatum) (reviewStatus : bool) : Order :=
  {| productId := ctr_id ctr;
     userId := ctr_userId ctr;
     order_size := ctr_size ctr;
     order_color := ctr_color ctr;
     quantities := ctr_quantity ctr;
     address := customer_details_address data;
     review := reviewStatus |}.

(** The [catch] block: [return response.status(500).json(...)]. *)
Definition on_error (r : Response) : Callback * Response :=
  match write_out (JsonString "Server internal error") (set_status 500 r) with
  | (Returned _, r') => (Fulfilled, r')
  | (Thrown e, r') => (Rejected e, r')
  end.

(** Resuming a suspended callback: the awaited operation takes effect (or
    fails, [outcome = Some message]) and the callback runs to its next
    [await]. *)
Definition resume_callback (outcome : option string)
    (cb : Callback) (d : Store) (r : Response) : Callback * Store * Response :=
  match cb, outcome with
  | Fulfilled, _ | Rejected _, _ => (cb, d, r)
  | _, Some _ => let (cb', r') := on_error r in (cb', d, r')
  | AwaitFindOrder data ctr, None =>
      let findOrder := OrderModel_findOne (ctr_id ctr) (ctr_userId ctr) d in
      let reviewStatus := match findOrder with Some _ => true | None => false end in
      (AwaitCreate data ctr reviewStatus, d, r)
  | AwaitCreate data ctr reviewStatus, None =>
      (AwaitFindProduct ctr, OrderModel_create (new_order data ctr reviewStatus) d, r)
  | AwaitFindProduct ctr, None =>
      match ProductModel_findOne (ctr_id ctr) d with
      | Some product =>
          let stock := stock product - ctr_quantity ctr in
          let stock := Z.max stock 0 in
          (AwaitUpdate ctr stock, d, r)
      | None => (Fulfilled, d, r)
      end
  | AwaitUpdate ctr stock, None =>
      (Fulfilled, ProductModel_findByIdAndUpdate (ctr_id ctr) stock d, r)
  end.

(** The store, the response and the callbacks in flight after the handler
    returned. *)
Record EventLoop := {
  loop_db : Store;
  loop_res : Response;
  callbacks : list Callback
}.

(** One turn of the loop: callback [i] is resumed. *)
Definition turn (st : EventLoop) (step : nat * option string) : EventLoop :=
  let (i, outcome) := step in
  match callbacks st !! i with
  | None => st
  | Some cb =>
      let '(cb', d, r) := resume_callback outcome cb (loop_db st) (loop_res st) in
      {| loop_db := d; loop_res := r; callbacks := <[i := cb']> (callbacks st) |}
  end.

Definition run (schedule : list (nat * option string)) (st : EventLoop) : EventLoop :=
  fold_left turn schedule st.

(** [forEach] calls every callback once; each runs up to its first
    [await]. *)
Definition forEach (data : SessionData) (customer : list OrderDatum) : list Callback :=
  map (AwaitFindOrder data) customer.

(** The schedule that takes the callbacks one after another, each through
    its four awaits with every operation fulfilled. *)
Definition one_by_one (n : nat) : list (nat * option string) :=
  flat_map (fun i => replicate 4 (i, None)) (seq 0 n).

(** The schedule that resumes the callbacks in turn, as a store that answers
    in the order it was asked makes them run. *)
Definition in_turn (n : nat) : list (nat * option string) :=
  mjoin (replicate 4 (map (fun i => (i, None)) (seq 0 n))).

(** What a webhook delivery leaves behind: the store and the provider, what
    the provider was answered ([None]: the handler threw before answering)
    and the callbacks. *)
Record Delivered (P : Type) := {
  store_after : Store;
  provider_after : P;
  answered : option (Z * Body);
  callbacks_after : list Callback
}.
Arguments store_after {P} _.
Arguments provider_after {P} _.
Arguments answered {P} _.
Arguments callbacks_after {P} _.

(** ** The three handlers *)

(** What the webhook route passes on: [request.rawBody] and
    [request.headers["stripe-signature"]]. *)
Record WebhookRequest := {
  rawBody : string;
  stripe_signature : option string
}.

Definition free_shipping : ShippingOption :=
  {| shipping_type := "fixed_amount";
     fixed_amount := 0;
     fixed_currency := "usd";
     display_name := "Free shipping";
     delivery_minimum := ("business_day", 5);
     delivery_maximum := ("business_day", 7) |}.

Section Controller.

Context {P : Type} `{!StripeClient P}.
Variable env : Env.
Variable JSON_stringify : list OrderDatum -> string.
(** [JSON.parse] followed by the use of the value as an array of line
    items: [None] when that throws.  The elements of a parsed array are taken
    to be objects, as [orderData] writes them. *)
Variable JSON_parse : string -> option (list OrderDatum).

(** The argument of [stripe.checkout.sessions.create]. *)
Definition session_params (cart : list CartItem) (customer_id : string) : SessionParams :=
  {| allowed_countries := ["PK"; "IN"; "BD"];
     shipping_options := [free_shipping];
     line_items := map line_item cart;
     customer := customer_id;
     mode := "payment";
     success_url := CLIENT env +:+ "/user?session_id={CHECKOUT_SESSION_ID}";
     cancel_url := CLIENT env +:+ "/cart" |}.

Definition paymentProcess (cart : list CartItem) (id : string) : Async P unit :=
  let! user := query (User_findOne id) in
  match user with
  | None =>
      let! _ := res_status 404 in
      res_send (JsonObject [("error", "User not found")])
  | Some user =>
      let orderData := orderData cart user in
      let cart_blob := JSON_stringify orderData in
      let! customer :=
        stripe_call (CustomersCreate (email user) cart_blob)
                    (customers_create (email user) cart_blob) in
      let params := session_params cart (customer_id customer) in
      let! session := stripe_call (SessionsCreate params) (checkout_sessions_create params) in
      res_send (JsonObject [("url", url session)])
  end.

(** [JSON.parse(customer?.metadata?.cart)]; an absent blob is
    [JSON.parse(undefined)], which throws as well. *)
Definition parse_cart (blob : option string) : Completion (list OrderDatum) :=
  match blob with
  | None => Thrown "SyntaxError"
  | Some text =>
      match JSON_parse text with
      | Some customer => Returned customer
      | None => Thrown "SyntaxError"
      end
  end.

(** The [switch (event.type)]: the callbacks it leaves in flight. *)
Definition dispatch (event : Event) : Async P (list Callback) :=
  if bool_decide (event_type event = "payment_intent.succeeded") then ret []
  else if bool_decide (event_type event = "checkout.session.completed") then
    let data := data_object event in
    let! customer :=
      stripe_call (CustomersRetrieve (data_customer data))
                  (customers_retrieve (data_customer data)) in
    let! customer := lift (parse_cart (customer_metadata_cart customer)) in
    ret (forEach data customer)
  else ret [].

Definition checkOutSession (request : WebhookRequest) : Async P (list Callback) :=
  let sig := stripe_signature request in
  match webhooks_constructEvent (rawBody request) sig (ENDPOINTSECRET env) with
  | Thrown err =>
      let! _ := res_status 400 in
      let! _ := res_send (TextBody ("Webhook Error: " +:+ err)) in
      ret []
  | Returned event =>
      let! spawned := dispatch event in
      let! _ := res_send NoBody in
      ret spawned
  end.

Definition paymentVerify (id : string) : Async P unit :=
  try_catch
    (let! session := stripe_call (SessionsRetrieve id) (checkout_sessions_retrieve id) in
     let! _ := res_status 200 in
     res_send (JsonObject [("msg", "Your payment has verfied successfully");
                           ("status", payment_status session)]))
    (fun error =>
       let! _ := res_status 500 in
       res_send (JsonString error)).

(** One webhook delivery from arrival to quiescence: the handler runs on a
    fresh response, then the loop resumes the callbacks as [schedule]
    says. *)
Definition deliver (schedule : list (nat * option string)) (request : WebhookRequest)
    (d : Store) (p : P) : Delivered P :=
  match checkOutSession request (incoming d p) with
  | (Returned spawned, w) =>
      let st := run schedule
                  {| loop_db := db w; loop_res := res w; callbacks := spawned |} in
      {| store_after := loop_db st; provider_after := provider w;
         answered := sent (loop_res st); callbacks_after := callbacks st |}
  | (Thrown _, w) =>
      {| store_after := db w; provider_after := provider w;
         answered := sent (res w); callbacks_after := [] |}
  end.

End Controller.

(** ** The product controller: image URLs and deletion *)

(** [s.toLowerCase()] on the letters A to Z; the regular expression below
    has the [i] flag and only such letters. *)
Definition lower (c : ascii) : ascii :=
  let n := nat_of_ascii c in
  if bool_decide (65 <= n <= 90)%nat then ascii_of_nat (n + 32) else c.

Fixpoint toLowerCase (s : string) : string :=
  match s with
  | EmptyString => EmptyString
  | String c rest => String (lower c) (toLowerCase rest)
  end.

(** [url.startsWith(prefix)] *)
Fixpoint startsWith (prefix url : string) : bool :=
  match prefix, url with
  | EmptyString, _ => true
  | String c prefix', String c' url' => Ascii.eqb c c' && startsWith prefix' url'
  | String _ _, EmptyString => false
  end.

(** The text from some position to the end is [.jpg], [.jpeg] or [.png],
    whatever the case of the letters. *)
Definition image_extension (s : string) : bool :=
  existsb (String.eqb (toLowerCase s)) [".jpg"; ".jpeg"; ".png"].

(** [/\.(jpg|jpeg|png)$/i.test(url)] *)
Fixpoint test_image_extension (url : string) : bool :=
  match url with
  | EmptyString => false
  | String c rest => image_extension url || test_image_extension rest
  end.

Definition cloudinary_prefix : string := "https://res.cloudinary.com".

(** [isValidImageUrl]: the value is used as a condition only, so the empty
    string, which the function returns as it is, counts as false. *)
Definition isValidImageUrl (url : string) : bool :=
  negb (String.eqb url EmptyString)
  && startsWith cloudinary_prefix url
  && test_image_extension url.

(** [s.split(sep)] for a separator of one character. *)
Fixpoint split (sep : ascii) (s : string) : list string :=
  match s with
  | EmptyString => [EmptyString]
  | String c rest =>
      if Ascii.eqb c sep then EmptyString :: split sep rest
      else match split sep rest with
           | x :: xs => String c x :: xs
           | [] => [String c EmptyString]
           end
  end.

(** [imageUrl.split("/").pop().split(".")[0]] *)
Definition imagePublicId (imageUrl : string) : string :=
  hd EmptyString (split "." (List.last (split "/" imageUrl) EmptyString)).

(** The asset host, as far as the controller deletes from it. *)
Class Cloudinary (C : Type) := {
  uploader_destroy : string -> C -> Completion unit * C
}.

(** [ProductModel.findByIdAndDelete(id)] *)
Definition ProductModel_findByIdAndDelete (id : string) (db : Store) : Store :=
  {| users := users db; orders := orders db; products := delete id (products db) |}.

(** A write to the store. *)
Definition modify {P} (f : Store -> Store) : Async P unit :=
  fun w => (Returned tt,
            {| db := f (db w); provider := provider w; requests := requests w; res := res w |}).

(** A call to a remote service whose state is the world's [provider]. *)
Definition remote_call {P A} (op : P -> Completion A * P) : Async P A :=
  fun w =>
    let (c, p) := op (provider w) in
    (c, {| db := db w; provider := p; requests := requests w; res := res w |}).

(** [Promise.all] of promises whose functions have all been called, in
    order, before any continues: every one takes effect; the result throws
    if one of them threw (the first of the list stands for the first in
    time). *)
Fixpoint Promise_all {P} (started : list (Async P unit)) : Async P unit :=
  fun w =>
    match started with
    | [] => (Returned tt, w)
    | m :: rest =>
        let (c, w1) := m w in
        let (c', w2) := Promise_all rest w1 in
        (match c with Thrown e => Thrown e | Returned _ => c' end, w2)
    end.

Section Catalog.

Context {C : Type} `{!Cloudinary C}.

Definition deleteProduct (id : string) : Async C unit :=
  try_catch
    (let! product := query (ProductModel_findOne id) in
     match product with
     | None =>
         let! _ := res_status 404 in
         res_send (JsonObject [("msg", "Product not found")])
     | Some product =>
         let imageUrls := [image1 product; image2 product; image3 product] in
         let! _ :=
           Promise_all
             (map (fun imageUrl =>
                     let imagePublicId := imagePublicId imageUrl in
                     remote_call (uploader_destroy ("products/" +:+ imagePublicId)))
                  imageUrls) in
         let! _ := modify (ProductModel_findByIdAndDelete id) in
         let! _ := res_status 200 in
         res_send (JsonObject [("msg", "Product has been deleted successfully")])
     end)
    (fun error =>
       let! _ := res_status 500 in
       res_send (JsonObject [("msg", "Error deleting product")])).

End Catalog.

(** ** A provider and a JSON codec to run the model on *)

(** A codec for the JSON that [orderData] serializes to: an array of objects
    with the five keys in the order the object literal lists them, strings
    with the quote and the backslash escaped, integers in decimal. *)
Module Json.

Definition quote : ascii := "034"%char.
Definition backslash : ascii := "\"%char.

Fixpoint escape (s : string) : string :=
  match s with
  | EmptyString => EmptyString
  | String c rest =>
      if bool_decide (c = quote) || bool_decide (c = backslash)
      then String backslash (String c (escape rest))
      else String c (escape rest)
  end.

Definition str (s : string) : string :=
  String quote (escape s) +:+ String quote EmptyString.

Definition key (k : string) : string := str k +:+ ":".

Definition object (ctr : OrderDatum) : string :=
  "{" +:+ key "_id" +:+ str (ctr_id ctr) +:+ ","
      +:+ key "size" +:+ str (ctr_size ctr) +:+ ","
      +:+ key "color" +:+ str (ctr_color ctr) +:+ ","
      +:+ key "quantity" +:+ pretty (ctr_quantity ctr) +:+ ","
      +:+ key "userId" +:+ str (ctr_userId ctr) +:+ "}".

Fixpoint join (sep : string) (parts : list string) : string :=
  match parts with
  | [] => EmptyString
  | [x] => x
  | x :: rest => x +:+ sep +:+ join sep rest
  end.

Definition stringify (l : list OrderDatum) : string :=
  "[" +:+ join "," (map object l) +:+ "]".

(** Parsers consume a prefix of the text and return the rest. *)
Fixpoint literal (lit : string) (text : string) : option string :=
  match lit, text with
  | EmptyString, _ => Some text
  | String c lit', String c' text' =>
      if bool_decide (c = c') then literal lit' text' else None
  | String _ _, EmptyString => None
  end.

Fixpoint string_body (text : string) : option (string * string) :=
  match text with
  | EmptyString => None
  | String c rest =>
      if bool_decide (c = quote) then Some (EmptyString, rest)
      else if bool_decide (c = backslash) then
        match rest with
        | String c' rest' =>
            if bool_decide (c' = quote) || bool_decide (c' = backslash) then
              '(s, rest'') ← string_body rest'; Some (String c' s, rest'')
            else None
        | EmptyString => None
        end
      else '(s, rest') ← string_body rest; Some (String c s, rest')
  end.

Definition string_value (text : string) : option (string * string) :=
  match text with
  | String c rest => if bool_decide (c = quote) then string_body rest else None
  | EmptyString => None
  end.

Definition digit (c : ascii) : option Z :=
  let n := Z.of_nat (nat_of_ascii c) in
  if bool_decide (48 <= n <= 57) then Some (n - 48) else None.

Fixpoint digits (acc : Z) (text : string) : Z * string :=
  match text with
  | String c rest =>
      match digit c with
      | Some v => digits (10 * acc + v) rest
      | None => (acc, text)
      end
  | EmptyString => (acc, text)
  end.

Definition natural (text : string) : option (Z * string) :=
  match text with
  | String c _ =>
      match digit c with
      | Some _ => Some (digits 0 text)
      | None => None
      end
  | EmptyString => None
  end.

Definition integer (text : string) : option (Z * string) :=
  match text with
  | String "-" rest => '(n, rest') ← natural rest; Some (- n, rest')
  | _ => natural text
  end.

Definition object_value (text : string) : option (OrderDatum * string) :=
  text ← literal ("{" +:+ key "_id") text;
  '(id, text) ← string_value text;
  text ← literal ("," +:+ key "size") text;
  '(size, text) ← string_value text;
  text ← literal ("," +:+ key "color") text;
  '(color, text) ← string_value text;
  text ← literal ("," +:+ key "quantity") text;
  '(quantity, text) ← integer text;
  text ← literal ("," +:+ key "userId") text;
  '(userId, text) ← string_value text;
  text ← literal "}" text;
  Some ({| ctr_id := id; ctr_size := size; ctr_color := color;
           ctr_quantity := quantity; ctr_userId := userId |}, text).

(** The elements after the first, up to the closing bracket. *)
Fixpoint elements (fuel : nat) (text : string) : option (list OrderDatum) :=
  match fuel with
  | O => None
  | S fuel' =>
      match text with
      | String "]" EmptyString => Some []
      | String "," rest =>
          '(ctr, rest') ← object_value rest;
          l ← elements fuel' rest';
          Some (ctr :: l)
      | _ => None
      end
  end.

Definition parse (text : string) : option (list OrderDatum) :=
  match text with
  | String "[" (String "]" EmptyString) => Some []
  | String "[" rest =>
      '(ctr, rest') ← object_value rest;
      l ← elements (String.length text) rest';
      Some (ctr :: l)
  | _ => None
  end.

End Json.

(** An in-memory provider: customers and sessions are kept in lists and
    named by their position; an event is accepted when the signature header
    is the secret followed by the body, and decoded by a table. *)
Module Fake.

Record Ledger := {
  ledger_customers : list Customer;
  ledger_sessions : list Session
}.

Definition empty : Ledger := {| ledger_customers := []; ledger_sessions := [] |}.

Definition create_customer (email cart : string) (p : Ledger) : Completion Customer * Ledger :=
  let c := {| customer_id := "cus_" +:+ pretty (length (ledger_customers p));
              customer_email := email;
              customer_metadata_cart := Some cart |} in
  (Returned c, {| ledger_customers := ledger_customers p ++ [c];
                  ledger_sessions := ledger_sessions p |}).

Definition create_session (params : SessionParams) (p : Ledger) : Completion Session * Ledger :=
  let id := "cs_" +:+ pretty (length (ledger_sessions p)) in
  let s := {| session_id := id;
              url := "https://checkout.test/" +:+ id;
              payment_status := "unpaid" |} in
  (Returned s, {| ledger_customers := ledger_customers p;
                  ledger_sessions := ledger_sessions p ++ [s] |}).

Definition retrieve_customer (id : string) (p : Ledger) : Completion Customer * Ledger :=
  match List.find (fun c => bool_decide (customer_id c = id)) (ledger_customers p) with
  | Some c => (Returned c, p)
  | None => (Thrown ("No such customer: " +:+ id), p)
  end.

Definition retrieve_session (id : string) (p : Ledger) : Completion Session * Ledger :=
  match List.find (fun s => bool_decide (session_id s = id)) (ledger_sessions p) with
  | Some s => (Returned s, p)
  | None => (Thrown ("No such checkout.session: " +:+ id), p)
  end.

Definition construct_event (table : list (string * Event))
    (body : string) (sig : option string) (secret : string) : Completion Event :=
  if bool_decide (sig = Some (secret +:+ body)) then
    match List.find (fun e => bool_decide (e.1 = body)) table with
    | Some e => Returned e.2
    | None => Thrown "Unexpected end of JSON input"
    end
  else Thrown "No signatures found matching the expected signature for payload".

Definition stripe (table : list (string * Event)) : StripeClient Ledger :=
  {| customers_create := create_customer;
     checkout_sessions_create := create_session;
     customers_retrieve := retrieve_customer;
     checkout_sessions_retrieve := retrieve_session;
     webhooks_constructEvent := construct_event table |}.

End Fake.

(** A provider that refuses what the real one refuses: a metadata value of
    more than 500 characters, and a payment session without line items. *)
Module Strict.

Definition create_customer (email cart : string) (p : Fake.Ledger)
    : Completion Customer * Fake.Ledger :=
  if bool_decide (String.length cart <= 500)%nat then Fake.create_customer email cart p
  else (Thrown "Metadata values can have up to 500 characters", p).

Definition create_session (params : SessionParams) (p : Fake.Ledger)
    : Completion Session * Fake.Ledger :=
  match line_items params with
  | [] => (Thrown "line_items is required in payment mode", p)
  | _ :: _ => Fake.create_session params p
  end.

Definition stripe (table : list (string * Event)) : StripeClient Fake.Ledger :=
  {| customers_create := create_customer;
     checkout_sessions_create := create_session;
     customers_retrieve := Fake.retrieve_customer;
     checkout_sessions_retrieve := Fake.retrieve_session;
     webhooks_constructEvent := Fake.construct_event table |}.

End Strict.

(** An asset host kept as the list of public ids it still has; destroying
    an id it does not have is an error. *)
Module Cloud.

Definition destroy (public_id : string) (assets : list string)
    : Completion unit * list string :=
  if bool_decide (public_id ∈ assets)
  then (Returned tt, List.filter (fun a => negb (String.eqb a public_id)) assets)
  else (Thrown ("Resource not found: " +:+ public_id), assets).

Definition host : Cloudinary (list string) := {| uploader_destroy := destroy |}.

End Cloud.

(** ** Vocabulary of the properties *)

(** A Number that is neither NaN nor an infinity. *)
Definition is_finite (x : Number) : bool :=
  match x with
  | S754_zero _ | S754_finite _ _ _ => true
  | _ => false
  end.

(** The 53-digit mantissa of the whole number [p], for [p] below 2^53. *)
Definition mantissa (p : positive) : positive :=
  Z.to_pos (Zpos p * 2 ^ (53 - Zdigits2 (Zpos p))).

(** The loop right after the handler returned. *)
Definition start (d : Store) (r : Response) (spawned : list Callback) : EventLoop :=
  {| loop_db := d; loop_res := r; callbacks := spawned |}.

(** The product a callback may still write to. *)
Definition target (cb : Callback) : option string :=
  match cb with
  | AwaitFindOrder _ ctr | AwaitCreate _ ctr _ | AwaitFindProduct ctr | AwaitUpdate ctr _ =>
      Some (ctr_id ctr)
  | Fulfilled | Rejected _ => None
  end.

(** Whether some order for the pair is review eligible. *)
Definition eligible (os : list Order) (pid uid : string) : bool :=
  existsb (order_matches pid uid) os.

(** The clamped decrement of one line item. *)
Definition decrement (q : Z) (p : Product) : Product :=
  set_stock (Z.max (stock p - q) 0) p.

(** The sum of the quantities the line items request of product [k]. *)
Definition requested (k : string) (items : list OrderDatum) : Z :=
  foldr (fun ctr acc => if bool_decide (ctr_id ctr = k) then ctr_quantity ctr + acc else acc)
        0 items.

(** One callback taken through its four awaits without interruption. *)
Definition reconcile (data : SessionData) (d : Store) (ctr : OrderDatum) : Store :=
  let reviewStatus := eligible (orders d) (ctr_id ctr) (ctr_userId ctr) in
  let d1 := OrderModel_create (new_order data ctr reviewStatus) d in
  match ProductModel_findOne (ctr_id ctr) d1 with
  | Some product =>
      ProductModel_findByIdAndUpdate (ctr_id ctr)
        (Z.max (stock product - ctr_quantity ctr) 0) d1
  | None => d1
  end.

(** A schedule in which every awaited operation is fulfilled. *)
Definition fault_free (schedule : list (nat * option string)) : Prop :=
  Forall (fun step => step.2 = None) schedule.

(** The orders one delivery of [items] creates, given the orders [os] that
    were there before. *)
Definition batch (data : SessionData) (os : list Order) (items : list OrderDatum)
    : list Order :=
  map (fun ctr => new_order data ctr (eligible os (ctr_id ctr) (ctr_userId ctr))) items.

(** The callback will create its order for buyer [u], if it has not created
    it yet. *)
Definition on_behalf (u : string) (cb : Callback) : Prop :=
  match cb with
  | AwaitFindOrder _ ctr | AwaitCreate _ ctr _ => ctr_userId ctr = u
  | _ => True
  end.

(** The stock a callback is about to write is not negative. *)
Definition pending_nonneg (cb : Callback) : Prop :=
  match cb with
  | AwaitUpdate _ s => 0 <= s
  | _ => True
  end.

(** The callback is past [OrderModel.create]. *)
Definition created (cb : Callback) : bool :=
  match cb with
  | AwaitFindProduct _ | AwaitUpdate _ _ | Fulfilled => true
  | AwaitFindOrder _ _ | AwaitCreate _ _ _ | Rejected _ => false
  end.

(** A callback of a run without failures, against the line item it was
    started for: it still holds that item and the event's [data], and the
    flag it looked up is the eligibility among the orders [os] the delivery
    found. *)
Definition agrees (data : SessionData) (os : list Order) (cb : Callback) (ctr : OrderDatum)
    : Prop :=
  match cb with
  | AwaitFindOrder data' c => data' = data /\ c = ctr
  | AwaitCreate data' c reviewStatus =>
      data' = data /\ c = ctr
      /\ reviewStatus = eligible os (ctr_id ctr) (ctr_userId ctr)
  | AwaitFindProduct c | AwaitUpdate c _ => c = ctr
  | Fulfilled => True
  | Rejected _ => False
  end.

(** The orders of the callbacks that are past their creation. *)
Fixpoint emitted (data : SessionData) (os : list Order)
    (cbs : list Callback) (items : list OrderDatum) : list Order :=
  match cbs, items with
  | cb :: cbs', ctr :: items' =>
      (if created cb
       then [new_order data ctr (eligible os (ctr_id ctr) (ctr_userId ctr))]
       else [])
      ++ emitted data os cbs' items'
  | _, _ => []
  end.

(** Where the callback of the only line item of product [ctr_id ctr] stands
    against that product's document: untouched until the callback is
    fulfilled, decremented afterwards. *)
Definition stock_stage (before now : gmap string Product) (ctr : OrderDatum)
    (cb : option Callback) : Prop :=
  match cb with
  | Some (AwaitFindOrder _ c) | Some (AwaitCreate _ c _) | Some (AwaitFindProduct c) =>
      c = ctr /\ now !! ctr_id ctr = before !! ctr_id ctr
  | Some (AwaitUpdate c s) =>
      c = ctr /\ now !! ctr_id ctr = before !! ctr_id ctr
      /\ exists p0, before !! ctr_id ctr = Some p0
                    /\ s = Z.max (stock p0 - ctr_quantity ctr) 0
  | Some Fulfilled =>
      now !! ctr_id ctr = decrement (ctr_quantity ctr) <$> before !! ctr_id ctr
  | Some (Rejected _) | None => False
  end.

(** ** Proof steps *)

(** Projections of a world that is written out. *)
Ltac simp_world := cbn [db provider requests res sent statusCode app fst snd].

(** Unfolds a handler applied to a world. *)
Ltac step_handler :=
  unfold paymentProcess, checkOutSession, dispatch, paymentVerify,
    try_catch, bind, ret, lift, query, stripe_call, res_status, res_send,
    write_out, set_status, with_res, incoming, fresh_response;
  simp_world.

(** ** Vocabulary of the further properties *)

(** What [resume_callback] does, case by case: a settled callback stays as
    it is; a failed await sends an unsettled callback through the [catch]
    block, which answers 500 if nothing was sent yet and throws otherwise;
    a fulfilled await takes the callback one await further. *)
Inductive resumes :
  option string -> Callback -> Store -> Response -> Callback -> Store -> Response -> Prop :=
| resumes_settled outcome cb d r :
    target cb = None -> resumes outcome cb d r cb d r
| resumes_caught e cb d r x :
    is_Some (target cb) -> sent r = Some x ->
    resumes (Some e) cb d r
      (Rejected "Cannot set headers after they are sent to the client") d (set_status 500 r)
| resumes_answered e cb d r :
    is_Some (target cb) -> sent r = None ->
    resumes (Some e) cb d r Fulfilled d
      {| statusCode := 500; sent := Some (500, JsonString "Server internal error") |}
| resumes_looked_up data ctr d r :
    resumes None (AwaitFindOrder data ctr) d r
      (AwaitCreate data ctr (eligible (orders d) (ctr_id ctr) (ctr_userId ctr))) d r
| resumes_created data ctr reviewStatus d r :
    resumes None (AwaitCreate data ctr reviewStatus) d r
      (AwaitFindProduct ctr) (OrderModel_create (new_order data ctr reviewStatus) d) r
| resumes_found ctr product d r :
    products d !! ctr_id ctr = Some product ->
    resumes None (AwaitFindProduct ctr) d r
      (AwaitUpdate ctr (Z.max (stock product - ctr_quantity ctr) 0)) d r
| resumes_missing ctr d r :
    products d !! ctr_id ctr = None ->
    resumes None (AwaitFindProduct ctr) d r Fulfilled d r
| resumes_updated ctr s d r :
    resumes None (AwaitUpdate ctr s) d r
      Fulfilled (ProductModel_findByIdAndUpdate (ctr_id ctr) s d) r.

(** One for a callback that has still to create its order. *)
Definition to_create (cb : Callback) : nat :=
  match cb with
  | AwaitFindOrder _ _ | AwaitCreate _ _ _ => 1
  | _ => 0
  end.

(** The order is the one [OrderModel.create] is given for some line item of
    the event, with the flag that line item's pair had among [os]. *)
Definition comes_from (data : SessionData) (os : list Order) (items : list OrderDatum)
    (o : Order) : Prop :=
  exists ctr, ctr ∈ items
              /\ o = new_order data ctr (eligible os (ctr_id ctr) (ctr_userId ctr)).

(** A callback of any run, failures included, against the line item it was
    started for. *)
Definition follows (data : SessionData) (os : list Order) (cb : Callback) (ctr : OrderDatum)
    : Prop :=
  match cb with
  | AwaitFindOrder data' c => data' = data /\ c = ctr
  | AwaitCreate data' c reviewStatus =>
      data' = data /\ c = ctr
      /\ reviewStatus = eligible os (ctr_id ctr) (ctr_userId ctr)
  | AwaitFindProduct c | AwaitUpdate c _ => c = ctr
  | Fulfilled | Rejected _ => True
  end.

(** [stock_stage] for runs with failures: a rejected callback has not
    written. *)
Definition stock_stage_any (before now : gmap string Product) (ctr : OrderDatum)
    (cb : option Callback) : Prop :=
  match cb with
  | Some (AwaitFindOrder _ c) | Some (AwaitCreate _ c _) | Some (AwaitFindProduct c) =>
      c = ctr /\ now !! ctr_id ctr = before !! ctr_id ctr
  | Some (AwaitUpdate c s) =>
      c = ctr /\ now !! ctr_id ctr = before !! ctr_id ctr
      /\ exists p0, before !! ctr_id ctr = Some p0
                    /\ s = Z.max (stock p0 - ctr_quantity ctr) 0
  | Some Fulfilled =>
      now !! ctr_id ctr = decrement (ctr_quantity ctr) <$> before !! ctr_id ctr
  | Some (Rejected _) => now !! ctr_id ctr = before !! ctr_id ctr
  | None => False
  end.

(** What a callback has taken of product [k]: the quantity of its line
    item once it is fulfilled. *)
Definition paid (k : string) (cb : Callback) (ctr : OrderDatum) : Z :=
  match cb with
  | Fulfilled => if bool_decide (ctr_id ctr = k) then ctr_quantity ctr else 0
  | _ => 0
  end.

(** The quantities of product [k] that fulfilled callbacks had in their line
    items. *)
Fixpoint spent (k : string) (cbs : list Callback) (items : list OrderDatum) : Z :=
  match cbs, items with
  | cb :: cbs', ctr :: items' => paid k cb ctr + spent k cbs' items'
  | _, _ => 0
  end.

(** A callback against its line item and the stock [s0] that product [k]
    had when the delivery arrived: the stock it is about to write is at most
    [s0] and at least [s0] less what has been spent and its own quantity. *)
Definition within_budget (k : string) (s0 budget : Z) (cb : Callback) (ctr : OrderDatum)
    : Prop :=
  match cb with
  | AwaitFindOrder _ c | AwaitCreate _ c _ | AwaitFindProduct c => c = ctr
  | AwaitUpdate c s =>
      c = ctr /\ (ctr_id ctr = k -> 0 <= s <= s0 /\ s0 - budget - ctr_quantity ctr <= s)
  | Fulfilled | Rejected _ => True
  end.

(** Character [c] occurs in [s]. *)
Fixpoint occurs (c : ascii) (s : string) : bool :=
  match s with
  | EmptyString => false
  | String c' rest => Ascii.eqb c' c || occurs c rest
  end.

(** None of the completions is a throw. *)
Definition all_returned {A} (cs : list (Completion A)) : bool :=
  forallb (fun c => match c with Returned _ => true | Thrown _ => false end) cs.

(** Every callback of the list resumed once, from the first to the last,
    each awaited operation fulfilled. *)
Fixpoint sweep (d : Store) (r : Response) (cbs : list Callback) : Store * list Callback :=
  match cbs with
  | [] => (d, [])
  | cb :: rest =>
      let '(cb', d', _) := resume_callback None cb d r in
      let (d'', rest') := sweep d' r rest in
      (d'', cb' :: rest')
  end.

(** The write of a line item that read its product in the store [d]. *)
Definition write_back (d : Store) (m : gmap string Product) (ctr : OrderDatum)
    : gmap string Product :=
  match products d !! ctr_id ctr with
  | Some product =>
      alter (set_stock (Z.max (stock product - ctr_quantity ctr) 0)) (ctr_id ctr) m
  | None => m
  end.

(** ** Scenarios

    The scenario of the specification: buyer B1 buys three of product P1
    (price 1000, discount 10), and variations of it. *)
Module Scenario.

Definition shirt : CartItem :=
  {| item_id := "P1"; item_size := "M"; item_color := "red"; item_quantity := 3;
     item_price := Number_of_Z 1000; item_discount := Number_of_Z 10;
     item_title := "Shirt"; item_other := [] |}.

(** A jacket of price 50 with 55 percent off: in doubles 55 / 100 is a
    little above 0.55 and the discounted price a little below 22.5. *)
Definition jacket : CartItem :=
  {| item_id := "P3"; item_size := "L"; item_color := "blue"; item_quantity := 1;
     item_price := Number_of_Z 50; item_discount := Number_of_Z 55;
     item_title := "Jacket"; item_other := [] |}.

(** Socks of price 19.99 without discount. *)
Definition socks : CartItem :=
  {| item_id := "P4"; item_size := "M"; item_color := "grey"; item_quantity := 2;
     item_price := Number_div (Number_of_Z 1999) (Number_of_Z 100);
     item_discount := Number_of_Z 0;
     item_title := "Socks"; item_other := [] |}.

Definition B1 : User := {| user_id := "B1"; email := "b1@shop.test" |}.

Definition P1 (s : Z) : Product :=
  {| title := "Shirt"; price := 1000; discount := 10; stock := s;
     category := "clothes"; colors := ["red"]; sizes := ["M"; "L"];
     image1 := "1.jpg"; image2 := "2.jpg"; image3 := "3.jpg";
     description := "A shirt" |}.

(** A store with buyer B1 and [s] pieces of product P1, no orders yet. *)
Definition shop (s : Z) : Store :=
  {| users := {["B1" := B1]}; orders := []; products := {["P1" := P1 s]} |}.

Definition env : Env := {| ENDPOINTSECRET := "whsec"; CLIENT := "https://shop.test" |}.

Definition completed (customer_id : string) : Event :=
  {| event_type := "checkout.session.completed";
     data_object := {| data_customer := customer_id;
                       customer_details_address := "1 Main Street" |} |}.

Definition succeeded : Event :=
  {| event_type := "payment_intent.succeeded";
     data_object := {| data_customer := "cus_0";
                       customer_details_address := "1 Main Street" |} |}.

(** The bodies the provider may post, and what they decode to. *)
Definition events : list (string * Event) :=
  [("evt_1", completed "cus_0"); ("evt_2", succeeded); ("evt_3", completed "cus_9")].

Definition stripe : StripeClient Fake.Ledger := Fake.stripe events.

Definition signed (body : string) : WebhookRequest :=
  {| rawBody := body; stripe_signature := Some ("whsec" +:+ body) |}.


Definition cus_0 (blob : option string) : Customer :=
  {| customer_id := "cus_0"; customer_email := "b1@shop.test";
     customer_metadata_cart := blob |}.

(** A provider that holds one customer with the given cart blob. *)
Definition ledger (blob : option string) : Fake.Ledger :=
  {| Fake.ledger_customers := [cus_0 blob];
     Fake.ledger_sessions :=
       [{| session_id := "cs_0"; url := "https://checkout.test/cs_0";
           payment_status := "paid" |}] |}.

Definition datum (id size : string) (q : Z) : OrderDatum :=
  {| ctr_id := id; ctr_size := size; ctr_color := "red"; ctr_quantity := q;
     ctr_userId := "B1" |}.

(** The response once the webhook handler has answered. *)
Definition acknowledged : Response := {| statusCode := 200; sent := Some (200, NoBody) |}.

(** The same product in two sizes, three pieces each. *)
Definition two_sizes : list OrderDatum := [datum "P1" "M" 3; datum "P1" "L" 3].

(** The loop after the handler answered the completed checkout of the given
    line items, with [s] pieces of P1 in stock. *)
Definition reconciling (s : Z) (items : list OrderDatum) : EventLoop :=
  start (shop s) acknowledged (forEach (data_object (completed "cus_0")) items).

(** The cart blob of the scenario, as the initiator writes it. *)
Definition blob : string := Json.stringify [datum "P1" "M" 3].

(** The provider after the checkout of the scenario was initiated. *)
Definition provider_with_cart : Fake.Ledger := ledger (Some blob).

End Scenario.

#[global] Existing Instance Scenario.stripe.

(** A second scenario: ten pieces of P1 and one piece of P2 in stock; B1
    buys three of P1, four of P2 and one of P9, which the store does not
    have. *)
Module Market.

Definition P2 (s : Z) : Product :=
  {| title := "Cap"; price := 20; discount := 0; stock := s;
     category := "clothes"; colors := ["blue"]; sizes := ["one"];
     image1 := "4.jpg"; image2 := "5.jpg"; image3 := "6.jpg";
     description := "A cap" |}.

Definition store : Store :=
  {| users := {["B1" := Scenario.B1]}; orders := [];
     products := {["P1" := Scenario.P1 10; "P2" := P2 1]} |}.

Definition data : SessionData := data_object (Scenario.completed "cus_0").

Definition two_products : list OrderDatum :=
  [Scenario.datum "P1" "M" 3; Scenario.datum "P2" "one" 4].

Definition three_products : list OrderDatum :=
  two_products ++ [Scenario.datum "P9" "L" 1].

(** The loop after the handler answered the completed checkout of the given
    line items. *)
Definition reconciling (items : list OrderDatum) : EventLoop :=
  start store Scenario.acknowledged (forEach data items).

(** The second line item fails at its first await, then the first line item
    goes through its four. *)
Definition second_fails : list (nat * option string) :=
  (1%nat, Some "connection lost") :: replicate 4 (0%nat, None).

End Market.

(** * Properties *)

(** ** Whole numbers in binary64 *)

Lemma iter_pos_Nat_iter {A} (f : A -> A) (p : positive) (x : A) :
  iter_pos f p x = Nat.iter (Pos.to_nat p) f x.
Proof.
  revert x. induction p as [p IH|p IH|]; intros x; cbn [iter_pos].
  - rewrite !IH, Pos2Nat.inj_xI. rewrite <- Nat.iter_add.
    replace (Pos.to_nat p + Pos.to_nat p)%nat with (2 * Pos.to_nat p)%nat by lia.
    now rewrite <- Nat.iter_succ_r.
  - rewrite !IH, Pos2Nat.inj_xO. rewrite <- Nat.iter_add.
    f_equal. lia.
  - reflexivity.
Qed.

(** Shifting out zeros loses nothing. *)
Lemma shr_1_exact (k : nat) (q : positive) :
  Nat.iter k shr_1 {| shr_m := Zpos q * 2 ^ Z.of_nat k; shr_r := false; shr_s := false |}
  = {| shr_m := Zpos q; shr_r := false; shr_s := false |}.
Proof.
  induction k as [|k IH].
  - cbn [Nat.iter]. now rewrite Z.mul_1_r.
  - rewrite Nat.iter_succ_r.
    replace (Zpos q * 2 ^ Z.of_nat (S k)) with (2 * (Zpos q * 2 ^ Z.of_nat k))
      by (rewrite Nat2Z.inj_succ, Z.pow_succ_r by lia; ring).
    assert (Hpos : 0 < Zpos q * 2 ^ Z.of_nat k) by (apply Z.mul_pos_pos; [lia|apply Z.pow_pos_nonneg; lia]).
    destruct (Zpos q * 2 ^ Z.of_nat k) as [|r|r] eqn:E; try lia.
    change (2 * Z.pos r) with (Z.pos r~0). cbn [shr_1 orb]. exact IH.
Qed.

Lemma digits2_pos_size (p : positive) : digits2_pos p = Pos.size p.
Proof. induction p; cbn; congruence. Qed.

Lemma Zdigits2_log2 (p : positive) : Zdigits2 (Zpos p) = Z.log2 (Zpos p) + 1.
Proof.
  destruct p as [p|p|]; cbn [Zdigits2 digits2_pos Z.log2]; rewrite ?digits2_pos_size; lia.
Qed.

Lemma Zdigits2_shift (q : positive) (n : Z) (P : positive) :
  0 <= n -> Zpos P = Zpos q * 2 ^ n -> Zdigits2 (Zpos P) = Zdigits2 (Zpos q) + n.
Proof.
  intros Hn HP. rewrite !Zdigits2_log2, HP, Z.log2_mul_pow2 by lia. lia.
Qed.

Lemma Zdigits2_le (p : positive) (k : Z) : Zpos p < 2 ^ k -> 0 <= k -> Zdigits2 (Zpos p) <= k.
Proof.
  intros Hp Hk. rewrite Zdigits2_log2.
  apply Z.log2_lt_pow2 in Hp; lia.
Qed.

Lemma Zdigits2_pos (p : positive) : 0 < Zdigits2 (Zpos p).
Proof. cbn. lia. Qed.

(** A mantissa of 53 digits followed by [n] zeros is rounded to that
    mantissa, exactly. *)
Lemma binary_round_aux_exact (s : bool) (P q : positive) (E n : Z) :
  Zpos P = Zpos q * 2 ^ n -> 0 <= n -> Zdigits2 (Zpos q) = 53 ->
  -1074 <= E + n <= 971 ->
  binary_round_aux 53 1024 s (Zpos P) E loc_Exact = S754_finite s q (E + n).
Proof.
  intros HP Hn Hq HE.
  assert (HdP : Zdigits2 (Zpos P) = 53 + n) by (rewrite (Zdigits2_shift q n P Hn HP); lia).
  unfold binary_round_aux.
  assert (Hfirst : shr_fexp 53 1024 (Zpos P) E loc_Exact
                   = ({| shr_m := Zpos q; shr_r := false; shr_s := false |}, E + n)).
  { unfold shr_fexp. rewrite HdP. unfold fexp, emin.
    replace (Z.max (53 + n + E - 53) (3 - 1024 - 53) - E) with n by lia.
    cbn [shr_record_of_loc]. unfold shr. destruct n as [|k|k]; [| |lia].
    - rewrite Z.mul_1_r in HP. rewrite HP, Z.add_0_r. reflexivity.
    - f_equal. rewrite iter_pos_Nat_iter, HP.
      rewrite <- (positive_nat_Z k) at 1. apply shr_1_exact. }
  rewrite Hfirst. cbn [shr_m loc_of_shr_record round_nearest_even].
  assert (Hsecond : shr_fexp 53 1024 (Zpos q) (E + n) loc_Exact
                    = ({| shr_m := Zpos q; shr_r := false; shr_s := false |}, E + n)).
  { unfold shr_fexp. rewrite Hq. unfold fexp, emin.
    replace (Z.max (53 + (E + n) - 53) (3 - 1024 - 53) - (E + n)) with 0 by lia.
    reflexivity. }
  rewrite Hsecond. cbn [shr_m].
  destruct (Z.leb_spec (E + n) (1024 - 53)); [reflexivity|lia].
Qed.

Lemma Pos_iter_xO (p j : positive) : Zpos (Pos.iter xO p j) = Zpos p * 2 ^ Zpos j.
Proof.
  induction j as [|j IH] using Pos.peano_ind.
  - cbn. lia.
  - rewrite Pos.iter_succ, Pos2Z.inj_xO, IH, Pos2Z.inj_succ, Z.pow_succ_r by lia. ring.
Qed.

Lemma mantissa_spec (p : positive) :
  Zpos p < 2 ^ 53 ->
  Zpos (mantissa p) = Zpos p * 2 ^ (53 - Zdigits2 (Zpos p))
  /\ Zdigits2 (Zpos (mantissa p)) = 53
  /\ 0 <= 53 - Zdigits2 (Zpos p) <= 52.
Proof.
  intros Hp. pose proof (Zdigits2_le p 53 Hp ltac:(lia)) as Hd.
  pose proof (Zdigits2_pos p) as Hd0.
  assert (E : Zpos (mantissa p) = Zpos p * 2 ^ (53 - Zdigits2 (Zpos p))).
  { unfold mantissa. rewrite Z2Pos.id; [reflexivity|].
    apply Z.mul_pos_pos; [lia|apply Z.pow_pos_nonneg; lia]. }
  split; [exact E|]. split; [|lia].
  rewrite (Zdigits2_shift p (53 - Zdigits2 (Zpos p)) (mantissa p) ltac:(lia) E). lia.
Qed.

Lemma binary_round_whole (s : bool) (p : positive) :
  Zpos p < 2 ^ 53 ->
  binary_round 53 1024 s p 0 = S754_finite s (mantissa p) (Zdigits2 (Zpos p) - 53).
Proof.
  intros Hp. destruct (mantissa_spec p Hp) as (Hm & Hd & Hj).
  unfold binary_round. rewrite Z.add_0_r.
  change (Zpos (digits2_pos p)) with (Zdigits2 (Zpos p)).
  unfold fexp, emin.
  replace (Z.max (Zdigits2 (Zpos p) - 53) (3 - 1024 - 53)) with (Zdigits2 (Zpos p) - 53) by lia.
  unfold shl_align. rewrite Z.sub_0_r.
  destruct (Zdigits2 (Zpos p) - 53) as [|j|j] eqn:Ej; [|lia|].
  - assert (Hmp : mantissa p = p).
    { apply Pos2Z.inj. rewrite Hm. replace (53 - Zdigits2 (Zpos p)) with 0 by lia. lia. }
    rewrite Hmp.
    rewrite (binary_round_aux_exact s p p 0 0); [reflexivity|lia|lia| |lia].
    rewrite <- Hmp at 1. exact Hd.
  - assert (Hmp : Pos.iter xO p j = mantissa p).
    { apply Pos2Z.inj. rewrite Hm, Pos_iter_xO. f_equal. f_equal. lia. }
    rewrite Hmp.
    rewrite (binary_round_aux_exact s (mantissa p) (mantissa p) (Zneg j) 0);
      [now rewrite Z.add_0_r|lia|lia|exact Hd|lia].
Qed.

(** The product of a whole number and 100 is exact while it stays below
    2^53. *)
Lemma Number_mul_100_whole (s : bool) (p : positive) :
  Zpos p * 100 < 2 ^ 53 ->
  Number_mul (binary_round 53 1024 s p 0) (Number_of_Z 100)
  = binary_round 53 1024 s (100 * p) 0.
Proof.
  intros Hp.
  assert (Hp1 : Zpos p < 2 ^ 53) by lia.
  assert (Hp2 : Zpos (100 * p) < 2 ^ 53) by lia.
  rewrite (binary_round_whole s p Hp1), (binary_round_whole s (100 * p) Hp2).
  destruct (mantissa_spec p Hp1) as (Hm1 & _ & Hj1).
  destruct (mantissa_spec (100 * p) Hp2) as (Hm2 & Hd2 & Hj2).
  change (Number_of_Z 100) with (S754_finite false 7036874417766400 (-46)).
  unfold Number_mul. cbn [SFmul]. rewrite xorb_false_r.
  assert (Hle : Zdigits2 (Zpos p) <= Zdigits2 (Zpos (100 * p))).
  { rewrite !Zdigits2_log2. pose proof (Z.log2_le_mono (Zpos p) (Zpos (100 * p))). lia. }
  set (D := Zdigits2 (Zpos p)) in *. set (D' := Zdigits2 (Zpos (100 * p))) in *.
  rewrite (binary_round_aux_exact s _ (mantissa (100 * p)) _ (46 + (D' - D))).
  - f_equal. lia.
  - rewrite Pos2Z.inj_mul, Hm1, Hm2, Pos2Z.inj_mul.
    change (Zpos 7036874417766400) with (100 * 2 ^ 46).
    replace (53 - D) with ((53 - D') + (D' - D)) by lia.
    rewrite (Z.pow_add_r 2 (53 - D') (D' - D)), (Z.pow_add_r 2 46 (D' - D)) by lia. ring.
  - lia.
  - exact Hd2.
  - lia.
Qed.

Lemma to_Q_whole (s : bool) (p : positive) :
  Zpos p < 2 ^ 53 ->
  (to_Q (S754_finite s (mantissa p) (Zdigits2 (Zpos p) - 53))
   == inject_Z (cond_Zopp s (Zpos p)))%Q.
Proof.
  intros Hp. destruct (mantissa_spec p Hp) as (Hm & _ & Hj).
  unfold to_Q. destruct (Zdigits2 (Zpos p) - 53) as [|k|k] eqn:Ek; [|lia|].
  - replace (53 - Zdigits2 (Zpos p)) with 0 in Hm by lia.
    rewrite Hm. destruct s; cbn [cond_Zopp]; apply inject_Z_injective; lia.
  - replace (53 - Zdigits2 (Zpos p)) with (Zpos k) in Hm by lia.
    unfold Qeq. cbn [Qnum Qden inject_Z]. rewrite Pos2Z.inj_pow.
    destruct s; cbn [cond_Zopp]; rewrite ?Pos2Z.opp_pos; lia.
Qed.

(** [toFixed(2)] of a whole number below 2^53. *)
Lemma toFixed2_whole (s : bool) (p : positive) :
  Zpos p < 2 ^ 53 ->
  toFixed2 (binary_round 53 1024 s p 0) = pretty (cond_Zopp s (Zpos p)) +:+ ".00".
Proof.
  intros Hp. rewrite (binary_round_whole s p Hp).
  pose proof (to_Q_whole s p Hp) as Hq.
  set (x := S754_finite s (mantissa p) (Zdigits2 (Zpos p) - 53)) in *.
  assert (Ha : (Qabs (to_Q x) == inject_Z (Zpos p))%Q).
  { rewrite Hq. destruct s; reflexivity. }
  assert (Hcmp : Qle_bool (inject_Z (10 ^ 21)) (Qabs (to_Q x)) = false).
  { rewrite Ha. apply not_true_is_false. intros H. apply Qle_bool_imp_le in H.
    rewrite <- Zle_Qle in H. lia. }
  assert (Hn : half_up (Qabs (to_Q x) * 100) = Zpos p * 100).
  { unfold half_up. rewrite Ha.
    change 100%Q with (inject_Z 100). rewrite <- inject_Z_mult.
    unfold Qfloor, Qplus, inject_Z. cbn [Qnum Qden].
    change (Zpos (1 * 2)) with 2. rewrite Z.mul_1_r.
    symmetry. apply (Z.div_unique _ 2 _ 1); lia. }
  unfold toFixed2. subst x. cbv zeta.
  set (x := S754_finite s (mantissa p) (Zdigits2 (Zpos p) - 53)) in *.
  rewrite Hcmp, Hn, Z.div_mul by lia.
  replace (Zpos p * 100 mod 100) with 0 by (symmetry; apply Z.mod_mul; lia).
  replace (Zpos p * 100 mod 10) with 0
    by (symmetry; replace (Zpos p * 100) with (Zpos p * 10 * 10) by lia; apply Z.mod_mul; lia).
  destruct s; reflexivity.
Qed.

(** From the discounted price to the unit amount. *)
Lemma unit_amount_of_finite (d : Number) :
  is_finite d = true ->
  Z.abs (half_up (to_Q d)) * 100 < 2 ^ 53 ->
  Number_mul (parseFloat (Math_round d)) (Number_of_Z 100)
    = Number_of_Z (100 * half_up (to_Q d))
  /\ toFixed2 (Number_mul (parseFloat (Math_round d)) (Number_of_Z 100))
    = pretty (100 * half_up (to_Q d)) +:+ ".00".
Proof.
  intros Hfin Hbound.
  assert (Hzero : forall s,
    Number_mul (parseFloat (S754_zero s)) (Number_of_Z 100) = Number_of_Z (100 * 0)
    /\ toFixed2 (Number_mul (parseFloat (S754_zero s)) (Number_of_Z 100))
       = pretty (100 * 0) +:+ ".00").
  { intros s. split; vm_compute; reflexivity. }
  destruct d as [s|s| |s m e]; try discriminate.
  - change (half_up (to_Q (S754_zero s))) with 0. apply Hzero.
  - cbn [Math_round]. destruct (half_up (to_Q (S754_finite s m e))) as [|p|p].
    + apply Hzero.
    + cbn [binary_normalize].
      assert (Hp : Zpos p * 100 < 2 ^ 53) by lia.
      assert (Hmul := Number_mul_100_whole false p Hp).
      rewrite (binary_round_whole false p ltac:(lia)) in Hmul |- *.
      cbn [parseFloat]. rewrite Hmul.
      split; [reflexivity|].
      rewrite (toFixed2_whole false (100 * p)) by lia. reflexivity.
    + cbn [binary_normalize].
      assert (Hp : Zpos p * 100 < 2 ^ 53) by lia.
      assert (Hmul := Number_mul_100_whole true p Hp).
      rewrite (binary_round_whole true p ltac:(lia)) in Hmul |- *.
      cbn [parseFloat]. rewrite Hmul.
      split; [reflexivity|].
      rewrite (toFixed2_whole true (100 * p)) by lia. reflexivity.
Qed.

(** ** The initiator's pricing *)

(** C4, as stated, fails: for price 1000 and discount 10 the rounded
    discounted price is 900, but the amount put in [unit_amount_decimal] is
    90000.00 minor units.  Nor is the amount always a hundred times the
    rounding of the exact discounted price: for price 50 and discount 55
    that price is 22.5, which rounds to 23, and the amount is 2200.00. *)
Lemma unit_amount_of_shirt_is_not_900 :
  (let item := Scenario.shirt in
   half_up (to_Q (item_price item)
            - to_Q (item_price item) * to_Q (item_discount item) / 100)%Q = 900
   /\ actualPrice item = Number_of_Z 90000
   /\ unit_amount_decimal (line_item item) = "90000.00"
   /\ actualPrice item <> Number_of_Z 900)
  /\ (let item := Scenario.jacket in
      half_up (to_Q (item_price item)
               - to_Q (item_price item) * to_Q (item_discount item) / 100)%Q = 23
      /\ actualPrice item = Number_of_Z 2200
      /\ unit_amount_decimal (line_item item) = "2200.00"
      /\ actualPrice item <> Number_of_Z 23
      /\ actualPrice item <> Number_of_Z 2300).
Proof.
  repeat split; try (vm_compute; reflexivity); vm_compute; discriminate.
Qed.

(** C4, amended: the unit amount sent for a line item is one hundred times
    the rounding of the discounted price, written with two decimals, where
    the discounted price [price - price * (discount / 100)] is the one
    computed in binary64 and the rounding is that of [Math.round]; this
    while the discounted price is finite and a hundred times its rounding
    stays below 2^53. *)
Theorem unit_amount_is_hundredfold_rounded_price (item : CartItem) :
  is_finite (discounted item) = true ->
  Z.abs (half_up (to_Q (discounted item))) * 100 < 2 ^ 53 ->
  actualPrice item = Number_of_Z (100 * half_up (to_Q (discounted item)))
  /\ unit_amount_decimal (line_item item)
     = pretty (100 * half_up (to_Q (discounted item))) +:+ ".00".
Proof.
  intros Hfin Hbound. cbn [line_item unit_amount_decimal]. unfold actualPrice. cbv zeta.
  now apply unit_amount_of_finite.
Qed.

(** The amended C4 on the scenario's shirt, and on the jacket, whose
    discounted price is 22.5 in exact arithmetic and 22.499999999999996 in
    binary64: the amount is 2200.00, not 2300.00. *)
Lemma unit_amount_is_hundredfold_rounded_price_run :
  unit_amount_decimal (line_item Scenario.shirt) = "90000.00"
  /\ half_up (to_Q (item_price Scenario.jacket)
              - to_Q (item_price Scenario.jacket)
                * (to_Q (item_discount Scenario.jacket) / 100))%Q = 23
  /\ discounted Scenario.jacket = S754_finite false 6333186975989759 (-48)
  /\ actualPrice Scenario.jacket = Number_of_Z 2200
  /\ unit_amount_decimal (line_item Scenario.jacket) = "2200.00".
Proof.
  split; [|split; [|split; [|split]]].
  - apply (unit_amount_is_hundredfold_rounded_price Scenario.shirt);
      vm_compute; reflexivity.
  - vm_compute. reflexivity.
  - vm_compute. reflexivity.
  - apply (unit_amount_is_hundredfold_rounded_price Scenario.jacket);
      vm_compute; reflexivity.
  - apply (unit_amount_is_hundredfold_rounded_price Scenario.jacket);
      vm_compute; reflexivity.
Defined.

(** ** The event loop *)

Lemma find_existsb {A} (f : A -> bool) (l : list A) :
  match List.find f l with Some _ => true | None => false end = existsb f l.
Proof.
  induction l as [|x l IH]; [reflexivity|]. cbn. destruct (f x); [reflexivity|exact IH].
Qed.

Lemma eligible_spec (os : list Order) (pid uid : string) :
  eligible os pid uid = true
  <-> exists o, o ∈ os /\ productId o = pid /\ userId o = uid /\ review o = true.
Proof.
  unfold eligible. rewrite existsb_exists. split.
  - intros (o & Hin & Hm). exists o. apply list_elem_of_In in Hin.
    unfold order_matches in Hm. apply andb_prop in Hm as [Hm Hr].
    apply andb_prop in Hm as [Hp Hu].
    apply bool_decide_eq_true_1 in Hp, Hu. auto.
  - intros (o & Hin & Hp & Hu & Hr). exists o. split; [now apply list_elem_of_In|].
    unfold order_matches. rewrite Hr, !bool_decide_eq_true_2 by assumption. reflexivity.
Qed.

Lemma eligible_app (os1 os2 : list Order) (pid uid : string) :
  eligible (os1 ++ os2) pid uid = eligible os1 pid uid || eligible os2 pid uid.
Proof. apply existsb_app. Qed.

(** The lookup step computes [reviewStatus] as [eligible] says. *)
Lemma resume_find_order data ctr d r :
  resume_callback None (AwaitFindOrder data ctr) d r
  = (AwaitCreate data ctr (eligible (orders d) (ctr_id ctr) (ctr_userId ctr)), d, r).
Proof.
  cbn [resume_callback]. unfold OrderModel_findOne. now rewrite find_existsb.
Qed.

Lemma run_app (s1 s2 : list (nat * option string)) (st : EventLoop) :
  run (s1 ++ s2) st = run s2 (run s1 st).
Proof. apply fold_left_app. Qed.

(** A property of loop states that every turn keeps holds after every
    schedule. *)
Lemma run_invariant (I : EventLoop -> Prop) :
  (forall st step, I st -> I (turn st step)) ->
  forall schedule st, I st -> I (run schedule st).
Proof.
  intros Hturn schedule. induction schedule as [|step schedule IH]; intros st H.
  - exact H.
  - apply IH, Hturn, H.
Qed.





(** What one turn does: nothing when no callback has that index, otherwise
    one resumption, written back in place. *)
Lemma turn_inv st i outcome :
  (callbacks st !! i = None /\ turn st (i, outcome) = st)
  \/ exists cb cb' d' r',
      callbacks st !! i = Some cb
      /\ resume_callback outcome cb (loop_db st) (loop_res st) = (cb', d', r')
      /\ turn st (i, outcome)
         = {| loop_db := d'; loop_res := r'; callbacks := <[i := cb']> (callbacks st) |}.
Proof.
  unfold turn. destruct (callbacks st !! i) as [cb|]; [right|left; auto].
  destruct (resume_callback outcome cb (loop_db st) (loop_res st)) as [[cb' d'] r'] eqn:E.
  exists cb, cb', d', r'. auto.
Qed.

(** A resumed callback keeps its line item. *)
Lemma resume_callback_target outcome cb d r k :
  target (resume_callback outcome cb d r).1.1 = Some k -> target cb = Some k.
Proof.
  destruct cb, outcome as [e|]; cbn [resume_callback fst target];
    try (destruct (on_error r) as [cb' r'] eqn:E; unfold on_error in E;
         destruct (write_out _ _) as [[[]|m] r'']; inversion E; subst;
         cbn [fst target]; discriminate);
    try exact id.
  destruct (ProductModel_findOne (ctr_id ctr) d); cbn [fst target]; [exact id|discriminate].
Qed.

(** The only write to [products] is [set_stock] on the callback's own
    product. *)
Lemma resume_callback_products outcome cb d r k :
  products (resume_callback outcome cb d r).1.2 !! k = products d !! k
  \/ (exists ctr s, cb = AwaitUpdate ctr s /\ outcome = None /\ ctr_id ctr = k
      /\ products (resume_callback outcome cb d r).1.2 !! k = set_stock s <$> products d !! k).
Proof.
  destruct cb, outcome as [e|]; cbn [resume_callback fst snd];
    try (destruct (on_error r); left; reflexivity); try (left; reflexivity).
  - destruct (ProductModel_findOne (ctr_id ctr) d); left; reflexivity.
  - cbn [ProductModel_findByIdAndUpdate products].
    destruct (decide (ctr_id ctr = k)) as [<-|Hne].
    + right. exists ctr, stock0. rewrite lookup_alter_eq. auto.
    + left. now rewrite lookup_alter_ne.
Qed.

Lemma resume_callback_catalog outcome cb d r k :
  catalog_fields <$> products (resume_callback outcome cb d r).1.2 !! k
  = catalog_fields <$> products d !! k.
Proof.
  destruct (resume_callback_products outcome cb d r k) as [-> | (ctr & s & _ & _ & _ & ->)];
    [reflexivity|].
  destruct (products d !! k); reflexivity.
Qed.

(** The only write to [orders] is the creation of the callback's order. *)
Lemma resume_callback_orders outcome cb d r :
  orders (resume_callback outcome cb d r).1.2 = orders d
  \/ (exists data ctr reviewStatus,
        cb = AwaitCreate data ctr reviewStatus /\ outcome = None
        /\ orders (resume_callback outcome cb d r).1.2
           = orders d ++ [new_order data ctr reviewStatus]).
Proof.
  destruct cb, outcome as [e|]; cbn [resume_callback fst snd];
    try (destruct (on_error r); left; reflexivity); try (left; reflexivity).
  - right. exists data, ctr, reviewStatus. auto.
  - destruct (ProductModel_findOne (ctr_id ctr) d); left; reflexivity.
Qed.

Lemma resume_callback_on_behalf u outcome cb d r :
  on_behalf u cb -> on_behalf u (resume_callback outcome cb d r).1.1.
Proof.
  destruct cb, outcome as [e|]; cbn [resume_callback fst on_behalf];
    try (destruct (on_error r) as [cb' r'] eqn:E; unfold on_error in E;
         destruct (write_out _ _) as [[[]|m] r'']; inversion E; subst;
         cbn [fst on_behalf]; exact (fun _ => I));
    try exact id; try exact (fun _ => I).
  destruct (ProductModel_findOne (ctr_id ctr) d); exact (fun _ => I).
Qed.

(** Every order the loop creates is for the buyer its callbacks carry. *)
Lemma run_orders_on_behalf u schedule st :
  Forall (on_behalf u) (callbacks st) ->
  exists created,
    orders (loop_db (run schedule st)) = orders (loop_db st) ++ created
    /\ Forall (fun o => userId o = u) created.
Proof.
  intros Hst.
  apply (run_invariant (fun st' =>
    Forall (on_behalf u) (callbacks st')
    /\ exists created,
        orders (loop_db st') = orders (loop_db st) ++ created
        /\ Forall (fun o => userId o = u) created)).
  - intros st' [i outcome] [Hcbs (created & Ho & Hu)].
    destruct (turn_inv st' i outcome) as [[_ ->] | (cb & cb' & d' & r' & Hcb & E & ->)];
      [split; [assumption|eauto]|].
    cbn [loop_db callbacks].
    pose proof (Forall_lookup_1 _ _ _ _ Hcbs Hcb) as Hb.
    split.
    + apply Forall_insert; [exact Hcbs|].
      pose proof (resume_callback_on_behalf u outcome cb (loop_db st') (loop_res st') Hb) as H.
      now rewrite E in H.
    + destruct (resume_callback_orders outcome cb (loop_db st') (loop_res st'))
        as [H | (data & ctr & rs & -> & _ & H)]; rewrite E in H; cbn [fst snd] in H.
      * exists created. now rewrite H.
      * exists (created ++ [new_order data ctr rs]). rewrite H, Ho, app_assoc.
        split; [reflexivity|]. apply Forall_app. split; [exact Hu|].
        constructor; [exact Hb|constructor].
  - split; [exact Hst|]. exists []. now rewrite app_nil_r.
Qed.

Lemma forEach_on_behalf u data items :
  Forall (fun ctr => ctr_userId ctr = u) items -> Forall (on_behalf u) (forEach data items).
Proof.
  intros H. unfold forEach. apply Forall_fmap. exact H.
Qed.

Lemma orderData_userId cart user :
  Forall (fun ctr => ctr_userId ctr = user_id user) (orderData cart user).
Proof.
  unfold orderData. apply Forall_fmap. apply Forall_forall. reflexivity.
Qed.

Lemma resume_callback_pending_nonneg outcome cb d r :
  pending_nonneg cb -> pending_nonneg (resume_callback outcome cb d r).1.1.
Proof.
  destruct cb, outcome as [e|]; cbn [resume_callback fst pending_nonneg];
    try (destruct (on_error r) as [cb' r'] eqn:E; unfold on_error in E;
         destruct (write_out _ _) as [[[]|m] r'']; inversion E; subst;
         cbn [fst pending_nonneg]; exact (fun _ => I));
    try exact id; try exact (fun _ => I).
  destruct (ProductModel_findOne (ctr_id ctr) d); cbn [fst pending_nonneg]; [lia|exact (fun _ => I)].
Qed.

(** Every stock the loop leaves in a product document is either the one it
    found there or not negative. *)
Lemma run_stock_nonneg schedule st k p' :
  Forall pending_nonneg (callbacks st) ->
  products (loop_db (run schedule st)) !! k = Some p' ->
  0 <= stock p' \/ products (loop_db st) !! k = Some p'.
Proof.
  intros Hst. revert p'.
  apply (run_invariant (fun st' =>
    Forall pending_nonneg (callbacks st')
    /\ forall p', products (loop_db st') !! k = Some p' ->
         0 <= stock p' \/ products (loop_db st) !! k = Some p')); [|auto].
  intros st' [i outcome] [Hcbs IH].
  destruct (turn_inv st' i outcome) as [[_ ->] | (cb & cb' & d' & r' & Hcb & E & ->)];
    [split; assumption|].
  cbn [loop_db callbacks].
  pose proof (Forall_lookup_1 _ _ _ _ Hcbs Hcb) as Hnn.
  split.
  - apply Forall_insert; [exact Hcbs|].
    pose proof (resume_callback_pending_nonneg outcome cb (loop_db st') (loop_res st') Hnn) as H.
    now rewrite E in H.
  - intros p' Hp'.
    destruct (resume_callback_products outcome cb (loop_db st') (loop_res st') k)
      as [H | (ctr & s & -> & _ & _ & H)]; rewrite E in H; cbn [fst snd] in H.
    + apply IH. now rewrite <- H.
    + left. rewrite H in Hp'. destruct (products (loop_db st') !! k); [|discriminate].
      inversion Hp'; subst. exact Hnn.
Qed.

Lemma forEach_pending_nonneg data items : Forall pending_nonneg (forEach data items).
Proof. unfold forEach. apply Forall_fmap, Forall_forall. intros ctr _. exact I. Qed.

(** *** One callback after another *)

Lemma insert_middle {A} (l1 l2 : list A) (x y : A) :
  <[length l1 := y]> (l1 ++ x :: l2) = l1 ++ y :: l2.
Proof.
  rewrite insert_app_r_alt by lia. now rewrite Nat.sub_diag.
Qed.

Lemma turn_middle done cb rest d r outcome :
  turn (start d r (done ++ cb :: rest)) (length done, outcome)
  = let '(cb', d', r') := resume_callback outcome cb d r in
    start d' r' (done ++ cb' :: rest).
Proof.
  unfold turn, start. cbn [callbacks loop_db loop_res].
  rewrite list_lookup_middle by reflexivity.
  destruct (resume_callback outcome cb d r) as [[cb' d'] r'].
  now rewrite insert_middle.
Qed.

(** Four turns take a fresh callback through [reconcile]. *)
Lemma run_four_turns data ctr done rest d r :
  run (replicate 4 (length done, None)) (start d r (done ++ AwaitFindOrder data ctr :: rest))
  = start (reconcile data d ctr) r (done ++ Fulfilled :: rest).
Proof.
  cbn [replicate run fold_left].
  rewrite turn_middle, resume_find_order.
  rewrite turn_middle. cbn [resume_callback].
  rewrite turn_middle. cbn [resume_callback]. unfold reconcile.
  destruct (ProductModel_findOne (ctr_id ctr) _) as [product|].
  - rewrite turn_middle. reflexivity.
  - rewrite turn_middle. reflexivity.
Qed.

Lemma run_one_by_one_from data items : forall done d r,
  run (flat_map (fun i => replicate 4 (i, None)) (seq (length done) (length items)))
      (start d r (done ++ forEach data items))
  = start (fold_left (reconcile data) items d) r
          (done ++ replicate (length items) Fulfilled).
Proof.
  induction items as [|ctr items IH]; intros done d r; [reflexivity|].
  cbn [length seq flat_map forEach map]. rewrite run_app.
  fold (forEach data items). rewrite run_four_turns.
  replace (done ++ Fulfilled :: forEach data items)
    with ((done ++ [Fulfilled]) ++ forEach data items) by now rewrite <- app_assoc.
  replace (S (length done)) with (length (done ++ [Fulfilled]))
    by (rewrite length_app; cbn; lia).
  rewrite IH. cbn [fold_left replicate]. now rewrite <- app_assoc.
Qed.

Lemma run_one_by_one data items d r :
  run (one_by_one (length items)) (start d r (forEach data items))
  = start (fold_left (reconcile data) items d) r (replicate (length items) Fulfilled).
Proof. apply (run_one_by_one_from data items [] d r). Qed.

Lemma reconcile_products data d ctr k :
  products (reconcile data d ctr) !! k
  = if decide (ctr_id ctr = k) then decrement (ctr_quantity ctr) <$> products d !! k
    else products d !! k.
Proof.
  unfold reconcile, ProductModel_findOne. cbn [OrderModel_create products].
  destruct (products d !! ctr_id ctr) as [product|] eqn:E.
  - cbn [ProductModel_findByIdAndUpdate products].
    destruct (decide (ctr_id ctr = k)) as [<-|Hne].
    + rewrite lookup_alter_eq. cbn [OrderModel_create products]. rewrite E. reflexivity.
    + now rewrite lookup_alter_ne.
  - cbn [products]. destruct (decide (ctr_id ctr = k)) as [<-|Hne]; [now rewrite E|reflexivity].
Qed.

Lemma requested_nonneg k items :
  Forall (fun ctr => 0 <= ctr_quantity ctr) items -> 0 <= requested k items.
Proof.
  unfold requested. induction 1 as [|ctr items Hq _ IH]; cbn [foldr]; [lia|].
  case_bool_decide; lia.
Qed.

Lemma fold_reconcile_stock data k items : forall d p,
  products d !! k = Some p -> 0 <= stock p ->
  Forall (fun ctr => 0 <= ctr_quantity ctr) items ->
  products (fold_left (reconcile data) items d) !! k
  = Some (set_stock (Z.max 0 (stock p - requested k items)) p).
Proof.
  induction items as [|ctr items IH]; intros d p Hp Hs Hq.
  - cbn. rewrite Hp. f_equal. destruct p; unfold set_stock; cbn in *. f_equal. lia.
  - inversion Hq as [|? ? Hq1 Hq2]; subst. cbn [fold_left].
    pose proof (requested_nonneg k items Hq2) as Hreq.
    pose proof (reconcile_products data d ctr k) as Hstep.
    cbn [requested foldr]. fold (requested k items).
    destruct (decide (ctr_id ctr = k)) as [Hid|Hne].
    + rewrite Hp in Hstep. cbn in Hstep.
      rewrite (IH _ _ Hstep) by (cbn; try lia; exact Hq2).
      rewrite bool_decide_eq_true_2 by exact Hid.
      f_equal. unfold decrement, set_stock. cbn. f_equal. lia.
    + rewrite Hp in Hstep. rewrite (IH _ _ Hstep Hs Hq2).
      now rewrite bool_decide_eq_false_2 by exact Hne.
Qed.

(** *** Runs without failures *)

Lemma run_invariant_fault_free (I : EventLoop -> Prop) :
  (forall st i, I st -> I (turn st (i, None))) ->
  forall schedule st, fault_free schedule -> I st -> I (run schedule st).
Proof.
  intros Hturn schedule. induction schedule as [|[i outcome] schedule IH]; intros st Hff H.
  - exact H.
  - inversion Hff as [|? ? Hhere Hrest]; subst. cbn in Hhere. subst outcome.
    apply IH; [exact Hrest|]. apply Hturn, H.
Qed.

Lemma Forall2_insert_l {A B} (R : A -> B -> Prop) (l : list A) (k : list B) i x y :
  Forall2 R l k -> k !! i = Some y -> R x y -> Forall2 R (<[i := x]> l) k.
Proof.
  intros HF Hk HR. rewrite <- (list_insert_id k i y Hk). now apply Forall2_insert.
Qed.

Lemma emitted_insert_same data os : forall cbs items i cb cb',
  cbs !! i = Some cb -> created cb' = created cb ->
  emitted data os (<[i := cb']> cbs) items = emitted data os cbs items.
Proof.
  induction cbs as [|c cbs IH]; intros items i cb cb' Hcb Hc; [reflexivity|].
  destruct items as [|ctr items]; [destruct i; reflexivity|].
  destruct i as [|i].
  - cbn in Hcb. inversion Hcb; subst. cbn. now rewrite Hc.
  - cbn in Hcb |- *. f_equal. now apply (IH items i cb cb').
Qed.

Lemma emitted_insert_new data os : forall cbs items i cb cb' ctr,
  cbs !! i = Some cb -> items !! i = Some ctr ->
  created cb = false -> created cb' = true ->
  emitted data os (<[i := cb']> cbs) items
  ≡ₚ new_order data ctr (eligible os (ctr_id ctr) (ctr_userId ctr))
     :: emitted data os cbs items.
Proof.
  induction cbs as [|c cbs IH]; intros items i cb cb' ctr Hcb Hctr Hc Hc'; [discriminate|].
  destruct items as [|ctr0 items]; [discriminate|].
  destruct i as [|i].
  - cbn in Hcb, Hctr. inversion Hcb; inversion Hctr; subst. cbn. now rewrite Hc, Hc'.
  - cbn in Hcb, Hctr |- *.
    rewrite (IH items i cb cb' ctr Hcb Hctr Hc Hc').
    now rewrite Permutation_middle.
Qed.

Lemma emitted_all_fulfilled data os cbs items :
  Forall2 (agrees data os) cbs items -> Forall (eq Fulfilled) cbs ->
  emitted data os cbs items = batch data os items.
Proof.
  induction 1 as [|cb ctr cbs items _ _ IH]; intros Hall; [reflexivity|].
  inversion Hall as [|? ? <- Hrest]; subst. cbn. f_equal. now apply IH.
Qed.

Lemma forEach_agrees data os items : Forall2 (agrees data os) (forEach data items) items.
Proof. induction items as [|ctr items IH]; constructor; [split; reflexivity|exact IH]. Qed.

Lemma emitted_forEach data os items : emitted data os (forEach data items) items = [].
Proof. induction items as [|ctr items IH]; [reflexivity|exact IH]. Qed.

(** A delivery reconciled without failures adds the batch of its line items
    to the orders, in some order, and makes no pair review eligible that was
    not: the flags of the new orders are those of the pairs at arrival. *)
Lemma run_orders_batch data items schedule d r :
  fault_free schedule ->
  Forall (eq Fulfilled) (callbacks (run schedule (start d r (forEach data items)))) ->
  orders (loop_db (run schedule (start d r (forEach data items))))
    ≡ₚ orders d ++ batch data (orders d) items
  /\ forall pid uid,
      eligible (orders (loop_db (run schedule (start d r (forEach data items))))) pid uid
      = eligible (orders d) pid uid.
Proof.
  intros Hff.
  pose (K := fun st : EventLoop =>
    Forall2 (agrees data (orders d)) (callbacks st) items
    /\ orders (loop_db st) ≡ₚ orders d ++ emitted data (orders d) (callbacks st) items
    /\ forall pid uid, eligible (orders (loop_db st)) pid uid = eligible (orders d) pid uid).
  assert (HK : K (run schedule (start d r (forEach data items)))).
  { apply run_invariant_fault_free; [|exact Hff|].
    - clear. intros st i (Hag & Hperm & Hel).
      destruct (turn_inv st i None) as [[_ ->] | (cb & cb' & d' & r' & Hcb & E & ->)];
        [repeat split; assumption|].
      destruct (Forall2_lookup_l _ _ _ _ _ Hag Hcb) as (ctr & Hctr & Hcbctr).
      unfold K. cbn [loop_db callbacks].
      destruct cb as [data' c|data' c rs|c|c s| |m]; cbn [agrees] in Hcbctr.
      + destruct Hcbctr as [-> ->]. rewrite resume_find_order in E.
        inversion E; subst. repeat split; try assumption.
        * eapply Forall2_insert_l; [exact Hag|exact Hctr|].
          cbn [agrees]. repeat split. apply Hel.
        * now rewrite (emitted_insert_same _ _ _ _ _ _ _ Hcb).
      + destruct Hcbctr as (-> & -> & ->). cbn [resume_callback] in E.
        inversion E; subst. cbn [OrderModel_create orders]. repeat split.
        * eapply Forall2_insert_l; [exact Hag|exact Hctr|reflexivity].
        * rewrite (emitted_insert_new _ _ _ _ _ _ _ _ Hcb Hctr) by reflexivity.
          rewrite Hperm, <- app_assoc. apply Permutation_app_head.
          symmetry. apply Permutation_cons_append.
        * intros pid uid. rewrite eligible_app, Hel. unfold eligible at 2.
          cbn [existsb]. rewrite orb_false_r.
          destruct (order_matches pid uid _) eqn:Hm; [|apply orb_false_r].
          unfold order_matches in Hm. cbn [new_order productId userId review] in Hm.
          apply andb_prop in Hm as [Hm Hr]. apply andb_prop in Hm as [Hp Hu].
          apply bool_decide_eq_true_1 in Hp, Hu. subst pid uid.
          rewrite Hr. reflexivity.
      + subst c. cbn [resume_callback] in E.
        destruct (ProductModel_findOne (ctr_id ctr) (loop_db st)); inversion E; subst;
          (repeat split; try assumption;
           [eapply Forall2_insert_l; [exact Hag|exact Hctr|reflexivity]
           |now rewrite (emitted_insert_same _ _ _ _ _ _ _ Hcb)]).
      + subst c. cbn [resume_callback] in E. inversion E; subst.
        cbn [ProductModel_findByIdAndUpdate orders]. repeat split; try assumption.
        * eapply Forall2_insert_l; [exact Hag|exact Hctr|reflexivity].
        * now rewrite (emitted_insert_same _ _ _ _ _ _ _ Hcb).
      + cbn [resume_callback] in E. inversion E; subst. repeat split; try assumption.
        * eapply Forall2_insert_l; [exact Hag|exact Hctr|reflexivity].
        * now rewrite (emitted_insert_same _ _ _ _ _ _ _ Hcb).
      + contradiction.
    - unfold K, start. cbn [loop_db callbacks]. repeat split.
      + apply forEach_agrees.
      + now rewrite emitted_forEach, app_nil_r.
  }
  intros Hall. destruct HK as (Hag & Hperm & Hel). split; [|exact Hel].
  now rewrite Hperm, (emitted_all_fulfilled _ _ _ _ Hag Hall).
Qed.

(** The product of a single line item: whatever the other callbacks do in
    between, its callback reads the stock the delivery found and writes the
    clamped difference. *)
Lemma run_stock_single data items schedule d r i ctr :
  fault_free schedule ->
  items !! i = Some ctr ->
  (forall j c, j <> i -> items !! j = Some c -> ctr_id c <> ctr_id ctr) ->
  callbacks (run schedule (start d r (forEach data items))) !! i = Some Fulfilled ->
  products (loop_db (run schedule (start d r (forEach data items)))) !! ctr_id ctr
  = decrement (ctr_quantity ctr) <$> products d !! ctr_id ctr.
Proof.
  intros Hff Hi Hothers.
  pose (K := fun st : EventLoop =>
    (forall j cb, j <> i -> callbacks st !! j = Some cb -> target cb <> Some (ctr_id ctr))
    /\ stock_stage (products d) (products (loop_db st)) ctr (callbacks st !! i)).
  assert (HK : K (run schedule (start d r (forEach data items)))).
  { apply run_invariant_fault_free; [|exact Hff|].
    - clear -K. intros st j (Hrest & Hstage).
      destruct (turn_inv st j None) as [[_ ->] | (cb & cb' & d' & r' & Hcb & E & ->)];
        [split; assumption|].
      unfold K. cbn [loop_db callbacks].
      assert (Hlen : (j < length (callbacks st))%nat) by (eapply lookup_lt_Some; exact Hcb).
      destruct (decide (j = i)) as [->|Hji].
      + split.
        * intros j' cb0 Hj'. rewrite list_lookup_insert_ne by congruence. now apply Hrest.
        * rewrite list_lookup_insert_eq by exact Hlen. rewrite Hcb in Hstage.
          destruct cb as [data' c|data' c rs|c|c s| |m]; cbn [stock_stage] in Hstage.
          -- rewrite resume_find_order in E. inversion E; subst. exact Hstage.
          -- cbn [resume_callback] in E. inversion E; subst. exact Hstage.
          -- destruct Hstage as [-> Hsame]. cbn [resume_callback] in E.
             unfold ProductModel_findOne in E. rewrite Hsame in E.
             destruct (products d !! ctr_id ctr) as [p0|] eqn:Hp0; inversion E; subst;
               cbn [stock_stage].
             ++ repeat split; [now rewrite Hp0|]. exists p0. split; [exact Hp0|reflexivity].
             ++ now rewrite Hp0.
          -- destruct Hstage as (-> & Hsame & p0 & Hp0 & ->).
             cbn [resume_callback] in E. inversion E; subst. cbn [stock_stage].
             cbn [ProductModel_findByIdAndUpdate products].
             rewrite lookup_alter_eq, Hsame, Hp0. reflexivity.
          -- cbn [resume_callback] in E. inversion E; subst. exact Hstage.
          -- contradiction.
      + pose proof (Hrest j cb Hji Hcb) as Hk.
        split.
        * intros j' cb0 Hj'. destruct (decide (j = j')) as [<-|Hjj'].
          -- rewrite list_lookup_insert_eq by exact Hlen. intros [= <-] Ht. apply Hk.
             apply (resume_callback_target None cb (loop_db st) (loop_res st)).
             now rewrite E.
          -- rewrite list_lookup_insert_ne by exact Hjj'. now apply Hrest.
        * rewrite list_lookup_insert_ne by exact Hji.
          assert (Hsame : products d' !! ctr_id ctr = products (loop_db st) !! ctr_id ctr).
          { destruct (resume_callback_products None cb (loop_db st) (loop_res st) (ctr_id ctr))
              as [H | (c & s & -> & _ & Hid & _)]; [now rewrite E in H|].
            exfalso. apply Hk. cbn [target]. now rewrite Hid. }
          unfold stock_stage in *. rewrite Hsame. exact Hstage.
    - unfold K, start, forEach. cbn [loop_db callbacks]. split.
      + intros j cb Hj Hcb. rewrite list_lookup_fmap in Hcb.
        destruct (items !! j) as [c|] eqn:Hc; [|discriminate].
        inversion Hcb; subst. cbn [target]. intros [= Heq].
        now apply (Hothers j c Hj Hc).
      + rewrite list_lookup_fmap, Hi. cbn. auto.
  }
  intros Hdone. destruct HK as [_ Hstage]. rewrite Hdone in Hstage. exact Hstage.
Qed.

Lemma run_length schedule st : length (callbacks (run schedule st)) = length (callbacks st).
Proof.
  apply (run_invariant (fun st' => length (callbacks st') = length (callbacks st)));
    [|reflexivity].
  intros st' [i outcome] IH.
  destruct (turn_inv st' i outcome) as [[_ ->] | (cb & cb' & d' & r' & _ & _ & ->)];
    [exact IH|].
  cbn [callbacks]. now rewrite length_insert.
Qed.

Lemma all_fulfilled_lookup data items schedule d r i ctr :
  Forall (eq Fulfilled) (callbacks (run schedule (start d r (forEach data items)))) ->
  items !! i = Some ctr ->
  callbacks (run schedule (start d r (forEach data items))) !! i = Some Fulfilled.
Proof.
  intros Hall Hi.
  assert (Hlen : (i < length (callbacks (run schedule (start d r (forEach data items)))))%nat).
  { rewrite run_length. unfold start, forEach. cbn [callbacks]. rewrite length_fmap.
    eapply lookup_lt_Some. exact Hi. }
  apply lookup_lt_is_Some_2 in Hlen as [cb Hcb].
  rewrite Hcb. f_equal. symmetry. exact (Forall_lookup_1 _ _ _ _ Hall Hcb).
Qed.

Lemma batch_ext data os os' items :
  (forall pid uid, eligible os' pid uid = eligible os pid uid) ->
  batch data os' items = batch data os items.
Proof.
  intros H. unfold batch. apply map_ext. intros ctr. now rewrite H.
Qed.

(** ** The reconciler, one await at a time *)

(** C3: the lookup at store [d] sets [reviewStatus] to true exactly when [d]
    holds an order of the same product and buyer with [review] true, and the
    creation that follows, on whatever the store has become, appends one
    order that carries this flag. *)
Theorem review_flag_follows_prior_eligible_order
    (data : SessionData) (ctr : OrderDatum) (d d' : Store) (r r' : Response) :
  exists reviewStatus,
    resume_callback None (AwaitFindOrder data ctr) d r
      = (AwaitCreate data ctr reviewStatus, d, r)
    /\ (reviewStatus = true
        <-> exists o, o ∈ orders d /\ productId o = ctr_id ctr
                      /\ userId o = ctr_userId ctr /\ review o = true)
    /\ resume_callback None (AwaitCreate data ctr reviewStatus) d' r'
       = (AwaitFindProduct ctr, OrderModel_create (new_order data ctr reviewStatus) d', r')
    /\ orders (OrderModel_create (new_order data ctr reviewStatus) d')
       = orders d' ++ [new_order data ctr reviewStatus]
    /\ review (new_order data ctr reviewStatus) = reviewStatus.
Proof.
  exists (eligible (orders d) (ctr_id ctr) (ctr_userId ctr)).
  split; [apply resume_find_order|]. split; [apply eligible_spec|].
  repeat split.
Qed.

(** ** Frame of the stock update *)

(** C8: whatever the schedule, a product document keeps every field but
    [stock], no document appears or disappears, and a product that is not
    the product of a line item in flight is not modified at all. *)
Theorem reconciliation_writes_stock_only
    (schedule : list (nat * option string)) (st : EventLoop) (k : string) :
  catalog_fields <$> products (loop_db (run schedule st)) !! k
    = catalog_fields <$> products (loop_db st) !! k
  /\ (products (loop_db (run schedule st)) !! k = products (loop_db st) !! k
      \/ Exists (fun cb => target cb = Some k) (callbacks st)).
Proof.
  split.
  - apply (run_invariant (fun st' =>
      catalog_fields <$> products (loop_db st') !! k
      = catalog_fields <$> products (loop_db st) !! k)); [|reflexivity].
    intros st' [i outcome] IH.
    destruct (turn_inv st' i outcome) as [[_ ->] | (cb & cb' & d' & r' & _ & E & ->)];
      [exact IH|].
    cbn [loop_db]. rewrite <- IH.
    pose proof (resume_callback_catalog outcome cb (loop_db st') (loop_res st') k) as H.
    now rewrite E in H.
  - destruct (decide (Exists (fun cb => target cb = Some k) (callbacks st))) as [|Hno];
      [now right|left].
    apply not_Exists_Forall in Hno; [|intros cb; apply _].
    apply (run_invariant (fun st' =>
      products (loop_db st') !! k = products (loop_db st) !! k
      /\ Forall (fun cb => target cb <> Some k) (callbacks st'))); [|split; [reflexivity|exact Hno]].
    intros st' [i outcome] [IH Hcbs].
    destruct (turn_inv st' i outcome) as [[_ ->] | (cb & cb' & d' & r' & Hcb & E & ->)];
      [split; assumption|].
    cbn [loop_db callbacks].
    pose proof (Forall_lookup_1 _ _ _ _ Hcbs Hcb) as Hk.
    split.
    + rewrite <- IH.
      destruct (resume_callback_products outcome cb (loop_db st') (loop_res st') k)
        as [H | (ctr & s & -> & _ & Hid & _)].
      * now rewrite E in H.
      * exfalso. apply Hk. cbn [target]. now rewrite Hid.
    + apply Forall_insert; [exact Hcbs|].
      intros Htarget. apply Hk.
      apply (resume_callback_target outcome cb (loop_db st') (loop_res st')).
      now rewrite E.
Qed.

(** ** Stock *)

(** C2, as stated, fails.  Two line items of the same product, three pieces
    each, stock 10: resumed in turn, both callbacks read stock 10 before
    either writes, both write 7, and the stock ends at 7, not at
    max(0, 10 - 6) = 4. *)
Lemma stock_after_two_line_items_of_one_product :
  let st := run (in_turn 2) (Scenario.reconciling 10 Scenario.two_sizes) in
  callbacks st = [Fulfilled; Fulfilled]
  /\ stock <$> products (loop_db st) !! "P1" = Some 7
  /\ Z.max 0 (10 - requested "P1" Scenario.two_sizes) = 4.
Proof. vm_compute. repeat split; reflexivity. Qed.

(** The formula also fails for a negative quantity, even one callback after
    another: stock 2, quantities 5 and -3 end at 3, not at max(0, 2 - 2). *)
Lemma stock_after_negative_quantity :
  let items := [Scenario.datum "P1" "M" 5; Scenario.datum "P1" "L" (-3)] in
  let st := run (one_by_one 2) (Scenario.reconciling 2 items) in
  stock <$> products (loop_db st) !! "P1" = Some 3
  /\ Z.max 0 (2 - requested "P1" items) = 0.
Proof. vm_compute. repeat split; reflexivity. Qed.

(** C2, amended.  When the line items are reconciled one after another, have
    no negative quantity and the product's stock is not negative, the stock
    afterwards is max(0, original - sum of the quantities requested of that
    product).  Under every schedule without failures, the product of a line
    item that has its product to itself ends, once that line item's callback
    is fulfilled, at max(original - quantity, 0).  Under every schedule and
    for every quantity, a stock the reconciler leaves in a product is the
    one it found or is not negative. *)
Theorem stock_is_clamped_difference
    (data : SessionData) (items : list OrderDatum) (d : Store) (r : Response) :
  (forall k p,
      products d !! k = Some p ->
      0 <= stock p ->
      Forall (fun ctr => 0 <= ctr_quantity ctr) items ->
      products (loop_db (run (one_by_one (length items)) (start d r (forEach data items)))) !! k
      = Some (set_stock (Z.max 0 (stock p - requested k items)) p))
  /\ (forall schedule i ctr,
      fault_free schedule ->
      items !! i = Some ctr ->
      (forall j c, j <> i -> items !! j = Some c -> ctr_id c <> ctr_id ctr) ->
      callbacks (run schedule (start d r (forEach data items))) !! i = Some Fulfilled ->
      products (loop_db (run schedule (start d r (forEach data items)))) !! ctr_id ctr
      = decrement (ctr_quantity ctr) <$> products d !! ctr_id ctr)
  /\ (forall schedule k p',
      products (loop_db (run schedule (start d r (forEach data items)))) !! k = Some p' ->
      0 <= stock p' \/ products d !! k = Some p').
Proof.
  split; [|split].
  - intros k p Hp Hs Hq. rewrite run_one_by_one. cbn [start loop_db].
    now apply fold_reconcile_stock.
  - intros schedule i ctr. apply run_stock_single.
  - intros schedule k p' Hp'.
    apply (run_stock_nonneg schedule (start d r (forEach data items)) k p');
      [apply forEach_pending_nonneg|exact Hp'].
Qed.

(** [stock_is_clamped_difference] on the scenario: two sizes of P1 from
    stock 2 one after the other, five pieces of P1 from stock 2 alone, and
    the stock 7 that two sizes in turn leave of stock 10. *)
Lemma stock_is_clamped_difference_run :
  stock <$> products (loop_db (run (one_by_one 2)
                                 (Scenario.reconciling 2 Scenario.two_sizes))) !! "P1"
  = Some 0
  /\ products (loop_db (run (in_turn 1)
                          (Scenario.reconciling 2 [Scenario.datum "P1" "M" 5]))) !! "P1"
     = Some (Scenario.P1 0)
  /\ (0 <= stock (Scenario.P1 7)
      \/ products (Scenario.shop 10) !! "P1" = Some (Scenario.P1 7)).
Proof.
  pose proof (stock_is_clamped_difference (data_object (Scenario.completed "cus_0"))
                Scenario.two_sizes (Scenario.shop 2)
                Scenario.acknowledged) as (Hserial & _ & _).
  pose proof (stock_is_clamped_difference (data_object (Scenario.completed "cus_0"))
                [Scenario.datum "P1" "M" 5] (Scenario.shop 2)
                Scenario.acknowledged) as (_ & Hsingle & _).
  pose proof (stock_is_clamped_difference (data_object (Scenario.completed "cus_0"))
                Scenario.two_sizes (Scenario.shop 10)
                Scenario.acknowledged) as (_ & _ & Hany).
  split; [|split].
  - change (one_by_one 2) with (one_by_one (length Scenario.two_sizes)).
    unfold Scenario.reconciling.
    rewrite (Hserial "P1" (Scenario.P1 2)).
    + vm_compute. reflexivity.
    + vm_compute. reflexivity.
    + vm_compute. discriminate.
    + repeat constructor; vm_compute; discriminate.
  - unfold Scenario.reconciling.
    refine (eq_trans (Hsingle (in_turn 1) 0%nat (Scenario.datum "P1" "M" 5) _ _ _ _) _).
    + repeat constructor.
    + reflexivity.
    + intros [|j] c Hj Hc; [congruence|]. destruct j; discriminate.
    + vm_compute. reflexivity.
    + vm_compute. reflexivity.
  - apply (Hany (in_turn 2) "P1" (Scenario.P1 7)). vm_compute. reflexivity.
Defined.

(** ** The handlers, up to the moment they return *)

Section ControllerProperties.

Context {P : Type} `{!StripeClient P}.
Variable env : Env.
Variable JSON_stringify : list OrderDatum -> string.
Variable JSON_parse : string -> option (list OrderDatum).

(** C7, amended: the status query answers 200 with the session's payment
    status when the provider returns the session, and 500 with the
    provider's error message when the retrieval throws (so also when there
    is no such session); either way it makes the one retrieval request and
    leaves the store alone. *)
Theorem paymentVerify_answers_200_or_500 (id : string) (d : Store) (p : P) :
  paymentVerify id (incoming d p)
  = (Returned tt,
     {| db := d;
        provider := (checkout_sessions_retrieve id p).2;
        requests := [SessionsRetrieve id];
        res := match (checkout_sessions_retrieve id p).1 with
               | Returned session =>
                   {| statusCode := 200;
                      sent := Some (200, JsonObject
                                [("msg", "Your payment has verfied successfully");
                                 ("status", payment_status session)]) |}
               | Thrown error =>
                   {| statusCode := 500; sent := Some (500, JsonString error) |}
               end |}).
Proof.
  step_handler.
  destruct (checkout_sessions_retrieve id p) as [[session|error] p']; reflexivity.
Qed.


(** A verified completed checkout whose cart blob parses: the handler
    starts one callback per line item, answers 200 and returns. *)
Lemma checkOutSession_completed (request : WebhookRequest) (d : Store) (p p' : P)
    (event : Event) (stored : Customer) (items : list OrderDatum) :
  webhooks_constructEvent (rawBody request) (stripe_signature request)
    (ENDPOINTSECRET env) = Returned event ->
  event_type event = "checkout.session.completed" ->
  customers_retrieve (data_customer (data_object event)) p = (Returned stored, p') ->
  parse_cart JSON_parse (customer_metadata_cart stored) = Returned items ->
  checkOutSession env JSON_parse request (incoming d p)
  = (Returned (forEach (data_object event) items),
     {| db := d; provider := p';
        requests := [CustomersRetrieve (data_customer (data_object event))];
        res := {| statusCode := 200; sent := Some (200, NoBody) |} |}).
Proof.
  intros Hsig Htype Hretrieve Hparse.
  step_handler. rewrite Hsig. rewrite Htype.
  rewrite (bool_decide_eq_false_2 (_ = "payment_intent.succeeded")) by discriminate.
  rewrite bool_decide_eq_true_2 by reflexivity. simp_world.
  rewrite Hretrieve. simp_world. rewrite Hparse. reflexivity.
Qed.

Lemma deliver_completed (schedule : list (nat * option string))
    (request : WebhookRequest) (d : Store) (p p' : P)
    (event : Event) (stored : Customer) (items : list OrderDatum) :
  webhooks_constructEvent (rawBody request) (stripe_signature request)
    (ENDPOINTSECRET env) = Returned event ->
  event_type event = "checkout.session.completed" ->
  customers_retrieve (data_customer (data_object event)) p = (Returned stored, p') ->
  parse_cart JSON_parse (customer_metadata_cart stored) = Returned items ->
  let st := run schedule
              (start d {| statusCode := 200; sent := Some (200, NoBody) |}
                 (forEach (data_object event) items)) in
  deliver env JSON_parse schedule request d p
  = {| store_after := loop_db st; provider_after := p';
       answered := sent (loop_res st); callbacks_after := callbacks st |}.
Proof.
  intros Hsig Htype Hretrieve Hparse. unfold deliver.
  rewrite (checkOutSession_completed request d p p' event stored items) by assumption.
  reflexivity.
Qed.


(** C6, amended.  When the cart blob of the retrieved customer is absent or
    does not parse, the handler throws: it creates no order, changes no
    stock and starts no callback, and it does not answer the provider. *)
Theorem checkOutSession_throws_on_malformed_cart
    (request : WebhookRequest) (d : Store) (p p' : P) (event : Event) (stored : Customer) :
  webhooks_constructEvent (rawBody request) (stripe_signature request)
    (ENDPOINTSECRET env) = Returned event ->
  event_type event = "checkout.session.completed" ->
  customers_retrieve (data_customer (data_object event)) p = (Returned stored, p') ->
  (customer_metadata_cart stored = None
   \/ exists text, customer_metadata_cart stored = Some text /\ JSON_parse text = None) ->
  checkOutSession env JSON_parse request (incoming d p)
  = (Thrown "SyntaxError",
     {| db := d; provider := p';
        requests := [CustomersRetrieve (data_customer (data_object event))];
        res := fresh_response |})
  /\ forall schedule,
      deliver env JSON_parse schedule request d p
      = {| store_after := d; provider_after := p'; answered := None;
           callbacks_after := [] |}.
Proof.
  intros Hsig Htype Hretrieve Hblob.
  assert (Hparse : parse_cart JSON_parse (customer_metadata_cart stored) = Thrown "SyntaxError").
  { unfold parse_cart. destruct Hblob as [-> | (text & -> & ->)]; reflexivity. }
  assert (E : checkOutSession env JSON_parse request (incoming d p)
    = (Thrown "SyntaxError",
       {| db := d; provider := p';
          requests := [CustomersRetrieve (data_customer (data_object event))];
          res := fresh_response |})).
  { step_handler. rewrite Hsig. rewrite Htype.
    rewrite (bool_decide_eq_false_2 (_ = "payment_intent.succeeded")) by discriminate.
    rewrite bool_decide_eq_true_2 by reflexivity. simp_world. rewrite Hretrieve. simp_world.
    rewrite Hparse. reflexivity. }
  split; [exact E|]. intros schedule. unfold deliver. rewrite E. reflexivity.
Qed.

(** C9: the initiator sends the provider a cart blob in which every line
    item carries the id of the user it looked up, whatever the buyer put in
    the cart; and when the webhook reads that blob back, every order the
    reconciliation creates, under every schedule, is for that user. *)
Theorem orders_reference_the_resolved_buyer
    (cart : list CartItem) (id : string) (user : User) (d d' : Store) (p p' p'' : P)
    (request : WebhookRequest) (event : Event) (stored : Customer) :
  users d !! id = Some user ->
  webhooks_constructEvent (rawBody request) (stripe_signature request)
    (ENDPOINTSECRET env) = Returned event ->
  event_type event = "checkout.session.completed" ->
  customers_retrieve (data_customer (data_object event)) p' = (Returned stored, p'') ->
  customer_metadata_cart stored = Some (JSON_stringify (orderData cart user)) ->
  JSON_parse (JSON_stringify (orderData cart user)) = Some (orderData cart user) ->
  (exists rest,
      requests (paymentProcess env JSON_stringify cart id (incoming d p)).2
      = CustomersCreate (email user) (JSON_stringify (orderData cart user)) :: rest)
  /\ Forall (fun ctr => ctr_userId ctr = user_id user) (orderData cart user)
  /\ forall schedule, exists created,
      orders (store_after (deliver env JSON_parse schedule request d' p'))
        = orders d' ++ created
      /\ Forall (fun o => userId o = user_id user) created.
Proof.
  intros Huser Hsig Htype Hretrieve Hblob Hround.
  split; [|split; [apply orderData_userId|]].
  - step_handler. unfold User_findOne. rewrite Huser. simp_world.
    destruct (customers_create _ _ p) as [[new_customer|e] p1]; simp_world; [|eauto].
    destruct (checkout_sessions_create _ p1) as [[session|e] p2]; simp_world; eauto.
  - intros schedule.
    rewrite (deliver_completed schedule request d' p' p'' event stored (orderData cart user))
      by (try assumption; unfold parse_cart; now rewrite Hblob, Hround).
    cbn [store_after].
    apply (run_orders_on_behalf (user_id user) schedule (start d' _ _)).
    apply forEach_on_behalf, orderData_userId.
Qed.

(** C1, amended.  The handler does not deduplicate: when the same completed
    checkout is delivered twice and both deliveries are reconciled without
    failures, the orders are the old ones and two copies of the batch of
    the line items (two orders per line item), and the product of a line
    item that has its product to itself has had the clamped decrement
    applied twice. *)
Theorem redelivery_repeats_orders_and_decrements
    (request : WebhookRequest) (d : Store) (p p1 p2 : P) (event : Event)
    (stored : Customer) (items : list OrderDatum)
    (schedule1 schedule2 : list (nat * option string)) :
  webhooks_constructEvent (rawBody request) (stripe_signature request)
    (ENDPOINTSECRET env) = Returned event ->
  event_type event = "checkout.session.completed" ->
  customers_retrieve (data_customer (data_object event)) p = (Returned stored, p1) ->
  customers_retrieve (data_customer (data_object event)) p1 = (Returned stored, p2) ->
  parse_cart JSON_parse (customer_metadata_cart stored) = Returned items ->
  fault_free schedule1 ->
  fault_free schedule2 ->
  let first := deliver env JSON_parse schedule1 request d p in
  let second :=
    deliver env JSON_parse schedule2 request (store_after first) (provider_after first) in
  Forall (eq Fulfilled) (callbacks_after first) ->
  Forall (eq Fulfilled) (callbacks_after second) ->
  orders (store_after second)
    ≡ₚ orders d ++ batch (data_object event) (orders d) items
                ++ batch (data_object event) (orders d) items
  /\ length (orders (store_after second)) = (length (orders d) + 2 * length items)%nat
  /\ forall i ctr,
      items !! i = Some ctr ->
      (forall j c, j <> i -> items !! j = Some c -> ctr_id c <> ctr_id ctr) ->
      products (store_after second) !! ctr_id ctr
      = decrement (ctr_quantity ctr)
          <$> (decrement (ctr_quantity ctr) <$> products d !! ctr_id ctr).
Proof.
  intros Hsig Htype Hretrieve1 Hretrieve2 Hparse Hff1 Hff2 first second.
  subst second first.
  rewrite (deliver_completed schedule1 request d p p1 event stored items) by assumption.
  cbn [store_after provider_after callbacks_after].
  set (st1 := run schedule1 _).
  rewrite (deliver_completed schedule2 request (loop_db st1) p1 p2 event stored items)
    by assumption.
  cbn [store_after provider_after callbacks_after].
  set (st2 := run schedule2 _).
  intros Hall1 Hall2.
  destruct (run_orders_batch _ _ _ _ _ Hff1 Hall1) as [Hperm1 Hel1].
  destruct (run_orders_batch _ _ _ _ _ Hff2 Hall2) as [Hperm2 _].
  fold st1 in Hperm1, Hel1. fold st2 in Hperm2.
  rewrite (batch_ext _ _ _ _ Hel1) in Hperm2.
  assert (Hperm : orders (loop_db st2)
    ≡ₚ orders d ++ batch (data_object event) (orders d) items
                ++ batch (data_object event) (orders d) items).
  { now rewrite Hperm2, Hperm1, <- app_assoc. }
  split; [exact Hperm|]. split.
  - rewrite Hperm, !length_app. unfold batch. rewrite !length_map. lia.
  - intros i ctr Hi Hothers.
    pose proof (run_stock_single _ _ _ _ _ _ _ Hff2 Hi Hothers
                  (all_fulfilled_lookup _ _ _ _ _ _ _ Hall2 Hi)) as H2.
    pose proof (run_stock_single _ _ _ _ _ _ _ Hff1 Hi Hothers
                  (all_fulfilled_lookup _ _ _ _ _ _ _ Hall1 Hi)) as H1.
    fold st1 in H1, H2. fold st2 in H2. now rewrite H2, H1.
Qed.

End ControllerProperties.
(** ** The handlers on the scenario *)



(** C6, as stated, fails: the customer of this completed checkout has no
    cart blob; no order is created and no stock changes, but the event is
    not acknowledged: the handler throws before it answers. *)
Lemma absent_cart_blob_left_unanswered :
  let after := deliver Scenario.env Json.parse (in_turn 1) (Scenario.signed "evt_1")
                 (Scenario.shop 10) (Scenario.ledger None) in
  store_after after = Scenario.shop 10
  /\ answered after = None
  /\ ~ (exists code body, answered after = Some (code, body) /\ 200 <= code < 300).
Proof.
  intros after.
  assert (E : answered after = None) by (vm_compute; reflexivity).
  split; [vm_compute; reflexivity|]. split; [exact E|].
  intros (code & body & H & _). rewrite E in H. discriminate.
Qed.

(** [checkOutSession_throws_on_malformed_cart] on the customer without a
    cart blob. *)
Lemma checkOutSession_throws_on_malformed_cart_run :
  deliver Scenario.env Json.parse (in_turn 1) (Scenario.signed "evt_1")
    (Scenario.shop 10) (Scenario.ledger None)
  = {| store_after := Scenario.shop 10; provider_after := Scenario.ledger None;
       answered := None; callbacks_after := [] |}.
Proof.
  apply (@checkOutSession_throws_on_malformed_cart _ Scenario.stripe Scenario.env
           Json.parse (Scenario.signed "evt_1") (Scenario.shop 10) (Scenario.ledger None)
           (Scenario.ledger None) (Scenario.completed "cus_0") (Scenario.cus_0 None));
    [vm_compute; reflexivity | reflexivity | vm_compute; reflexivity | left; reflexivity].
Defined.

(** C7, as stated, fails: for a session the provider does not have, the
    status query answers 500, not 404. *)
Lemma paymentVerify_unknown_session_is_500 :
  (checkout_sessions_retrieve "cs_7" (Scenario.ledger None)).1
  = Thrown "No such checkout.session: cs_7"
  /\ sent (res (paymentVerify "cs_7" (incoming (Scenario.shop 10) (Scenario.ledger None))).2)
     = Some (500, JsonString "No such checkout.session: cs_7").
Proof. split; vm_compute; reflexivity. Qed.


(** C1, as stated, fails: the completed checkout of three pieces of P1,
    delivered twice to a shop with stock 10, leaves two orders for the one
    line item and stock 4; one delivery leaves one order and stock 7. *)
Lemma second_delivery_repeats_the_order :
  let first := deliver Scenario.env Json.parse (in_turn 1) (Scenario.signed "evt_1")
                 (Scenario.shop 10) Scenario.provider_with_cart in
  let second := deliver Scenario.env Json.parse (in_turn 1) (Scenario.signed "evt_1")
                  (store_after first) (provider_after first) in
  length (orders (store_after first)) = 1%nat
  /\ stock <$> products (store_after first) !! "P1" = Some 7
  /\ length (orders (store_after second)) = 2%nat
  /\ stock <$> products (store_after second) !! "P1" = Some 4.
Proof. vm_compute. repeat split; reflexivity. Qed.

(** [redelivery_repeats_orders_and_decrements] on the scenario. *)
Lemma redelivery_repeats_orders_and_decrements_run :
  let first := deliver Scenario.env Json.parse (in_turn 1) (Scenario.signed "evt_1")
                 (Scenario.shop 10) Scenario.provider_with_cart in
  let second := deliver Scenario.env Json.parse (in_turn 1) (Scenario.signed "evt_1")
                  (store_after first) (provider_after first) in
  length (orders (store_after second)) = 2%nat
  /\ products (store_after second) !! "P1"
     = decrement 3 <$> (decrement 3 <$> Some (Scenario.P1 10)).
Proof.
  intros first second.
  destruct (@redelivery_repeats_orders_and_decrements _ Scenario.stripe Scenario.env
              Json.parse (Scenario.signed "evt_1") (Scenario.shop 10)
              Scenario.provider_with_cart Scenario.provider_with_cart
              Scenario.provider_with_cart (Scenario.completed "cus_0")
              (Scenario.cus_0 (Some Scenario.blob)) [Scenario.datum "P1" "M" 3]
              (in_turn 1) (in_turn 1))
    as (_ & Hlength & Hstock).
  - vm_compute. reflexivity.
  - reflexivity.
  - vm_compute. reflexivity.
  - vm_compute. reflexivity.
  - vm_compute. reflexivity.
  - repeat constructor.
  - repeat constructor.
  - vm_compute. repeat constructor.
  - vm_compute. repeat constructor.
  - split; [exact Hlength|].
    apply (Hstock 0%nat (Scenario.datum "P1" "M" 3) eq_refl).
    intros [|j] c Hj Hc; [congruence|]. destruct j; discriminate.
Defined.

(** [orders_reference_the_resolved_buyer] on the scenario: B1 checks out the
    shirt, and the completed checkout is reconciled. *)
Lemma orders_reference_the_resolved_buyer_run :
  (exists rest,
      requests (paymentProcess Scenario.env Json.stringify [Scenario.shirt] "B1"
                  (incoming (Scenario.shop 10) Fake.empty)).2
      = CustomersCreate "b1@shop.test" Scenario.blob :: rest)
  /\ Forall (fun ctr => ctr_userId ctr = "B1") [Scenario.datum "P1" "M" 3]
  /\ exists created,
      orders (store_after (deliver Scenario.env Json.parse (in_turn 1)
                             (Scenario.signed "evt_1") (Scenario.shop 10)
                             Scenario.provider_with_cart))
      = orders (Scenario.shop 10) ++ created
      /\ Forall (fun o => userId o = "B1") created.
Proof.
  destruct (@orders_reference_the_resolved_buyer _ Scenario.stripe Scenario.env
              Json.stringify Json.parse [Scenario.shirt] "B1" Scenario.B1
              (Scenario.shop 10) (Scenario.shop 10) Fake.empty
              Scenario.provider_with_cart Scenario.provider_with_cart
              (Scenario.signed "evt_1") (Scenario.completed "cus_0")
              (Scenario.cus_0 (Some Scenario.blob)))
    as (Hblob & Hitems & Horders).
  - vm_compute. reflexivity.
  - vm_compute. reflexivity.
  - reflexivity.
  - vm_compute. reflexivity.
  - vm_compute. reflexivity.
  - vm_compute. reflexivity.
  - split; [exact Hblob|]. split; [exact Hitems|]. exact (Horders (in_turn 1)).
Defined.
(** * Further properties *)

(** ** The initiator *)

(** X5: the initiator does not validate the price and the discount.  When
    one of them is NaN, which is what a missing or non-numeric property
    becomes in the arithmetic, the amount computed is NaN and the text sent
    as [unit_amount_decimal] is NaN. *)
Theorem unit_amount_of_NaN_is_NaN (item : CartItem) :
  item_price item = S754_nan \/ item_discount item = S754_nan ->
  actualPrice item = S754_nan
  /\ unit_amount_decimal (line_item item) = "NaN".
Proof.
  intros H.
  assert (E : discounted item = S754_nan).
  { unfold discounted. cbv zeta. destruct H as [-> | ->].
    - reflexivity.
    - change (Number_div S754_nan (Number_of_Z 100)) with S754_nan.
      destruct (item_price item) as [s|s| |s m e]; reflexivity. }
  cbn [line_item unit_amount_decimal]. unfold actualPrice. cbv zeta. rewrite E.
  split; reflexivity.
Qed.

Lemma unit_amount_of_NaN_is_NaN_run :
  unit_amount_decimal
    (line_item {| item_id := "P1"; item_size := "M"; item_color := "red";
                  item_quantity := 3; item_price := S754_nan;
                  item_discount := Number_of_Z 10; item_title := "Shirt";
                  item_other := [] |})
  = "NaN".
Proof.
  apply (unit_amount_of_NaN_is_NaN
           {| item_id := "P1"; item_size := "M"; item_color := "red";
              item_quantity := 3; item_price := S754_nan;
              item_discount := Number_of_Z 10; item_title := "Shirt";
              item_other := [] |}).
  left. reflexivity.
Defined.

(** X6: for a cart entry without discount and with a price that is finite
    and not zero, the discounted price is the price itself, and the unit
    amount is one hundred times the price rounded to a whole number: what
    the price has after the point is lost. *)
Theorem unit_amount_without_discount_is_rounded_price
    (item : CartItem) (s sd : bool) (m : positive) (e : Z) :
  item_price item = S754_finite s m e ->
  item_discount item = S754_zero sd ->
  Z.abs (half_up (to_Q (item_price item))) * 100 < 2 ^ 53 ->
  discounted item = item_price item
  /\ actualPrice item = Number_of_Z (100 * half_up (to_Q (item_price item)))
  /\ unit_amount_decimal (line_item item)
     = pretty (100 * half_up (to_Q (item_price item))) +:+ ".00".
Proof.
  intros Hp Hd Hbound.
  assert (E : discounted item = item_price item).
  { unfold discounted. cbv zeta. rewrite Hp, Hd. reflexivity. }
  split; [exact E|].
  cbn [line_item unit_amount_decimal]. unfold actualPrice. cbv zeta. rewrite E.
  apply unit_amount_of_finite; [now rewrite Hp|exact Hbound].
Qed.

(** X6 on the socks of price 19.99: they are sent as 2000.00. *)
Lemma unit_amount_without_discount_is_rounded_price_run :
  unit_amount_decimal (line_item Scenario.socks) = "2000.00".
Proof.
  apply (unit_amount_without_discount_is_rounded_price Scenario.socks
           false false 5626684784446013 (-48));
    vm_compute; reflexivity.
Defined.

Section InitiatorProperties.

Context {P : Type} `{!StripeClient P}.
Variable env : Env.
Variable JSON_stringify : list OrderDatum -> string.

(** X1: for a buyer id that is not in the store the initiator answers 404
    with the error message and asks the provider for nothing. *)
Theorem paymentProcess_unknown_buyer (cart : list CartItem) (id : string) (d : Store) (p : P) :
  users d !! id = None ->
  paymentProcess env JSON_stringify cart id (incoming d p)
  = (Returned tt,
     {| db := d; provider := p; requests := [];
        res := {| statusCode := 404;
                  sent := Some (404, JsonObject [("error", "User not found")]) |} |}).
Proof.
  intros Huser. step_handler. unfold User_findOne. now rewrite Huser.
Qed.

(** X2: whatever the cart, the buyer id and the provider's answers, the
    initiator leaves the store as it found it, and what it sends the
    provider is nothing, or the customer creation for the buyer it looked
    up, or, when the provider answered that creation with a customer, the
    creation followed by a session creation for that customer. *)
Theorem paymentProcess_leaves_store_alone
    (cart : list CartItem) (id : string) (d : Store) (p : P) :
  db (paymentProcess env JSON_stringify cart id (incoming d p)).2 = d
  /\ ((users d !! id = None
       /\ requests (paymentProcess env JSON_stringify cart id (incoming d p)).2 = [])
      \/ exists user,
          users d !! id = Some user
          /\ ((exists e p1,
                 customers_create (email user) (JSON_stringify (orderData cart user)) p
                   = (Thrown e, p1)
                 /\ requests (paymentProcess env JSON_stringify cart id (incoming d p)).2
                    = [CustomersCreate (email user) (JSON_stringify (orderData cart user))])
              \/ exists new_customer p1,
                  customers_create (email user) (JSON_stringify (orderData cart user)) p
                    = (Returned new_customer, p1)
                  /\ requests (paymentProcess env JSON_stringify cart id (incoming d p)).2
                     = [CustomersCreate (email user) (JSON_stringify (orderData cart user));
                        SessionsCreate
                          (session_params env cart (customer_id new_customer))])).
Proof.
  step_handler. unfold User_findOne.
  destruct (users d !! id) as [user|] eqn:Huser; simp_world; [|auto].
  destruct (customers_create _ _ p) as [[new_customer|e] p1] eqn:Hcustomer; simp_world.
  - destruct (checkout_sessions_create _ p1) as [[session|e] p2]; simp_world;
      (split; [reflexivity|]; right; exists user; split; [reflexivity|]; right;
       exists new_customer, p1; split; [exact Hcustomer|reflexivity]).
  - split; [reflexivity|]. right. exists user. split; [reflexivity|]. left.
    exists e, p1. split; [exact Hcustomer|reflexivity].
Qed.

(** X3: when the provider refuses the customer, the initiator throws the
    provider's error having asked for nothing else; when it refuses the
    session, the initiator throws after the customer has been created, so
    the customer stays with the provider.  Neither way is the request
    answered or the store written. *)
Theorem paymentProcess_throws_what_the_provider_throws
    (cart : list CartItem) (id : string) (user : User) (d : Store) (p : P) :
  users d !! id = Some user ->
  (forall e p1,
      customers_create (email user) (JSON_stringify (orderData cart user)) p
        = (Thrown e, p1) ->
      paymentProcess env JSON_stringify cart id (incoming d p)
      = (Thrown e,
         {| db := d; provider := p1;
            requests := [CustomersCreate (email user) (JSON_stringify (orderData cart user))];
            res := fresh_response |}))
  /\ (forall new_customer e p1 p2,
      customers_create (email user) (JSON_stringify (orderData cart user)) p
        = (Returned new_customer, p1) ->
      checkout_sessions_create (session_params env cart (customer_id new_customer)) p1
        = (Thrown e, p2) ->
      paymentProcess env JSON_stringify cart id (incoming d p)
      = (Thrown e,
         {| db := d; provider := p2;
            requests := [CustomersCreate (email user) (JSON_stringify (orderData cart user));
                         SessionsCreate (session_params env cart (customer_id new_customer))];
            res := fresh_response |})).
Proof.
  intros Huser. split.
  - intros e p1 Hcustomer. step_handler. unfold User_findOne. rewrite Huser. simp_world.
    rewrite Hcustomer. reflexivity.
  - intros new_customer e p1 p2 Hcustomer Hsession.
    step_handler. unfold User_findOne. rewrite Huser. simp_world.
    rewrite Hcustomer. simp_world. rewrite Hsession. reflexivity.
Qed.

(** X4: for a known buyer and a provider that accepts, the initiator sends
    the cart blob of [orderData] with the buyer's email, then asks for a
    session with one line item per cart entry, in the order of the cart,
    each with the entry's title and quantity, for the customer the provider
    returned, and answers 200 with the session's URL. *)
Theorem paymentProcess_redirects_to_the_session
    (cart : list CartItem) (id : string) (user : User) (d : Store) (p p1 p2 : P)
    (new_customer : Customer) (session : Session) :
  users d !! id = Some user ->
  customers_create (email user) (JSON_stringify (orderData cart user)) p
    = (Returned new_customer, p1) ->
  checkout_sessions_create (session_params env cart (customer_id new_customer)) p1
    = (Returned session, p2) ->
  paymentProcess env JSON_stringify cart id (incoming d p)
  = (Returned tt,
     {| db := d; provider := p2;
        requests := [CustomersCreate (email user) (JSON_stringify (orderData cart user));
                     SessionsCreate (session_params env cart (customer_id new_customer))];
        res := {| statusCode := 200;
                  sent := Some (200, JsonObject [("url", url session)]) |} |})
  /\ map (fun l => (product_data_name l, quantity l))
         (line_items (session_params env cart (customer_id new_customer)))
     = map (fun item => (item_title item, item_quantity item)) cart
  /\ map (fun ctr => (ctr_id ctr, ctr_size ctr, ctr_color ctr, ctr_quantity ctr))
         (orderData cart user)
     = map (fun item => (item_id item, item_size item, item_color item, item_quantity item))
         cart
  /\ customer (session_params env cart (customer_id new_customer)) = customer_id new_customer.
Proof.
  intros Huser Hcustomer Hsession. split; [|split; [|split]].
  - step_handler. unfold User_findOne. rewrite Huser. simp_world.
    rewrite Hcustomer. simp_world. rewrite Hsession. reflexivity.
  - cbn [session_params line_items]. rewrite map_map. reflexivity.
  - unfold orderData. rewrite map_map. reflexivity.
  - reflexivity.
Qed.

End InitiatorProperties.

(** X1 on the scenario: buyer B2 is not in the store. *)
Lemma paymentProcess_unknown_buyer_run :
  paymentProcess Scenario.env Json.stringify [Scenario.shirt] "B2"
    (incoming (Scenario.shop 10) Fake.empty)
  = (Returned tt,
     {| db := Scenario.shop 10; provider := Fake.empty; requests := [];
        res := {| statusCode := 404;
                  sent := Some (404, JsonObject [("error", "User not found")]) |} |}).
Proof.
  apply (@paymentProcess_unknown_buyer _ Scenario.stripe Scenario.env Json.stringify
           [Scenario.shirt] "B2" (Scenario.shop 10) Fake.empty).
  vm_compute. reflexivity.
Defined.

(** X3 on the scenario's buyer with a provider that refuses: a cart of eight
    shirts makes a blob of more than 500 characters, an empty cart a session
    without line items. *)
Lemma paymentProcess_throws_what_the_provider_throws_run :
  paymentProcess (StripeClient0 := Strict.stripe Scenario.events) Scenario.env Json.stringify
    (replicate 8 Scenario.shirt) "B1" (incoming (Scenario.shop 10) Fake.empty)
  = (Thrown "Metadata values can have up to 500 characters",
     {| db := Scenario.shop 10; provider := Fake.empty;
        requests := [CustomersCreate "b1@shop.test"
                       (Json.stringify (orderData (replicate 8 Scenario.shirt) Scenario.B1))];
        res := fresh_response |})
  /\ paymentProcess (StripeClient0 := Strict.stripe Scenario.events) Scenario.env
       Json.stringify [] "B1" (incoming (Scenario.shop 10) Fake.empty)
     = (Thrown "line_items is required in payment mode",
        {| db := Scenario.shop 10;
           provider := {| Fake.ledger_customers := [Scenario.cus_0 (Some "[]")];
                          Fake.ledger_sessions := [] |};
           requests := [CustomersCreate "b1@shop.test" "[]";
                        SessionsCreate (session_params Scenario.env [] "cus_0")];
           res := fresh_response |}).
Proof.
  split.
  - apply (proj1 (@paymentProcess_throws_what_the_provider_throws _
                    (Strict.stripe Scenario.events) Scenario.env Json.stringify
                    (replicate 8 Scenario.shirt) "B1" Scenario.B1 (Scenario.shop 10)
                    Fake.empty ltac:(vm_compute; reflexivity))).
    vm_compute. reflexivity.
  - apply (proj2 (@paymentProcess_throws_what_the_provider_throws _
                    (Strict.stripe Scenario.events) Scenario.env Json.stringify
                    [] "B1" Scenario.B1 (Scenario.shop 10)
                    Fake.empty ltac:(vm_compute; reflexivity))
             (Scenario.cus_0 (Some "[]")) "line_items is required in payment mode"
             {| Fake.ledger_customers := [Scenario.cus_0 (Some "[]")];
                Fake.ledger_sessions := [] |}
             {| Fake.ledger_customers := [Scenario.cus_0 (Some "[]")];
                Fake.ledger_sessions := [] |});
      vm_compute; reflexivity.
Defined.

(** X4 on the scenario: B1 checks out the shirt. *)
Lemma paymentProcess_redirects_to_the_session_run :
  (paymentProcess Scenario.env Json.stringify [Scenario.shirt] "B1"
     (incoming (Scenario.shop 10) Fake.empty)).1 = Returned tt
  /\ sent (res (paymentProcess Scenario.env Json.stringify [Scenario.shirt] "B1"
                  (incoming (Scenario.shop 10) Fake.empty)).2)
     = Some (200, JsonObject [("url", "https://checkout.test/cs_0")]).
Proof.
  destruct (@paymentProcess_redirects_to_the_session _ Scenario.stripe Scenario.env
              Json.stringify [Scenario.shirt] "B1" Scenario.B1 (Scenario.shop 10)
              Fake.empty _ _ _ _
              ltac:(vm_compute; reflexivity) eq_refl eq_refl) as [E _].
  rewrite E. split; reflexivity.
Defined.
(** ** The reconciler under every schedule, failures included *)

Lemma resume_callback_resumes outcome cb d r :
  resumes outcome cb d r
    (resume_callback outcome cb d r).1.1
    (resume_callback outcome cb d r).1.2
    (resume_callback outcome cb d r).2.
Proof.
  destruct cb as [data c|data c rs|c|c s| |m], outcome as [e|];
    try (cbn [resume_callback fst snd]; constructor; reflexivity);
    try (cbn [resume_callback]; unfold on_error, write_out; cbn [sent set_status];
         destruct (sent r) as [x|] eqn:Hsent; cbn [fst snd];
         [eapply resumes_caught; [cbn; eauto|exact Hsent]
         |eapply resumes_answered; [cbn; eauto|exact Hsent]]).
  - rewrite resume_find_order. constructor.
  - cbn [resume_callback]. unfold ProductModel_findOne.
    destruct (products d !! ctr_id c) as [product|] eqn:E; cbn [fst snd];
      now constructor.
Qed.

Lemma turn_resumes st i outcome :
  (callbacks st !! i = None /\ turn st (i, outcome) = st)
  \/ exists cb cb' d' r',
      callbacks st !! i = Some cb
      /\ resumes outcome cb (loop_db st) (loop_res st) cb' d' r'
      /\ turn st (i, outcome)
         = {| loop_db := d'; loop_res := r'; callbacks := <[i := cb']> (callbacks st) |}.
Proof.
  destruct (turn_inv st i outcome) as [H | (cb & cb' & d' & r' & Hcb & E & Hturn)];
    [now left|right].
  exists cb, cb', d', r'. split; [exact Hcb|]. split; [|exact Hturn].
  pose proof (resume_callback_resumes outcome cb (loop_db st) (loop_res st)) as H.
  now rewrite E in H.
Qed.

Lemma sum_list_fmap_insert {A} (f : A -> nat) (l : list A) i x y :
  l !! i = Some x ->
  (sum_list (f <$> <[i := y]> l) + f x = sum_list (f <$> l) + f y)%nat.
Proof.
  revert i. induction l as [|a l IH]; intros i Hi; [discriminate|].
  destruct i as [|i]; csimpl in *.
  - inversion Hi; subst. lia.
  - specialize (IH i Hi). lia.
Qed.

Lemma forEach_follows data os items : Forall2 (follows data os) (forEach data items) items.
Proof. induction items as [|ctr items IH]; constructor; [split; reflexivity|exact IH]. Qed.

Lemma forEach_to_create data items :
  sum_list (to_create <$> forEach data items) = length items.
Proof. induction items as [|ctr items IH]; csimpl; [reflexivity|]. f_equal. exact IH. Qed.

(** A resumption leaves [users] alone, and either leaves [orders] alone or
    is the creation of the callback's order. *)
Lemma resumes_store outcome cb d r cb' d' r' :
  resumes outcome cb d r cb' d' r' ->
  users d' = users d
  /\ ((orders d' = orders d
       /\ (created cb' = true -> created cb = true \/ sent r = None)
       /\ (to_create cb' <= to_create cb)%nat)
      \/ exists data ctr reviewStatus,
          cb = AwaitCreate data ctr reviewStatus /\ cb' = AwaitFindProduct ctr
          /\ orders d' = orders d ++ [new_order data ctr reviewStatus]).
Proof.
  intros Hstep. inversion Hstep; subst; (split; [reflexivity|]);
    try (left; repeat split; cbn; solve [auto | lia | discriminate]).
  right. exists data, ctr, reviewStatus. repeat split.
Qed.

Lemma resumes_follows data os outcome cb d r cb' d' r' ctr :
  resumes outcome cb d r cb' d' r' ->
  (forall pid uid, eligible (orders d) pid uid = eligible os pid uid) ->
  follows data os cb ctr -> follows data os cb' ctr.
Proof.
  intros Hstep Hel. inversion Hstep; subst; cbn [follows]; try tauto.
  intros [-> ->]. repeat split. apply Hel.
Qed.

Lemma resumes_sent outcome cb d r cb' d' r' (x : Z * Body) :
  resumes outcome cb d r cb' d' r' -> sent r = Some x -> sent r' = Some x.
Proof.
  intros Hstep Hx. inversion Hstep; subst; cbn [sent set_status]; congruence.
Qed.

(** An order created with the flag of its pair among [os] leaves the
    eligibility of every pair as it was. *)
Lemma eligible_after_create data ctr os os' :
  (forall pid uid, eligible os' pid uid = eligible os pid uid) ->
  forall pid uid,
    eligible (os' ++ [new_order data ctr (eligible os (ctr_id ctr) (ctr_userId ctr))])
      pid uid
    = eligible os pid uid.
Proof.
  intros Hel pid uid. rewrite eligible_app, Hel. unfold eligible at 2.
  cbn [existsb]. rewrite orb_false_r.
  destruct (order_matches pid uid _) eqn:Hm; [|apply orb_false_r].
  unfold order_matches in Hm. cbn [new_order productId userId review] in Hm.
  apply andb_prop in Hm as [Hm Hr]. apply andb_prop in Hm as [Hp Hu].
  apply bool_decide_eq_true_1 in Hp, Hu. subst pid uid.
  rewrite Hr. reflexivity.
Qed.

(** What every run keeps, whatever the schedule and the failures. *)
Lemma run_any_invariant data items schedule d r :
  let st := run schedule (start d r (forEach data items)) in
  users (loop_db st) = users d
  /\ (forall pid uid,
        eligible (orders (loop_db st)) pid uid = eligible (orders d) pid uid)
  /\ Forall2 (follows data (orders d)) (callbacks st) items
  /\ (exists new,
        orders (loop_db st) = orders d ++ new
        /\ Forall (comes_from data (orders d) items) new
        /\ (length new + sum_list (to_create <$> callbacks st) <= length items)%nat)
  /\ (forall x, sent r = Some x ->
        sent (loop_res st) = Some x
        /\ forall i cb ctr,
            callbacks st !! i = Some cb -> items !! i = Some ctr -> created cb = true ->
            new_order data ctr (eligible (orders d) (ctr_id ctr) (ctr_userId ctr))
              ∈ orders (loop_db st)).
Proof.
  cbv zeta.
  apply (run_invariant (fun st =>
    users (loop_db st) = users d
    /\ (forall pid uid,
          eligible (orders (loop_db st)) pid uid = eligible (orders d) pid uid)
    /\ Forall2 (follows data (orders d)) (callbacks st) items
    /\ (exists new,
          orders (loop_db st) = orders d ++ new
          /\ Forall (comes_from data (orders d) items) new
          /\ (length new + sum_list (to_create <$> callbacks st) <= length items)%nat)
    /\ (forall x, sent r = Some x ->
          sent (loop_res st) = Some x
          /\ forall i cb ctr,
              callbacks st !! i = Some cb -> items !! i = Some ctr -> created cb = true ->
              new_order data ctr (eligible (orders d) (ctr_id ctr) (ctr_userId ctr))
                ∈ orders (loop_db st)))).
  - intros st [i outcome] HK.
    destruct (turn_resumes st i outcome)
      as [[_ ->] | (cb & cb' & d' & r' & Hcb & Hstep & ->)]; [exact HK|].
    destruct HK as (Husers & Hel & Hfol & (new & Hnew & Hfrom & Hcount) & Hsent).
    destruct (Forall2_lookup_l _ _ _ _ _ Hfol Hcb) as (ctr & Hctr & Hcbctr).
    pose proof (sum_list_fmap_insert to_create _ i cb cb' Hcb) as Hsum.
    assert (Hin : ctr ∈ items) by (eapply list_elem_of_lookup_2; exact Hctr).
    assert (Hlen : (i < length (callbacks st))%nat) by (eapply lookup_lt_Some; exact Hcb).
    pose proof (resumes_follows data (orders d) _ _ _ _ _ _ _ ctr Hstep Hel Hcbctr) as Hfol'.
    assert (HF : Forall2 (follows data (orders d)) (<[i := cb']> (callbacks st)) items)
      by (eapply Forall2_insert_l; [exact Hfol|exact Hctr|exact Hfol']).
    cbn [loop_db loop_res callbacks].
    destruct (resumes_store _ _ _ _ _ _ _ Hstep)
      as [Hu [(Ho & Hc & Ht) | (data' & c & rs & -> & -> & Ho)]].
    + rewrite Hu, Ho. split; [exact Husers|]. split; [exact Hel|]. split; [exact HF|].
      split; [exists new; repeat split; [exact Hnew|exact Hfrom|lia]|].
      intros x Hx. destruct (Hsent x Hx) as [Hs Hold].
      split; [exact (resumes_sent _ _ _ _ _ _ _ x Hstep Hs)|].
      intros j cbj ctrj Hcbj Hctrj Hcj. destruct (decide (i = j)) as [<-|Hj].
      * rewrite list_lookup_insert_eq in Hcbj by exact Hlen. inversion Hcbj; subst cbj.
        destruct (Hc Hcj) as [Hcreated | Hunsent]; [|congruence].
        now apply (Hold i cb ctrj).
      * rewrite list_lookup_insert_ne in Hcbj by exact Hj. now apply (Hold j cbj ctrj).
    + cbn [follows] in Hcbctr. destruct Hcbctr as (-> & -> & ->).
      cbn [to_create] in Hsum.
      rewrite Hu, Ho. split; [exact Husers|].
      split; [now apply eligible_after_create|]. split; [exact HF|].
      split.
      * exists (new ++ [new_order data ctr
                          (eligible (orders d) (ctr_id ctr) (ctr_userId ctr))]).
        rewrite Hnew, app_assoc. split; [reflexivity|]. split.
        -- apply Forall_app. split; [exact Hfrom|]. constructor; [|constructor].
           exists ctr. split; [exact Hin|reflexivity].
        -- rewrite length_app. cbn [length]. lia.
      * intros x Hx. destruct (Hsent x Hx) as [Hs Hold].
        split; [exact (resumes_sent _ _ _ _ _ _ _ x Hstep Hs)|].
        intros j cbj ctrj Hcbj Hctrj Hcj. apply elem_of_app.
        destruct (decide (i = j)) as [<-|Hj].
        -- right. rewrite Hctr in Hctrj. inversion Hctrj; subst ctrj.
           apply list_elem_of_singleton. reflexivity.
        -- left. rewrite list_lookup_insert_ne in Hcbj by exact Hj.
           now apply (Hold j cbj ctrj).
  - unfold start. cbn [loop_db loop_res callbacks].
    split; [reflexivity|]. split; [reflexivity|]. split; [apply forEach_follows|].
    split.
    + exists []. rewrite app_nil_r, forEach_to_create.
      split; [reflexivity|]. split; [constructor|cbn; lia].
    + intros x Hx. split; [exact Hx|].
      intros i cb ctr Hcb _ Hc. unfold forEach in Hcb. rewrite list_lookup_fmap in Hcb.
      destruct (items !! i); inversion Hcb; subst. discriminate.
Qed.

(** X7: whatever the schedule and whichever awaits fail, a delivery leaves
    the users alone, keeps every order that was there, in place, and adds
    at most one order per line item, each of them the order of one of the
    event's line items: its product, buyer, size, color and quantity, the
    event's address, and the flag that pair had when the delivery
    arrived. *)
Theorem delivery_only_appends_orders_of_its_line_items
    (data : SessionData) (items : list OrderDatum)
    (schedule : list (nat * option string)) (d : Store) (r : Response) :
  users (loop_db (run schedule (start d r (forEach data items)))) = users d
  /\ exists new,
      orders (loop_db (run schedule (start d r (forEach data items)))) = orders d ++ new
      /\ (length new <= length items)%nat
      /\ Forall (fun o =>
           exists ctr, ctr ∈ items
             /\ o = {| productId := ctr_id ctr; userId := ctr_userId ctr;
                       order_size := ctr_size ctr; order_color := ctr_color ctr;
                       quantities := ctr_quantity ctr;
                       address := customer_details_address data;
                       review := eligible (orders d) (ctr_id ctr) (ctr_userId ctr) |}) new.
Proof.
  destruct (run_any_invariant data items schedule d r)
    as (Husers & _ & _ & (new & Hnew & Hfrom & Hcount) & _).
  split; [exact Husers|]. exists new. split; [exact Hnew|]. split; [lia|exact Hfrom].
Qed.

(** X8: a delivery makes no pair of product and buyer review eligible and
    none ineligible, whatever the schedule; so every order in the store
    afterwards that has [review] true is of a pair that had a review
    eligible order when the delivery arrived. *)
Theorem delivery_keeps_review_eligibility
    (data : SessionData) (items : list OrderDatum)
    (schedule : list (nat * option string)) (d : Store) (r : Response) :
  (forall pid uid,
      eligible (orders (loop_db (run schedule (start d r (forEach data items))))) pid uid
      = eligible (orders d) pid uid)
  /\ Forall (fun o => review o = true ->
                      exists o', o' ∈ orders d /\ productId o' = productId o
                                 /\ userId o' = userId o /\ review o' = true)
       (orders (loop_db (run schedule (start d r (forEach data items))))).
Proof.
  destruct (run_any_invariant data items schedule d r) as (_ & Hel & _).
  split; [exact Hel|].
  apply Forall_forall. intros o Ho Hr.
  apply eligible_spec. rewrite <- Hel. apply eligible_spec.
  exists o. auto.
Qed.

Lemma resumes_products outcome cb d r cb' d' r' k :
  resumes outcome cb d r cb' d' r' ->
  target cb <> Some k ->
  products d' !! k = products d !! k.
Proof.
  intros Hstep Hk. inversion Hstep; subst; try reflexivity.
  cbn [ProductModel_findByIdAndUpdate products]. apply lookup_alter_ne.
  intros Heq. apply Hk. cbn [target]. now rewrite Heq.
Qed.

Lemma resumes_target outcome cb d r cb' d' r' k :
  resumes outcome cb d r cb' d' r' -> target cb' = Some k -> target cb = Some k.
Proof. intros Hstep. inversion Hstep; subst; cbn [target]; congruence. Qed.

(** The product of a single line item, failures included: once the answer
    is out, the callback of that line item is the only one to write the
    product, it writes once, and only when it gets to the end. *)
Lemma run_stock_single_any data items schedule d r x i ctr :
  sent r = Some x ->
  items !! i = Some ctr ->
  (forall j c, j <> i -> items !! j = Some c -> ctr_id c <> ctr_id ctr) ->
  stock_stage_any (products d)
    (products (loop_db (run schedule (start d r (forEach data items))))) ctr
    (callbacks (run schedule (start d r (forEach data items))) !! i).
Proof.
  intros Hx Hi Hothers.
  pose (K := fun st : EventLoop =>
    (forall j cb, j <> i -> callbacks st !! j = Some cb -> target cb <> Some (ctr_id ctr))
    /\ sent (loop_res st) = Some x
    /\ stock_stage_any (products d) (products (loop_db st)) ctr (callbacks st !! i)).
  assert (HK : K (run schedule (start d r (forEach data items)))).
  { apply run_invariant.
    - clear -K. intros st [j outcome] HK.
      destruct (turn_resumes st j outcome)
        as [[_ ->] | (cb & cb' & d' & r' & Hcb & Hstep & ->)]; [exact HK|].
      destruct HK as (Hrest & Hsent & Hstage).
      unfold K. cbn [loop_db loop_res callbacks].
      assert (Hlen : (j < length (callbacks st))%nat) by (eapply lookup_lt_Some; exact Hcb).
      split; [|split; [exact (resumes_sent _ _ _ _ _ _ _ x Hstep Hsent)|]].
      + intros j' cb0 Hj'. destruct (decide (j = j')) as [<-|Hjj'].
        * rewrite list_lookup_insert_eq by exact Hlen. intros [= <-] Ht.
          apply (Hrest j cb Hj' Hcb). exact (resumes_target _ _ _ _ _ _ _ _ Hstep Ht).
        * rewrite list_lookup_insert_ne by exact Hjj'. now apply Hrest.
      + destruct (decide (j = i)) as [->|Hji].
        * rewrite list_lookup_insert_eq by exact Hlen. rewrite Hcb in Hstage.
          inversion Hstep; subst; cbn [stock_stage_any] in *.
          -- exact Hstage.
          -- destruct cb as [? c|? c ?|c|c s| |]; cbn [stock_stage_any] in Hstage;
               try tauto; destruct H as [? [=]].
          -- congruence.
          -- exact Hstage.
          -- exact Hstage.
          -- destruct Hstage as [-> Hsame]. repeat split; [exact Hsame|].
             exists product. split; [congruence|reflexivity].
          -- destruct Hstage as [-> Hsame]. rewrite Hsame in H. rewrite Hsame, H.
             reflexivity.
          -- destruct Hstage as (-> & Hsame & p0 & Hp0 & ->).
             cbn [ProductModel_findByIdAndUpdate products].
             rewrite lookup_alter_eq, Hsame, Hp0. reflexivity.
        * rewrite list_lookup_insert_ne by exact Hji.
          pose proof (resumes_products _ _ _ _ _ _ _ (ctr_id ctr) Hstep
                        (Hrest j cb Hji Hcb)) as Hsame.
          unfold stock_stage_any in *. rewrite Hsame. exact Hstage.
    - unfold K, start, forEach. cbn [loop_db loop_res callbacks]. split; [|split].
      + intros j cb Hj Hcb. rewrite list_lookup_fmap in Hcb.
        destruct (items !! j) as [c|] eqn:Hc; [|discriminate].
        inversion Hcb; subst. cbn [target]. intros [= Heq].
        now apply (Hothers j c Hj Hc).
      + exact Hx.
      + rewrite list_lookup_fmap, Hi. cbn. auto.
  }
  apply HK.
Qed.

(** X9: once the answer is out, a line item does not depend on what happens
    to the others.  Whatever the schedule and whichever awaits fail: a line
    item whose callback is fulfilled has its order in the store, and if no
    other line item has its product, that product's document has had the
    clamped decrement applied exactly once; a line item whose callback is
    rejected has, in that case, left its product's document as it was. *)
Theorem line_item_outcome_is_its_own
    (data : SessionData) (items : list OrderDatum)
    (schedule : list (nat * option string)) (d : Store) (r : Response)
    (x : Z * Body) (i : nat) (ctr : OrderDatum) :
  sent r = Some x ->
  items !! i = Some ctr ->
  (callbacks (run schedule (start d r (forEach data items))) !! i = Some Fulfilled ->
     new_order data ctr (eligible (orders d) (ctr_id ctr) (ctr_userId ctr))
       ∈ orders (loop_db (run schedule (start d r (forEach data items))))
     /\ ((forall j c, j <> i -> items !! j = Some c -> ctr_id c <> ctr_id ctr) ->
         products (loop_db (run schedule (start d r (forEach data items)))) !! ctr_id ctr
         = decrement (ctr_quantity ctr) <$> products d !! ctr_id ctr))
  /\ (forall m,
        callbacks (run schedule (start d r (forEach data items))) !! i = Some (Rejected m) ->
        (forall j c, j <> i -> items !! j = Some c -> ctr_id c <> ctr_id ctr) ->
        products (loop_db (run schedule (start d r (forEach data items)))) !! ctr_id ctr
        = products d !! ctr_id ctr).
Proof.
  intros Hx Hi. split.
  - intros Hdone. split.
    + destruct (run_any_invariant data items schedule d r) as (_ & _ & _ & _ & Hsent).
      destruct (Hsent x Hx) as [_ Hrec]. now apply (Hrec i Fulfilled ctr).
    + intros Hothers.
      pose proof (run_stock_single_any data items schedule d r x i ctr Hx Hi Hothers) as H.
      rewrite Hdone in H. exact H.
  - intros m Hfailed Hothers.
    pose proof (run_stock_single_any data items schedule d r x i ctr Hx Hi Hothers) as H.
    rewrite Hfailed in H. exact H.
Qed.

(** *** Bounds on the stock *)

Lemma spent_insert k : forall cbs items i cb cb' ctr,
  cbs !! i = Some cb -> items !! i = Some ctr ->
  spent k (<[i := cb']> cbs) items = spent k cbs items - paid k cb ctr + paid k cb' ctr.
Proof.
  induction cbs as [|c cbs IH]; intros items i cb cb' ctr Hcb Hctr; [discriminate|].
  destruct items as [|ctr0 items]; [discriminate|].
  destruct i as [|i]; cbn in Hcb, Hctr.
  - inversion Hcb; inversion Hctr; subst.
    change (<[0%nat := cb']> (cb :: cbs)) with (cb' :: cbs). cbn [spent]. lia.
  - cbn [spent]. change (<[S i := cb']> (c :: cbs)) with (c :: <[i := cb']> cbs).
    cbn [spent]. rewrite (IH items i cb cb' ctr Hcb Hctr). lia.
Qed.

Lemma paid_nonneg k cb ctr : 0 <= ctr_quantity ctr -> 0 <= paid k cb ctr.
Proof. intros H. destruct cb; cbn; try lia. case_bool_decide; lia. Qed.

Lemma paid_requested k cb ctr :
  0 <= ctr_quantity ctr ->
  paid k cb ctr <= (if bool_decide (ctr_id ctr = k) then ctr_quantity ctr else 0).
Proof. intros H. destruct cb; cbn; case_bool_decide; lia. Qed.

Lemma spent_le_requested k : forall cbs items,
  Forall (fun ctr => 0 <= ctr_quantity ctr) items -> spent k cbs items <= requested k items.
Proof.
  induction cbs as [|cb cbs IH]; intros items Hq.
  - cbn. now apply requested_nonneg.
  - destruct items as [|ctr items]; [cbn; lia|].
    inversion Hq as [|? ? Hq1 Hq2]; subst.
    cbn [spent]. unfold requested. cbn [foldr]. fold (requested k items).
    pose proof (IH items Hq2). pose proof (paid_requested k cb ctr Hq1).
    case_bool_decide; lia.
Qed.

Lemma spent_forEach k data items : spent k (forEach data items) items = 0.
Proof. induction items as [|ctr items IH]; [reflexivity|]. cbn. exact IH. Qed.

Lemma within_budget_weaken k s0 b b' cb ctr :
  b <= b' -> within_budget k s0 b cb ctr -> within_budget k s0 b' cb ctr.
Proof.
  intros Hb. destruct cb; cbn [within_budget]; try tauto.
  intros [-> H]. split; [reflexivity|]. intros Hk. specialize (H Hk). lia.
Qed.

(** A settled callback has paid what it will ever pay; an unsettled one has
    paid nothing. *)
Lemma resumes_paid k outcome cb d r cb' d' r' ctr :
  resumes outcome cb d r cb' d' r' ->
  0 <= ctr_quantity ctr ->
  paid k cb ctr <= paid k cb' ctr.
Proof.
  intros Hstep Hq. pose proof (paid_nonneg k cb' ctr Hq) as Hnn.
  assert (Hcb : target cb = None \/ paid k cb ctr = 0) by (destruct cb; cbn; auto).
  destruct Hcb as [Hnone | Hzero]; [|lia].
  inversion Hstep; subst; try lia; cbn [target] in Hnone; try discriminate;
    match goal with H : is_Some (target _) |- _ => destruct H as [? H]; congruence end.
Qed.

Lemma run_stock_bounds data items schedule d r k p0 :
  products d !! k = Some p0 ->
  0 <= stock p0 ->
  Forall (fun ctr => 0 <= ctr_quantity ctr) items ->
  exists p,
    products (loop_db (run schedule (start d r (forEach data items)))) !! k = Some p
    /\ Z.max 0 (stock p0 - requested k items) <= stock p <= stock p0.
Proof.
  intros Hp0 Hs0 Hq.
  pose (K := fun st : EventLoop =>
    Forall2 (within_budget k (stock p0) (spent k (callbacks st) items)) (callbacks st) items
    /\ exists p, products (loop_db st) !! k = Some p
                 /\ 0 <= stock p <= stock p0
                 /\ stock p0 - spent k (callbacks st) items <= stock p).
  assert (HK : K (run schedule (start d r (forEach data items)))).
  { apply run_invariant.
    - clear -K Hq. intros st [i outcome] HK.
      destruct (turn_resumes st i outcome)
        as [[_ ->] | (cb & cb' & d' & r' & Hcb & Hstep & ->)]; [exact HK|].
      destruct HK as (Hwb & p & Hp & Hrange & Hlow).
      destruct (Forall2_lookup_l _ _ _ _ _ Hwb Hcb) as (ctr & Hctr & Hcbctr).
      assert (Hqc : 0 <= ctr_quantity ctr).
      { eapply (Forall_lookup_1 _ _ _ _ Hq). exact Hctr. }
      pose proof (spent_insert k _ _ i cb cb' ctr Hcb Hctr) as Hspent.
      pose proof (resumes_paid k _ _ _ _ _ _ _ ctr Hstep Hqc) as Hpaid.
      unfold K. cbn [loop_db callbacks].
      set (b := spent k (callbacks st) items) in *.
      set (b' := spent k (<[i := cb']> (callbacks st)) items) in *.
      assert (Hbb : b <= b') by lia.
      split.
      + eapply Forall2_insert_l; [|exact Hctr|].
        * eapply Forall2_impl; [exact Hwb|]. intros c0 ctr0. now apply within_budget_weaken.
        * inversion Hstep; subst; cbn [within_budget] in *; try tauto;
            try (eapply within_budget_weaken; [exact Hbb|exact Hcbctr]).
          split; [exact Hcbctr|]. subst ctr0. intros Hk.
          match goal with H : products _ !! _ = Some product |- _ =>
            rewrite Hk, Hp in H; inversion H; subst product end.
          cbn [paid] in Hspent. lia.
      + inversion Hstep; subst; cbn [within_budget paid] in *;
          try (exists p; repeat split; solve [assumption | lia]).
        destruct Hcbctr as [-> Hs].
        cbn [ProductModel_findByIdAndUpdate products].
        destruct (decide (ctr_id ctr = k)) as [Hk|Hk].
        * rewrite Hk, lookup_alter_eq, Hp. cbn. exists (set_stock s p).
          split; [reflexivity|]. cbn [set_stock stock].
          rewrite bool_decide_eq_true_2 in Hspent by exact Hk.
          specialize (Hs Hk). lia.
        * rewrite lookup_alter_ne by exact Hk. exists p.
          repeat split; solve [assumption | lia].
    - unfold K, start. cbn [loop_db callbacks]. rewrite spent_forEach. split.
      + clear. induction items as [|ctr items IH]; constructor; [reflexivity|exact IH].
      + exists p0. repeat split; solve [assumption | lia].
  }
  destruct HK as (_ & p & Hp & Hrange & Hlow).
  exists p. split; [exact Hp|].
  pose proof (spent_le_requested k (callbacks (run schedule (start d r (forEach data items))))
                items Hq).
  lia.
Qed.

(** X10: under every schedule, failures included, for line items without
    negative quantity and a product whose stock is not negative, the stock
    after a delivery is at most the stock before and at least
    max(0, stock before - sum of the quantities requested of the product):
    writes may be lost, but the reconciler never adds stock and never takes
    off more than was bought. *)
Theorem stock_between_clamped_difference_and_original
    (data : SessionData) (items : list OrderDatum)
    (schedule : list (nat * option string)) (d : Store) (r : Response)
    (k : string) (p0 : Product) :
  products d !! k = Some p0 ->
  0 <= stock p0 ->
  Forall (fun ctr => 0 <= ctr_quantity ctr) items ->
  exists p,
    products (loop_db (run schedule (start d r (forEach data items)))) !! k = Some p
    /\ Z.max 0 (stock p0 - requested k items) <= stock p <= stock p0.
Proof. apply run_stock_bounds. Qed.

(** *** Deliveries that run to the end without failures *)

(** A product no line item refers to is not touched. *)
Lemma run_products_untouched data items schedule d r k :
  k ∉ ctr_id <$> items ->
  products (loop_db (run schedule (start d r (forEach data items)))) !! k = products d !! k.
Proof.
  intros Hk.
  apply (run_invariant (fun st =>
    Forall (fun cb => target cb <> Some k) (callbacks st)
    /\ products (loop_db st) !! k = products d !! k)).
  - intros st [i outcome] [Hcbs Hsame].
    destruct (turn_resumes st i outcome)
      as [[_ ->] | (cb & cb' & d' & r' & Hcb & Hstep & ->)]; [split; assumption|].
    cbn [loop_db callbacks].
    pose proof (Forall_lookup_1 _ _ _ _ Hcbs Hcb) as Hcbk.
    split.
    + apply Forall_insert; [exact Hcbs|]. intros Ht. apply Hcbk.
      exact (resumes_target _ _ _ _ _ _ _ _ Hstep Ht).
    + now rewrite (resumes_products _ _ _ _ _ _ _ k Hstep Hcbk).
  - unfold start, forEach. cbn [loop_db callbacks]. split; [|reflexivity].
    apply Forall_fmap, Forall_forall. intros ctr Hin. cbn [target compose].
    intros [= Heq]. apply Hk. apply list_elem_of_fmap. exists ctr. auto.
Qed.

Lemma NoDup_ids_others (items : list OrderDatum) i ctr :
  NoDup (ctr_id <$> items) ->
  items !! i = Some ctr ->
  forall j c, j <> i -> items !! j = Some c -> ctr_id c <> ctr_id ctr.
Proof.
  intros Hnd Hi j c Hj Hc Heq. apply Hj.
  apply (NoDup_lookup _ j i (ctr_id ctr) Hnd); rewrite list_lookup_fmap.
  - rewrite Hc. cbn. now rewrite Heq.
  - now rewrite Hi.
Qed.

(** What a delivery of line items with pairwise distinct products leaves in
    [products] when it is reconciled without failures. *)
Lemma run_products_distinct data items schedule d r :
  NoDup (ctr_id <$> items) ->
  fault_free schedule ->
  Forall (eq Fulfilled) (callbacks (run schedule (start d r (forEach data items)))) ->
  forall k,
    products (loop_db (run schedule (start d r (forEach data items)))) !! k
    = match List.find (fun ctr => bool_decide (ctr_id ctr = k)) items with
      | Some ctr => decrement (ctr_quantity ctr) <$> products d !! k
      | None => products d !! k
      end.
Proof.
  intros Hnd Hff Hall k.
  destruct (List.find _ items) as [ctr|] eqn:Hfind.
  - apply find_some in Hfind as [Hin Hk]. apply bool_decide_eq_true_1 in Hk. subst k.
    apply list_elem_of_In, list_elem_of_lookup_1 in Hin as [i Hi].
    apply (run_stock_single data items schedule d r i ctr Hff Hi).
    + now apply (NoDup_ids_others items i ctr).
    + now apply (all_fulfilled_lookup data items schedule d r i ctr).
  - apply run_products_untouched. intros Hin.
    apply list_elem_of_fmap in Hin as (ctr & -> & Hin).
    apply list_elem_of_In in Hin.
    pose proof (find_none _ _ Hfind ctr Hin) as Hno. cbn in Hno.
    now rewrite bool_decide_eq_true_2 in Hno.
Qed.

(** X18: a delivery reconciled to the end without failures creates exactly
    one order per line item, whether the line item's product exists or not:
    the orders afterwards are the orders before and the batch of the line
    items, in some order. *)
Theorem delivery_creates_one_order_per_line_item
    (data : SessionData) (items : list OrderDatum)
    (schedule : list (nat * option string)) (d : Store) (r : Response) :
  fault_free schedule ->
  Forall (eq Fulfilled) (callbacks (run schedule (start d r (forEach data items)))) ->
  orders (loop_db (run schedule (start d r (forEach data items))))
    ≡ₚ orders d ++ batch data (orders d) items
  /\ length (orders (loop_db (run schedule (start d r (forEach data items)))))
     = (length (orders d) + length items)%nat.
Proof.
  intros Hff Hall. destruct (run_orders_batch data items schedule d r Hff Hall) as [Hperm _].
  split; [exact Hperm|].
  rewrite Hperm, length_app. unfold batch. now rewrite length_map.
Qed.

(** X11: when no two line items have the same product, the schedule does
    not matter: any two deliveries of the line items that run to the end
    without failures leave the same product documents, those that taking
    the line items one after another leaves, and the same orders up to
    their order. *)
Theorem distinct_products_make_the_schedule_irrelevant
    (data : SessionData) (items : list OrderDatum)
    (schedule1 schedule2 : list (nat * option string)) (d : Store) (r : Response) :
  NoDup (ctr_id <$> items) ->
  fault_free schedule1 ->
  fault_free schedule2 ->
  Forall (eq Fulfilled) (callbacks (run schedule1 (start d r (forEach data items)))) ->
  Forall (eq Fulfilled) (callbacks (run schedule2 (start d r (forEach data items)))) ->
  products (loop_db (run schedule1 (start d r (forEach data items))))
    = products (loop_db (run schedule2 (start d r (forEach data items))))
  /\ products (loop_db (run schedule1 (start d r (forEach data items))))
     = products (fold_left (reconcile data) items d)
  /\ orders (loop_db (run schedule1 (start d r (forEach data items))))
     ≡ₚ orders (loop_db (run schedule2 (start d r (forEach data items)))).
Proof.
  intros Hnd Hff1 Hff2 Hall1 Hall2.
  assert (Hserial : fault_free (one_by_one (length items))
                    /\ Forall (eq Fulfilled)
                         (callbacks (run (one_by_one (length items))
                                       (start d r (forEach data items))))).
  { split.
    - unfold fault_free, one_by_one. apply Forall_forall. intros step Hin.
      apply list_elem_of_In, in_flat_map in Hin as (i & _ & Hin).
      apply list_elem_of_In, elem_of_replicate in Hin as [-> _]. reflexivity.
    - rewrite run_one_by_one. cbn [start callbacks]. apply Forall_replicate. reflexivity. }
  destruct Hserial as [Hff0 Hall0].
  split; [|split].
  - apply map_eq. intros k.
    now rewrite !run_products_distinct.
  - apply map_eq. intros k.
    rewrite run_products_distinct by assumption.
    rewrite <- (run_products_distinct data items (one_by_one (length items)) d r Hnd Hff0 Hall0).
    now rewrite run_one_by_one.
  - destruct (run_orders_batch data items schedule1 d r Hff1 Hall1) as [-> _].
    destruct (run_orders_batch data items schedule2 d r Hff2 Hall2) as [-> _].
    reflexivity.
Qed.

(** X12: the reconciliation of a line item is not transactional.  When the
    product lookup of a line item fails after its order was created, the
    order stays in the store, no stock is decremented, the callback ends
    rejected in its [catch] block, and the answer that went out stays as it
    was. *)
Theorem failed_product_lookup_leaves_the_order
    (data : SessionData) (items : list OrderDatum) (d : Store) (r : Response)
    (x : Z * Body) (e : string) (i : nat) (ctr : OrderDatum) :
  sent r = Some x ->
  items !! i = Some ctr ->
  run [(i, None); (i, None); (i, Some e)] (start d r (forEach data items))
  = {| loop_db :=
         OrderModel_create
           (new_order data ctr (eligible (orders d) (ctr_id ctr) (ctr_userId ctr))) d;
       loop_res := {| statusCode := 500; sent := Some x |};
       callbacks :=
         <[i := Rejected "Cannot set headers after they are sent to the client"]>
           (forEach data items) |}.
Proof.
  intros Hx Hi.
  rewrite <- (take_drop_middle items i ctr Hi) at 1 2.
  unfold forEach. rewrite !fmap_app, !fmap_cons.
  assert (Hlen : length (AwaitFindOrder data <$> take i items) = i).
  { rewrite length_fmap, length_take. apply lookup_lt_Some in Hi. lia. }
  rewrite <- Hlen at 1 2 3 6.
  cbn [run fold_left].
  rewrite turn_middle, resume_find_order.
  rewrite turn_middle. cbn [resume_callback].
  rewrite turn_middle. cbn [resume_callback]. unfold on_error, write_out.
  cbn [set_status sent]. rewrite Hx. unfold start. f_equal.
  - unfold set_status. now rewrite Hx.
  - now rewrite insert_middle.
Qed.
(** ** The callbacks resumed in turn *)

Lemma resume_callback_None_res cb d r : (resume_callback None cb d r).2 = r.
Proof.
  destruct cb; cbn [resume_callback snd]; try reflexivity.
  destruct (ProductModel_findOne (ctr_id ctr) d); reflexivity.
Qed.

(** One round over the callbacks from position [length done] on is a
    sweep. *)
Lemma run_round : forall pending done d r,
  run (map (fun i => (i, None)) (seq (length done) (length pending)))
      (start d r (done ++ pending))
  = start (sweep d r pending).1 r (done ++ (sweep d r pending).2).
Proof.
  induction pending as [|cb pending IH]; intros done d r; [reflexivity|].
  cbn [length seq map run fold_left]. rewrite turn_middle.
  pose proof (resume_callback_None_res cb d r) as Hr.
  cbn [sweep]. destruct (resume_callback None cb d r) as [[cb' d'] r']. cbn in Hr. subst r'.
  replace (done ++ cb' :: pending) with ((done ++ [cb']) ++ pending)
    by now rewrite <- app_assoc.
  replace (S (length done)) with (length (done ++ [cb']))
    by (rewrite length_app; cbn; lia).
  fold (run (map (fun i => (i, None)) (seq (length (done ++ [cb'])) (length pending)))
          (start d' r ((done ++ [cb']) ++ pending))).
  rewrite IH. destruct (sweep d' r pending) as [d'' rest']. cbn [fst snd].
  now rewrite <- app_assoc.
Qed.

Lemma sweep_length d r cbs : length (sweep d r cbs).2 = length cbs.
Proof.
  revert d. induction cbs as [|cb cbs IH]; intros d; [reflexivity|].
  cbn [sweep]. destruct (resume_callback None cb d r) as [[cb' d'] r'].
  specialize (IH d'). destruct (sweep d' r cbs). cbn in *. now rewrite IH.
Qed.

(** The four rounds, one after the other. *)
Lemma sweep_lookups data r items d :
  sweep d r (forEach data items)
  = (d, map (fun ctr => AwaitCreate data ctr
                          (eligible (orders d) (ctr_id ctr) (ctr_userId ctr))) items).
Proof.
  induction items as [|ctr items IH]; [reflexivity|].
  cbn [forEach map sweep]. rewrite resume_find_order.
  fold (forEach data items). rewrite IH. reflexivity.
Qed.

Lemma sweep_creates data r (flag : OrderDatum -> bool) items : forall d,
  sweep d r (map (fun ctr => AwaitCreate data ctr (flag ctr)) items)
  = ({| users := users d;
        orders := orders d ++ map (fun ctr => new_order data ctr (flag ctr)) items;
        products := products d |},
     map AwaitFindProduct items).
Proof.
  induction items as [|ctr items IH]; intros d.
  - cbn. rewrite app_nil_r. destruct d; reflexivity.
  - cbn [map sweep resume_callback]. rewrite IH.
    cbn [OrderModel_create users orders products]. now rewrite <- app_assoc.
Qed.

Lemma sweep_reads r items d :
  sweep d r (map AwaitFindProduct items)
  = (d, map (fun ctr => match products d !! ctr_id ctr with
                        | Some product =>
                            AwaitUpdate ctr (Z.max (stock product - ctr_quantity ctr) 0)
                        | None => Fulfilled
                        end) items).
Proof.
  induction items as [|ctr items IH]; [reflexivity|].
  cbn [map sweep resume_callback]. unfold ProductModel_findOne.
  destruct (products d !! ctr_id ctr); rewrite IH; reflexivity.
Qed.

Lemma sweep_writes r (d0 : Store) items : forall d,
  sweep d r (map (fun ctr => match products d0 !! ctr_id ctr with
                             | Some product =>
                                 AwaitUpdate ctr (Z.max (stock product - ctr_quantity ctr) 0)
                             | None => Fulfilled
                             end) items)
  = ({| users := users d; orders := orders d;
        products := fold_left (write_back d0) items (products d) |},
     replicate (length items) Fulfilled).
Proof.
  induction items as [|ctr items IH]; intros d.
  - destruct d; reflexivity.
  - cbn [map sweep fold_left length replicate]. unfold write_back at 2.
    destruct (products d0 !! ctr_id ctr) as [product|]; cbn [resume_callback];
      rewrite IH; reflexivity.
Qed.

(** What the last line item of product [k] leaves of it. *)
Lemma fold_write_back_lookup (d0 : Store) (k : string) items : forall m,
  m !! k = products d0 !! k ->
  fold_left (write_back d0) items m !! k
  = match List.find (fun ctr => bool_decide (ctr_id ctr = k)) (rev items) with
    | Some ctr => decrement (ctr_quantity ctr) <$> products d0 !! k
    | None => products d0 !! k
    end.
Proof.
  induction items as [|ctr items IH] using rev_ind; intros m Hm; [exact Hm|].
  rewrite fold_left_app, rev_app_distr. cbn [fold_left rev app List.find].
  specialize (IH m Hm). unfold write_back at 1.
  case_bool_decide as Hk.
  - subst k. revert IH. destruct (products d0 !! ctr_id ctr) as [product|]; intros IH.
    + rewrite lookup_alter_eq, IH.
      destruct (List.find _ (rev items)); reflexivity.
    + rewrite IH. destruct (List.find _ (rev items)); reflexivity.
  - destruct (products d0 !! ctr_id ctr).
    + rewrite lookup_alter_ne by exact Hk. exact IH.
    + exact IH.
Qed.

(** X13: when the callbacks are resumed in turn, as a store that answers
    in the order it was asked makes them run, every callback reads its
    product before any writes.  The delivery then leaves the batch of the
    line items after the old orders, in the order of the cart, and of the
    line items of one product only the last one counts: the product ends at
    max(stock before - quantity of its last line item, 0). *)
Theorem in_turn_last_line_item_of_a_product_wins
    (data : SessionData) (items : list OrderDatum) (d : Store) (r : Response) :
  callbacks (run (in_turn (length items)) (start d r (forEach data items)))
    = replicate (length items) Fulfilled
  /\ orders (loop_db (run (in_turn (length items)) (start d r (forEach data items))))
     = orders d ++ batch data (orders d) items
  /\ forall k,
      products (loop_db (run (in_turn (length items)) (start d r (forEach data items)))) !! k
      = match List.find (fun ctr => bool_decide (ctr_id ctr = k)) (rev items) with
        | Some ctr => decrement (ctr_quantity ctr) <$> products d !! k
        | None => products d !! k
        end.
Proof.
  assert (E : run (in_turn (length items)) (start d r (forEach data items))
    = start {| users := users d;
               orders := orders d ++ batch data (orders d) items;
               products := fold_left (write_back d) items (products d) |}
            r (replicate (length items) Fulfilled)).
  { set (round := map (fun i : nat => (i, @None string)) (seq 0 (length items))).
    change (in_turn (length items)) with (round ++ round ++ round ++ round ++ []).
    rewrite app_nil_r, !run_app. subst round.
    pose proof (run_round (forEach data items) [] d r) as R1.
    cbn [length app] in R1. unfold forEach in R1 at 1. rewrite length_map in R1.
    rewrite R1, sweep_lookups. cbn [fst snd].
    pose proof (run_round (map (fun ctr => AwaitCreate data ctr
                  (eligible (orders d) (ctr_id ctr) (ctr_userId ctr))) items) [] d r) as R2.
    cbn [length app] in R2. rewrite length_map in R2.
    rewrite R2, sweep_creates. cbn [fst snd].
    set (d1 := {| users := users d; orders := _; products := products d |}).
    pose proof (run_round (map AwaitFindProduct items) [] d1 r) as R3.
    cbn [length app] in R3. rewrite length_map in R3.
    rewrite R3, sweep_reads. cbn [fst snd].
    pose proof (run_round (map (fun ctr => match products d1 !! ctr_id ctr with
                  | Some product =>
                      AwaitUpdate ctr (Z.max (stock product - ctr_quantity ctr) 0)
                  | None => Fulfilled end) items) [] d1 r) as R4.
    cbn [length app] in R4. rewrite length_map in R4.
    rewrite R4. change (products d1) with (products d).
    rewrite (sweep_writes r d items d1). reflexivity. }
  rewrite E. cbn [start callbacks loop_db orders products].
  split; [reflexivity|]. split; [reflexivity|].
  intros k. now apply fold_write_back_lookup.
Qed.
(** ** The reconciler on the second scenario *)

(** X18 on the three line items, resumed in turn. *)
Lemma delivery_creates_one_order_per_line_item_run :
  length (orders (loop_db (run (in_turn 3) (Market.reconciling Market.three_products))))
  = 3%nat.
Proof.
  apply (delivery_creates_one_order_per_line_item Market.data Market.three_products
           (in_turn 3) Market.store Scenario.acknowledged).
  - repeat constructor.
  - vm_compute. repeat constructor.
Defined.

(** X9 on the two line items when the second fails at once: the first is
    fulfilled, has its order and has taken three of P1; the second is
    rejected and P2 is as it was. *)
Lemma line_item_outcome_is_its_own_run :
  (new_order Market.data (Scenario.datum "P1" "M" 3) false
     ∈ orders (loop_db (run Market.second_fails (Market.reconciling Market.two_products)))
   /\ products (loop_db (run Market.second_fails
                           (Market.reconciling Market.two_products))) !! "P1"
      = Some (Scenario.P1 7))
  /\ products (loop_db (run Market.second_fails
                          (Market.reconciling Market.two_products))) !! "P2"
     = Some (Market.P2 1).
Proof.
  split.
  - destruct (proj1 (line_item_outcome_is_its_own Market.data Market.two_products
                       Market.second_fails Market.store Scenario.acknowledged
                       (200, NoBody) 0%nat (Scenario.datum "P1" "M" 3) eq_refl eq_refl))
      as [Horder Hstock]; [vm_compute; reflexivity|].
    split; [exact Horder|].
    refine (eq_trans (Hstock _) _); [|vm_compute; reflexivity].
    intros [|[|j]] c Hj Hc; [congruence| |discriminate].
    inversion Hc; subst. discriminate.
  - refine (eq_trans
              (proj2 (line_item_outcome_is_its_own Market.data Market.two_products
                        Market.second_fails Market.store Scenario.acknowledged
                        (200, NoBody) 1%nat (Scenario.datum "P2" "one" 4) eq_refl eq_refl)
                 "Cannot set headers after they are sent to the client" _ _) _).
    + vm_compute. reflexivity.
    + intros [|[|j]] c Hj Hc; [|congruence|discriminate].
      inversion Hc; subst. discriminate.
    + vm_compute. reflexivity.
Defined.

(** X10 on two sizes of P1 resumed in turn: the stock ends between 4 and
    10. *)
Lemma stock_between_clamped_difference_and_original_run :
  exists p,
    products (loop_db (run (in_turn 2) (Scenario.reconciling 10 Scenario.two_sizes))) !! "P1"
    = Some p
    /\ Z.max 0 (stock (Scenario.P1 10) - requested "P1" Scenario.two_sizes) <= stock p
       <= stock (Scenario.P1 10).
Proof.
  apply (stock_between_clamped_difference_and_original
           (data_object (Scenario.completed "cus_0")) Scenario.two_sizes (in_turn 2)
           (Scenario.shop 10) Scenario.acknowledged "P1" (Scenario.P1 10)).
  - vm_compute. reflexivity.
  - vm_compute. discriminate.
  - repeat constructor; vm_compute; discriminate.
Defined.

(** X11 on the two line items: in turn and one after the other. *)
Lemma distinct_products_make_the_schedule_irrelevant_run :
  products (loop_db (run (in_turn 2) (Market.reconciling Market.two_products)))
  = products (loop_db (run (one_by_one 2) (Market.reconciling Market.two_products))).
Proof.
  apply (distinct_products_make_the_schedule_irrelevant Market.data Market.two_products
           (in_turn 2) (one_by_one 2) Market.store Scenario.acknowledged).
  - vm_compute. repeat constructor; intros H; inversion H as [|? ? ? H']; inversion H'.
  - repeat constructor.
  - repeat constructor.
  - vm_compute. repeat constructor.
  - vm_compute. repeat constructor.
Defined.

(** X12 on the first of the two line items. *)
Lemma failed_product_lookup_leaves_the_order_run :
  run [(0%nat, None); (0%nat, None); (0%nat, Some "connection lost")]
      (Market.reconciling Market.two_products)
  = {| loop_db :=
         OrderModel_create (new_order Market.data (Scenario.datum "P1" "M" 3) false)
           Market.store;
       loop_res := {| statusCode := 500; sent := Some (200, NoBody) |};
       callbacks := [Rejected "Cannot set headers after they are sent to the client";
                     AwaitFindOrder Market.data (Scenario.datum "P2" "one" 4)] |}.
Proof.
  apply (failed_product_lookup_leaves_the_order Market.data Market.two_products
           Market.store Scenario.acknowledged (200, NoBody) "connection lost" 0%nat
           (Scenario.datum "P1" "M" 3) eq_refl eq_refl).
Defined.
(** ** The webhook when the customer cannot be retrieved *)

Section WebhookProperties.

Context {P : Type} `{!StripeClient P}.
Variable env : Env.
Variable JSON_parse : string -> option (list OrderDatum).

(** X14: when the provider throws at the retrieval of the customer of a
    verified completed checkout, the handler throws that error: the
    retrieval is the only request made, nothing is answered, no callback is
    started and the store stays as it was, whatever the schedule. *)
Theorem checkOutSession_throws_what_the_retrieval_throws
    (request : WebhookRequest) (d : Store) (p p' : P) (event : Event) (e : string) :
  webhooks_constructEvent (rawBody request) (stripe_signature request)
    (ENDPOINTSECRET env) = Returned event ->
  event_type event = "checkout.session.completed" ->
  customers_retrieve (data_customer (data_object event)) p = (Thrown e, p') ->
  checkOutSession env JSON_parse request (incoming d p)
  = (Thrown e,
     {| db := d; provider := p';
        requests := [CustomersRetrieve (data_customer (data_object event))];
        res := fresh_response |})
  /\ forall schedule,
      deliver env JSON_parse schedule request d p
      = {| store_after := d; provider_after := p'; answered := None;
           callbacks_after := [] |}.
Proof.
  intros Hsig Htype Hretrieve.
  assert (E : checkOutSession env JSON_parse request (incoming d p)
    = (Thrown e,
       {| db := d; provider := p';
          requests := [CustomersRetrieve (data_customer (data_object event))];
          res := fresh_response |})).
  { step_handler. rewrite Hsig. rewrite Htype.
    rewrite (bool_decide_eq_false_2 (_ = "payment_intent.succeeded")) by discriminate.
    rewrite bool_decide_eq_true_2 by reflexivity. simp_world.
    rewrite Hretrieve. reflexivity. }
  split; [exact E|]. intros schedule. unfold deliver. rewrite E. reflexivity.
Qed.

End WebhookProperties.

(** X14 on the scenario: the event names a customer the provider does not
    have. *)
Lemma checkOutSession_throws_what_the_retrieval_throws_run :
  deliver Scenario.env Json.parse (in_turn 1) (Scenario.signed "evt_3")
    (Scenario.shop 10) Scenario.provider_with_cart
  = {| store_after := Scenario.shop 10; provider_after := Scenario.provider_with_cart;
       answered := None; callbacks_after := [] |}.
Proof.
  apply (@checkOutSession_throws_what_the_retrieval_throws _ Scenario.stripe Scenario.env
           Json.parse (Scenario.signed "evt_3") (Scenario.shop 10)
           Scenario.provider_with_cart Scenario.provider_with_cart
           (Scenario.completed "cus_9") "No such customer: cus_9");
    [vm_compute; reflexivity | reflexivity | vm_compute; reflexivity].
Defined.
(** ** The product controller *)

Lemma append_cons (c : ascii) (a b : string) : String c a +:+ b = String c (a +:+ b).
Proof. reflexivity. Qed.

Lemma append_nil (b : string) : EmptyString +:+ b = b.
Proof. reflexivity. Qed.

Lemma startsWith_app (prefix s : string) : startsWith prefix (prefix +:+ s) = true.
Proof.
  induction prefix as [|c prefix IH]; [reflexivity|].
  rewrite append_cons. cbn [startsWith]. now rewrite Ascii.eqb_refl, IH.
Qed.

Lemma startsWith_inv (prefix url : string) :
  startsWith prefix url = true -> exists rest, url = prefix +:+ rest.
Proof.
  revert url. induction prefix as [|c prefix IH]; intros url H.
  - exists url. reflexivity.
  - destruct url as [|c' url]; [discriminate|]. cbn [startsWith] in H.
    apply andb_prop in H as [Hc H]. apply Ascii.eqb_eq in Hc. subst c'.
    destruct (IH url H) as [rest ->]. exists rest. reflexivity.
Qed.

Lemma test_image_extension_app (a ext : string) :
  image_extension ext = true -> test_image_extension (a +:+ ext) = true.
Proof.
  intros H. induction a as [|c a IH].
  - rewrite append_nil. destruct ext as [|c ext]; [discriminate|].
    cbn [test_image_extension]. now rewrite H.
  - rewrite append_cons. cbn [test_image_extension]. rewrite IH. apply orb_true_r.
Qed.

Lemma test_image_extension_inv (s : string) :
  test_image_extension s = true ->
  exists a ext, s = a +:+ ext /\ image_extension ext = true.
Proof.
  induction s as [|c s IH]; [discriminate|]. cbn [test_image_extension].
  intros H. apply orb_prop in H as [H|H].
  - exists EmptyString, (String c s). auto.
  - destruct (IH H) as (a & ext & -> & Hext). exists (String c a), ext. auto.
Qed.

(** No text that begins in the prefix is an image extension to its end. *)
Lemma test_image_extension_prefix (rest : string) :
  test_image_extension (cloudinary_prefix +:+ rest) = test_image_extension rest.
Proof. reflexivity. Qed.

(** X15: [isValidImageUrl] accepts exactly the texts that are the
    Cloudinary prefix, then anything, then [.jpg], [.jpeg] or [.png] in
    letters of any case.  What follows the prefix is not looked at: it need
    not begin a path. *)
Theorem isValidImageUrl_accepts_prefix_and_extension (url : string) :
  isValidImageUrl url = true
  <-> exists mid ext,
      url = "https://res.cloudinary.com" +:+ mid +:+ ext
      /\ toLowerCase ext ∈ [".jpg"; ".jpeg"; ".png"].
Proof.
  assert (Hext : forall ext,
    image_extension ext = true <-> toLowerCase ext ∈ [".jpg"; ".jpeg"; ".png"]).
  { intros ext. unfold image_extension. rewrite existsb_exists. split.
    - intros (e & Hin & He). apply String.eqb_eq in He. rewrite He.
      now apply list_elem_of_In.
    - intros Hin. exists (toLowerCase ext). split; [now apply list_elem_of_In|].
      apply String.eqb_refl. }
  unfold isValidImageUrl. split.
  - intros H. apply andb_prop in H as [H Htest]. apply andb_prop in H as [_ Hstart].
    apply startsWith_inv in Hstart as [rest ->].
    rewrite test_image_extension_prefix in Htest.
    apply test_image_extension_inv in Htest as (mid & ext & -> & Hok).
    exists mid, ext. split; [reflexivity|]. now apply Hext.
  - intros (mid & ext & -> & Hok). apply Hext in Hok.
    change "https://res.cloudinary.com" with cloudinary_prefix.
    rewrite startsWith_app, test_image_extension_prefix.
    rewrite (test_image_extension_app mid ext Hok). reflexivity.
Qed.

(** *** The public id of an image *)

Lemma split_nonempty sep s : split sep s <> [].
Proof.
  destruct s as [|c s]; cbn [split]; [discriminate|].
  destruct (Ascii.eqb c sep); [discriminate|]. destruct (split sep s); discriminate.
Qed.

Lemma split_without sep s : occurs sep s = false -> split sep s = [s].
Proof.
  induction s as [|c s IH]; [reflexivity|]. cbn [occurs split].
  intros H. apply orb_false_elim in H as [Hc Hs]. rewrite Hc, (IH Hs). reflexivity.
Qed.

(** Splitting distributes over a separator in the middle. *)
Lemma split_app sep a b :
  split sep (a +:+ String sep b) = split sep a ++ split sep b.
Proof.
  induction a as [|c a IH].
  - rewrite append_nil. cbn [split]. now rewrite Ascii.eqb_refl.
  - rewrite append_cons. cbn [split]. rewrite IH.
    destruct (Ascii.eqb c sep); [reflexivity|].
    pose proof (split_nonempty sep a) as Hne.
    destruct (split sep a) as [|x xs]; [contradiction|]. reflexivity.
Qed.

Lemma last_app_nonempty {A} (l1 l2 : list A) (x : A) :
  l2 <> [] -> List.last (l1 ++ l2) x = List.last l2 x.
Proof.
  intros H. induction l1 as [|a l1 IH]; [reflexivity|].
  cbn [app List.last]. rewrite <- IH.
  destruct (l1 ++ l2) eqn:E; [|reflexivity].
  apply app_eq_nil in E as [_ E]. contradiction.
Qed.

(** X16: the public id that [deleteProduct] computes for an image is the
    part of the last path segment before its first dot: for a file
    [name.rest] in any directory, where [name] has no slash and no dot and
    [rest] has no slash, it is [name], also when [rest] has further
    dots. *)
Theorem imagePublicId_is_the_name_before_the_first_dot (dir name rest : string) :
  occurs "/" name = false ->
  occurs "." name = false ->
  occurs "/" rest = false ->
  imagePublicId (dir +:+ "/" +:+ name +:+ "." +:+ rest) = name.
Proof.
  intros Hname Hdot Hrest. unfold imagePublicId.
  change ("/" +:+ name +:+ "." +:+ rest) with (String "/" (name +:+ "." +:+ rest)).
  rewrite split_app, last_app_nonempty by apply split_nonempty.
  assert (Hseg : occurs "/" (name +:+ "." +:+ rest) = false).
  { clear -Hname Hrest. induction name as [|c name IH].
    - exact Hrest.
    - rewrite append_cons. cbn [occurs] in *.
      apply orb_false_elim in Hname as [Hc Hn]. now rewrite Hc, IH. }
  rewrite (split_without _ _ Hseg). cbn [List.last].
  change ("." +:+ rest) with (String "." rest).
  rewrite split_app, (split_without _ _ Hdot). reflexivity.
Qed.

Lemma imagePublicId_is_the_name_before_the_first_dot_run :
  imagePublicId "https://res.cloudinary.com/shop/image/upload/v1/products/red.shirt.jpg"
  = "red".
Proof.
  apply (imagePublicId_is_the_name_before_the_first_dot
           "https://res.cloudinary.com/shop/image/upload/v1/products" "red" "shirt.jpg");
    reflexivity.
Defined.

(** *** Deleting a product *)

Section CatalogProperties.

Context {C : Type} `{!Cloudinary C}.

(** X17: [deleteProduct] for an id without product answers 404 and touches
    neither the store nor the asset host.  For a product it asks the host to
    destroy [products/<public id>] for the three images, in their order and
    all three also when one fails; it deletes the product and answers 200
    when all three were destroyed, and otherwise answers 500 and leaves the
    product in the store, although some of its images may be gone. *)
Theorem deleteProduct_removes_images_then_product (id : string) (d : Store) (c : C) :
  (products d !! id = None ->
   deleteProduct id (incoming d c)
   = (Returned tt,
      {| db := d; provider := c; requests := [];
         res := {| statusCode := 404;
                   sent := Some (404, JsonObject [("msg", "Product not found")]) |} |}))
  /\ (forall product r1 r2 r3 c1 c2 c3,
       products d !! id = Some product ->
       uploader_destroy ("products/" +:+ imagePublicId (image1 product)) c = (r1, c1) ->
       uploader_destroy ("products/" +:+ imagePublicId (image2 product)) c1 = (r2, c2) ->
       uploader_destroy ("products/" +:+ imagePublicId (image3 product)) c2 = (r3, c3) ->
       deleteProduct id (incoming d c)
       = (Returned tt,
          if all_returned [r1; r2; r3]
          then {| db := {| users := users d; orders := orders d;
                           products := delete id (products d) |};
                  provider := c3; requests := [];
                  res := {| statusCode := 200;
                            sent := Some (200, JsonObject
                                      [("msg", "Product has been deleted successfully")]) |} |}
          else {| db := d; provider := c3; requests := [];
                  res := {| statusCode := 500;
                            sent := Some (500, JsonObject
                                      [("msg", "Error deleting product")]) |} |})).
Proof.
  split.
  - intros Hnone. unfold deleteProduct. step_handler.
    unfold ProductModel_findOne. now rewrite Hnone.
  - intros product r1 r2 r3 c1 c2 c3 Hsome H1 H2 H3.
    unfold deleteProduct. step_handler. unfold ProductModel_findOne. rewrite Hsome.
    cbn [map Promise_all]. unfold remote_call. simp_world.
    rewrite H1. simp_world. rewrite H2. simp_world. rewrite H3.
    unfold modify, ProductModel_findByIdAndDelete.
    destruct r1 as [[]|e1], r2 as [[]|e2], r3 as [[]|e3]; reflexivity.
Qed.

End CatalogProperties.

(** X17 on a store with the three products of the second scenario's
    kind: P1 with its three images on the host, P2 with the second image
    missing there, and no P9. *)
Lemma deleteProduct_removes_images_then_product_run :
  let assets := ["products/1"; "products/2"; "products/3"; "products/4"; "products/6"] in
  deleteProduct (Cloudinary0 := Cloud.host) "P9" (incoming Market.store assets)
  = (Returned tt,
     {| db := Market.store; provider := assets; requests := [];
        res := {| statusCode := 404;
                  sent := Some (404, JsonObject [("msg", "Product not found")]) |} |})
  /\ (deleteProduct (Cloudinary0 := Cloud.host) "P1" (incoming Market.store assets)).2
     = {| db := {| users := users Market.store; orders := [];
                   products := {["P2" := Market.P2 1]} |};
          provider := ["products/4"; "products/6"]; requests := [];
          res := {| statusCode := 200;
                    sent := Some (200, JsonObject
                              [("msg", "Product has been deleted successfully")]) |} |}
  /\ (deleteProduct (Cloudinary0 := Cloud.host) "P2" (incoming Market.store assets)).2
     = {| db := Market.store;
          provider := ["products/1"; "products/2"; "products/3"]; requests := [];
          res := {| statusCode := 500;
                    sent := Some (500, JsonObject [("msg", "Error deleting product")]) |} |}.
Proof.
  intros assets. split; [|split].
  - apply (proj1 (@deleteProduct_removes_images_then_product _ Cloud.host "P9"
                    Market.store assets)).
    vm_compute. reflexivity.
  - rewrite (proj2 (@deleteProduct_removes_images_then_product _ Cloud.host "P1"
                      Market.store assets)
               (Scenario.P1 10) (Returned tt) (Returned tt) (Returned tt)
               ["products/2"; "products/3"; "products/4"; "products/6"]
               ["products/3"; "products/4"; "products/6"]
               ["products/4"; "products/6"]);
      vm_compute; reflexivity.
  - rewrite (proj2 (@deleteProduct_removes_images_then_product _ Cloud.host "P2"
                      Market.store assets)
               (Market.P2 1) (Returned tt) (Thrown "Resource not found: products/5")
               (Returned tt)
               ["products/1"; "products/2"; "products/3"; "products/6"]
               ["products/1"; "products/2"; "products/3"; "products/6"]
               ["products/1"; "products/2"; "products/3"]);
      vm_compute; reflexivity.
Defined.
